(** * copy-clipboard: a shallow embedding of [src/copy-clipboard.js]

    The library binds click handlers that copy text or images to the
    clipboard ([copyClipboard]), reads per-element overrides from
    [data-copy-*] attributes ([mergeOptions]), and interprets paste events
    ([handlePaste]).

    Conventions of the embedding.
    - JavaScript values are the inductive [value]; numbers are IEEE 754
      doubles (Rocq's primitive floats), so [NaN] and the two zeros exist.
      BigInts and Symbols are not among the values.
    - Strings are [string]s of 8-bit characters; [toLowerCase] and
      [toUpperCase] act on the ASCII letters and leave every other
      character alone, which is what JavaScript does on strings of ASCII
      characters.  A statement that depends on the case mapping of an
      arbitrary string is made of ASCII strings ([isASCII]).
    - Objects used as dictionaries (option objects) are [gmap]s keyed by
      strings.  The [dataset] of an element is the [gmap] of its own
      [data-*] entries; the names it inherits from [Object.prototype] are
      found by [datasetProperty].
    - A click bubbles: it runs the copy handlers of the clicked element and
      then those of the elements above it ([ancestors]).
    - What the browser decides (selector matching, conversions of objects
      to strings, the outcome of canvas and clipboard operations) is a
      parameter: a [Browser] record for the synchronous part, and the answers
      of an environment to the events of a small free monad for the
      asynchronous part. *)

Set Warnings "-register-all".
From Stdlib Require Import Floats.PrimFloat.
From Stdlib Require Import Ascii String.
From stdpp Require Import gmap strings list fin_maps.

Local Open Scope string_scope.
Local Open Scope list_scope.

(** ** Strings *)

Module Str.

Definition is_upper (c : ascii) : bool :=
  let n := nat_of_ascii c in (65 <=? n)%nat && (n <=? 90)%nat.

Definition is_lower (c : ascii) : bool :=
  let n := nat_of_ascii c in (97 <=? n)%nat && (n <=? 122)%nat.

Definition lower_ascii (c : ascii) : ascii :=
  if is_upper c then ascii_of_nat (nat_of_ascii c + 32) else c.

Definition upper_ascii (c : ascii) : ascii :=
  if is_lower c then ascii_of_nat (nat_of_ascii c - 32) else c.

(** [s.toLowerCase()] *)
Fixpoint toLowerCase (s : string) : string :=
  match s with
  | EmptyString => EmptyString
  | String c r => String (lower_ascii c) (toLowerCase r)
  end.

(** [s.toUpperCase()] *)
Fixpoint toUpperCase (s : string) : string :=
  match s with
  | EmptyString => EmptyString
  | String c r => String (upper_ascii c) (toUpperCase r)
  end.

(** [s.charAt(0)]: the first character as a string, [""] when there is
    none. *)
Definition charAt0 (s : string) : string :=
  match s with
  | EmptyString => EmptyString
  | String c _ => String c EmptyString
  end.

(** [s.slice(1)] *)
Definition slice1 (s : string) : string :=
  match s with
  | EmptyString => EmptyString
  | String _ r => r
  end.

(** [s.split("-")]: never the empty list, [[""]] for the empty string. *)
Fixpoint split_dash (s : string) : list string :=
  match s with
  | EmptyString => [EmptyString]
  | String c r =>
      if Ascii.eqb c "-"%char then EmptyString :: split_dash r
      else match split_dash r with
           | h :: t => String c h :: t
           | [] => [String c EmptyString]
           end
  end.

(** [parts.join(sep)] on strings. *)
Fixpoint join (sep : string) (parts : list string) : string :=
  match parts with
  | [] => EmptyString
  | [p] => p
  | p :: ps => p +:+ sep +:+ join sep ps
  end.

(** [s.startsWith(p)] *)
Definition startsWith (s p : string) : bool := String.prefix p s.

End Str.

(** ** Values *)

Definition ElemId := nat.

(** A [File] (or [Blob]): only its MIME type and name are read. *)
Record File := { file_name : string; file_type : string }.

(** Function values that occur as callbacks. *)
Inductive fn :=
| FnNoop                (* [(x) => {}] *)
| FnConsoleError        (* [(error) => console.error(error)] *)
| FnUser (tag : nat)    (* a function supplied by the caller *)
| FnInherited (name : string).
                        (* a method every object inherits:
                           [Object.prototype.toString] and the like *)

Inductive value :=
| VUndefined
| VNull
| VBool (b : bool)
| VNum (n : float)
| VStr (s : string)
| VFunction (f : fn)
| VFile (f : File)
| VElement (e : ElemId)          (* an [Element] of the page *)
| VArray (items : list value)
| VObject (tag : nat).           (* any other object *)

(** [!!v] *)
Definition ToBoolean (v : value) : bool :=
  match v with
  | VUndefined | VNull => false
  | VBool b => b
  | VNum n => (n =? n)%float && negb (n =? 0)%float
  | VStr s => negb (String.eqb s "")
  | VFunction _ | VFile _ | VElement _ | VArray _ | VObject _ => true
  end.

(** [a || b] *)
Definition js_or (a b : value) : value := if ToBoolean a then a else b.

(** [typeof v] *)
Definition typeof (v : value) : string :=
  match v with
  | VUndefined => "undefined"
  | VBool _ => "boolean"
  | VNum _ => "number"
  | VStr _ => "string"
  | VFunction _ => "function"
  | VNull | VFile _ | VElement _ | VArray _ | VObject _ => "object"
  end.

(** [boolVal]. The four tests of the source, in order:
    [!!value === value] holds exactly of the booleans;
    [+value === value] holds exactly of the numbers that equal themselves,
    that is of every number but [NaN];
    [''+value === value] holds exactly of the strings;
    everything else gets [!!value]. *)
Definition boolVal (v : value) : bool :=
  match v with
  | VBool b => b
  | VNum n =>
      if (n =? n)%float
      then (if (n =? 0)%float then false else true)
      else ToBoolean v
  | VStr s => String.eqb (Str.toLowerCase s) "true"
  | _ => ToBoolean v
  end.

(** ** Option objects and elements *)

(** Property read [o.k]: [undefined] when the key is absent. *)
Definition get (o : gmap string value) (k : string) : value :=
  default VUndefined (o !! k).

(** [Object.assign({}, defaults, given)]: keys of [given] win. *)
Definition Object_assign (defaults given : gmap string value) : gmap string value :=
  given ∪ defaults.

Definition VERSION : string := "1.0.2".

Definition DEFAULT_OPTIONS : gmap string value :=
  list_to_map
    [ ("target", VNull);
      ("targetChildren", VNull);
      ("multiple", VBool true);
      ("joinText", VStr (String (ascii_of_nat 10) EmptyString));
      ("images", VBool true);
      ("value", VNull);
      ("suppressWarnings", VBool true);
      ("debug", VBool false) ].

(** The properties of an element that the library reads.  [dataset] holds
    the [data-*] attributes under their camelCase names, as the DOM exposes
    them: [data-copy-target] is [dataset.copyTarget]. *)
Record Element := {
  tagName : string;
  isHTMLElement : bool;      (* [el instanceof HTMLElement]: false of an SVG
                                or MathML element, which has a [dataset] and
                                takes listeners all the same *)
  dataset : gmap string string;
  innerText : value;
  textContent : value;
  el_value : value;          (* [.value] *)
  el_text : value;           (* [.text] *)
  alt : value;
  title : value;
  src : value;
  selectedIndex : Z;         (* of a [select]; -1 when nothing is selected *)
  optionTexts : list value   (* [.options[i].text] of a [select] *)
}.



(** [snakeToCamel] *)
Definition snakeToCamel (str : string) : string :=
  let stage1 :=
    Str.join ""
      (map (fun v => Str.toUpperCase (Str.charAt0 v) +:+ Str.slice1 v)
           (Str.split_dash str)) in
  Str.toLowerCase (Str.charAt0 stage1) +:+ Str.slice1 stage1.

(** The names every object inherits from [Object.prototype]. *)
Definition Object_prototype_names : list string :=
  [ "constructor"; "hasOwnProperty"; "isPrototypeOf"; "propertyIsEnumerable";
    "toLocaleString"; "toString"; "valueOf"; "__defineGetter__";
    "__defineSetter__"; "__lookupGetter__"; "__lookupSetter__"; "__proto__" ].

(** What reading an inherited name gives: the prototype object for
    [__proto__], a method for every other name. *)
Definition inheritedValue (name : string) : value :=
  if String.eqb name "__proto__" then VObject 0 else VFunction (FnInherited name).

(** [name in target.dataset] and, when that holds, [target.dataset[name]].
    The [in] operator finds the element's own [data-*] entries, which come
    first and are strings, and after them the names the [dataset] object
    inherits. *)
Definition datasetProperty (target : Element) (name : string) : option value :=
  match dataset target !! name with
  | Some d => Some (VStr d)
  | None =>
      if bool_decide (name ∈ Object_prototype_names) then Some (inheritedValue name)
      else None
  end.

(** [mergeOptions].  The [for (const key in options)] loop is the fold over
    the entries of [options]. *)
Definition mergeOptions (target : Element) (options : gmap string value)
    (prefix : string) : gmap string value :=
  let prefix := if String.eqb prefix "" then prefix else prefix +:+ "-" in
  map_fold
    (fun key v resultingOptions =>
       let optionName := snakeToCamel (prefix +:+ key) in
       match datasetProperty target optionName with
       | Some d => <[key := d]> resultingOptions
       | None => <[key := v]> resultingOptions
       end)
    ∅ options.

(** ** The browser, as the synchronous code sees it *)

(** Selector matching, the document and the conversion of non-primitive
    values to strings belong to the browser.  A query answers [None] when
    the selector does not parse (the DOM throws a [SyntaxError]). *)
Record Browser := {
  elem : ElemId -> Element;
  document : list ElemId;   (* the elements of the document, in tree order *)
  ancestors : ElemId -> list ElemId;
    (* the elements above an element, from its parent up to the root: the
       way an event takes when it bubbles *)
  document_querySelectorAll : string -> option (list ElemId);
  element_querySelectorAll : ElemId -> string -> option (list ElemId);
  ToString_other : value -> string   (* [String(v)] of numbers and objects *)
}.

(** [String(v)] *)
Definition ToString (B : Browser) (v : value) : string :=
  match v with
  | VUndefined => "undefined"
  | VNull => "null"
  | VBool true => "true"
  | VBool false => "false"
  | VStr s => s
  | _ => ToString_other B v
  end.

(** [items.join(sep)]: [undefined] and [null] items print as [""], an
    [undefined] separator is [","]. *)
Definition Array_join (B : Browser) (items : list value) (sep : value) : string :=
  Str.join
    (match sep with VUndefined => "," | _ => ToString B sep end)
    (map (fun v => match v with
                   | VUndefined | VNull => ""
                   | _ => ToString B v
                   end) items).

Definition tag_is (B : Browser) (e : ElemId) (name : string) : bool :=
  String.eqb (Str.toLowerCase (tagName (elem B e))) name.

(** ** Console output and clipboard requests *)

Inductive message :=
| NoElementsFound                       (* 'No elements found to make copyable:' *)
| NothingToCopy (copyable : ElemId)     (* 'Nothing to copy for element:' *)
| UnsupportedValueType (type : string)  (* 'Unsupported value type for copying: ...' *)
| NoTargetElements (target targetChildren : value)
                                        (* 'No target elements found for selector: ...' *)
| CopyingFirst (target : ElemId)        (* 'Copying only the first target element: ...' *)
| CopyingAll (targets : list ElemId).   (* 'Copying all target elements: ' *)

(** What a call of [copyClipboard] or a click handler does to the outside,
    in order.  The two [copy...ToClipboard] functions are asynchronous: the
    handler starts them and returns.  What the promise of
    [navigator.clipboard.write] does when it settles (a debug line, or
    [console.error]) comes after the handler has returned and is not
    listed. *)
Inductive action :=
| ConsoleWarn (m : message)
| ConsoleLog (m : message)
| ClipboardWrite (type : string) (f : File)
    (* [navigator.clipboard.write([new ClipboardItem({[type]: f})])] *)
| CopyTextToClipboard (text : value)    (* [copyTextToClipboard(text)] *)
| CopyImageToClipboard (img : ElemId).  (* [copyImageToClipboard(img)] *)

(** ** The state the library keeps on the page *)

(** The two variables [WARNING] and [DEBUG] of one call of [copyClipboard]:
    [true] when the variable holds the printing function, [false] when it
    holds the identity.  They are declared once per call and assigned in
    every round of the loop; the handlers created by that call all refer to
    these same two variables. *)
Record Frame := { WARNING : bool; DEBUG : bool }.

(** A [copyHandler] closure. *)
Record Handler := {
  h_copyable : ElemId;
  h_elementOptions : gmap string value;
  h_options : gmap string value;
  h_frame : nat
}.

(** The object stored in [element._copyClipboard]. *)
Record CopyRecord := {
  rec_options : gmap string value;
  rec_copyHandler : nat;
  rec_version : string
}.

Record State := {
  listeners : gmap ElemId (list nat);
    (* the copy handlers among the click listeners of each element, by
       identity, in the order of registration *)
  copyClipboardProp : gmap ElemId CopyRecord;   (* [element._copyClipboard] *)
  handlers : list Handler;      (* the closures created so far; a handler's
                                   identity is its position *)
  frames : list Frame
}.

Definition initial : State :=
  {| listeners := ∅; copyClipboardProp := ∅; handlers := []; frames := [] |}.

Definition listenersOf (st : State) (e : ElemId) : list nat :=
  default [] (listeners st !! e).

Definition set_frame (f : nat) (fr : Frame) (st : State) : State :=
  {| listeners := listeners st; copyClipboardProp := copyClipboardProp st;
     handlers := handlers st; frames := <[f := fr]> (frames st) |}.

Definition new_frame (fr : Frame) (st : State) : State :=
  {| listeners := listeners st; copyClipboardProp := copyClipboardProp st;
     handlers := handlers st; frames := frames st ++ [fr] |}.

Definition new_handler (h : Handler) (st : State) : State :=
  {| listeners := listeners st; copyClipboardProp := copyClipboardProp st;
     handlers := handlers st ++ [h]; frames := frames st |}.

(** [e.removeEventListener('click', h)] *)
Definition removeEventListener (e : ElemId) (h : nat) (st : State) : State :=
  {| listeners := <[e := filter (fun h' => h' ≠ h) (listenersOf st e)]> (listeners st);
     copyClipboardProp := copyClipboardProp st;
     handlers := handlers st; frames := frames st |}.

(** [e.addEventListener('click', h)]: a listener already registered is not
    registered twice. *)
Definition addEventListener (e : ElemId) (h : nat) (st : State) : State :=
  {| listeners :=
       <[e := if decide (h ∈ listenersOf st e) then listenersOf st e
              else listenersOf st e ++ [h]]> (listeners st);
     copyClipboardProp := copyClipboardProp st;
     handlers := handlers st; frames := frames st |}.

(** [delete e._copyClipboard] *)
Definition delete_copyClipboardProp (e : ElemId) (st : State) : State :=
  {| listeners := listeners st; copyClipboardProp := delete e (copyClipboardProp st);
     handlers := handlers st; frames := frames st |}.

(** [e._copyClipboard = r] *)
Definition set_copyClipboardProp (e : ElemId) (r : CopyRecord) (st : State) : State :=
  {| listeners := listeners st; copyClipboardProp := <[e := r]> (copyClipboardProp st);
     handlers := handlers st; frames := frames st |}.

(** [WARNING(m)], [DEBUG(m)] *)
Definition warn (enabled : bool) (m : message) : list action :=
  if enabled then [ConsoleWarn m] else [].

Definition debug (enabled : bool) (m : message) : list action :=
  if enabled then [ConsoleLog m] else [].

(** The condition under which the loop of [copyClipboard] skips an element:
    [!elementOptions.target && !elementOptions.targetChildren &&
     !elementOptions.value]. *)
Definition nothingToCopy (elementOptions : gmap string value) : bool :=
  negb (ToBoolean (get elementOptions "target"))
  && negb (ToBoolean (get elementOptions "targetChildren"))
  && negb (ToBoolean (get elementOptions "value")).

(** ** [copyClipboard] *)

(** [if (copyable._copyClipboard) { copyable.removeEventListener('click',
    copyable._copyClipboard.copyHandler); delete copyable._copyClipboard; }]
    The property, when set, holds an object, which is truthy. *)
Definition forgetPrevious (copyable : ElemId) (st : State) : State :=
  match copyClipboardProp st !! copyable with
  | Some r =>
      delete_copyClipboardProp copyable
        (removeEventListener copyable (rec_copyHandler r) st)
  | None => st
  end.

(** One round of [for (const copyable of elements)], in the call whose
    variables are the frame [f] and whose merged options are [options]. *)
Definition makeCopyable (B : Browser) (options : gmap string value) (f : nat)
    (acc : State * list action) (copyable : ElemId) : State * list action :=
  let '(st, out) := acc in
  let elementOptions := mergeOptions (elem B copyable) options "copy" in
  let fr := {| WARNING := negb (boolVal (get elementOptions "suppressWarnings"));
               DEBUG := boolVal (get elementOptions "debug") |} in
  let st := set_frame f fr st in
  if nothingToCopy elementOptions then
    (st, out ++ warn (WARNING fr) (NothingToCopy copyable))
  else
    let st := forgetPrevious copyable st in
    let copyHandler := length (handlers st) in
    let st :=
      new_handler {| h_copyable := copyable; h_elementOptions := elementOptions;
                     h_options := options; h_frame := f |} st in
    let st :=
      set_copyClipboardProp copyable
        {| rec_options := elementOptions; rec_copyHandler := copyHandler;
           rec_version := VERSION |} st in
    (addEventListener copyable copyHandler st, out).

(** The elements [copyClipboard] works on: those a selector string
    matches ([None] when it makes [querySelectorAll] throw), the element
    itself when it is given one that is an [HTMLElement], and none for
    anything else. *)
Definition elementsOf (B : Browser) (element : value) : option (list ElemId) :=
  match element with
  | VStr selector => document_querySelectorAll B selector
  | VElement e => if isHTMLElement (elem B e) then Some [e] else Some []
  | _ => Some []
  end.

(** [copyClipboard(element, options)]: the new state and the console
    output, or [None] when the call ends in an exception (which can only
    come from the selector, before anything is changed). *)
Definition copyClipboard (B : Browser) (element : value) (options : gmap string value)
    (st : State) : option (State * list action) :=
  let options := Object_assign DEFAULT_OPTIONS options in
  let fr := {| WARNING := negb (boolVal (get options "suppressWarnings"));
               DEBUG := boolVal (get options "debug") |} in
  match elementsOf B element with
  | None => None
  | Some [] => Some (st, warn (WARNING fr) NoElementsFound)
  | Some elements =>
      let f := length (frames st) in
      Some (foldl (makeCopyable B options f) (new_frame fr st, []) elements)
  end.

(** ** [copyHandler] *)

(** How a click handler ends: it returns, or an exception leaves it. *)
Inductive completion := Returned | Threw.

(** The loop over [targetElements] ends in one of three ways. *)
Inductive gathered :=
| ImageFound (img : ElemId)       (* [copyImageToClipboard(targetElement); return] *)
| Texts (resultingTexts : list value)
| TypeError.                      (* [.text] of an [undefined] option *)

(** [targetElement.options[targetElement.selectedIndex]] *)
Definition selectedOption (el : Element) : option value :=
  if (selectedIndex el <? 0)%Z then None
  else optionTexts el !! Z.to_nat (selectedIndex el).

(** What the loop pushes for an element that is not copied as an image. *)
Definition textOf (B : Browser) (targetElement : ElemId) : option value :=
  let el := elem B targetElement in
  if tag_is B targetElement "input" || tag_is B targetElement "textarea" then
    Some (js_or (el_value el) (VStr ""))
  else if tag_is B targetElement "select" then
    match selectedOption el with
    | Some text => Some (js_or text (VStr ""))
    | None => None
    end
  else if tag_is B targetElement "img" then
    Some (js_or (js_or (js_or (alt el) (title el)) (src el)) (VStr ""))
  else
    Some (js_or (js_or (js_or (js_or (js_or (innerText el) (textContent el))
                                     (el_value el)) (el_text el)) (alt el))
                (VStr "")).

(** [for (const targetElement of targetElements)] *)
Fixpoint gather (B : Browser) (images : bool) (targetElements : list ElemId)
    (resultingTexts : list value) : gathered :=
  match targetElements with
  | [] => Texts resultingTexts
  | targetElement :: rest =>
      if images && tag_is B targetElement "img" then ImageFound targetElement
      else match textOf B targetElement with
           | Some text => gather B images rest (resultingTexts ++ [text])
           | None => TypeError
           end
  end.

(** [sel ? root.querySelectorAll(sel) : []] *)
Definition queryIfSet (query : string -> option (list ElemId)) (B : Browser)
    (sel : value) : option (list ElemId) :=
  if ToBoolean sel then query (ToString B sel) else Some [].

(** [v instanceof File && v.type.startsWith('image/')] *)
Definition isImageFile (v : value) : bool :=
  match v with
  | VFile file => Str.startsWith (file_type file) "image/"
  | _ => false
  end.

(** The branch of [copyHandler] taken when [elementOptions.value] is
    truthy.  Every case looks at [options], the options of the call of
    [copyClipboard], not at [elementOptions]. *)
Definition copyValue (B : Browser) (W : bool) (options : gmap string value)
    : list action :=
  let value := get options "value" in
  if ToBoolean (get options "images") && isImageFile value then
    match value with
    | VFile file => [ClipboardWrite (file_type file) file]
    | _ => []
    end
  else if String.eqb (typeof value) "string" || String.eqb (typeof value) "number" then
    [CopyTextToClipboard value]
  else
    match value with
    | VElement e =>
        if isHTMLElement (elem B e) then
          [CopyTextToClipboard (js_or (innerText (elem B e)) (textContent (elem B e)))]
        else warn W (UnsupportedValueType (typeof value))
    | VArray items =>
        [CopyTextToClipboard
           (VStr (Array_join B items (VStr (String (ascii_of_nat 10) EmptyString))))]
    | _ => warn W (UnsupportedValueType (typeof value))
    end.

(** The branch taken when [elementOptions.value] is falsy. *)
Definition copyTargets (B : Browser) (W D : bool) (copyable : ElemId)
    (elementOptions : gmap string value) : list action * completion :=
  match queryIfSet (document_querySelectorAll B) B (get elementOptions "target") with
  | None => ([], Threw)
  | Some targets =>
      match queryIfSet (element_querySelectorAll B copyable) B
                       (get elementOptions "targetChildren") with
      | None => ([], Threw)
      | Some targetChildren =>
          match targets ++ targetChildren with
          | [] =>
              (warn W (NoTargetElements (get elementOptions "target")
                                        (get elementOptions "targetChildren")),
               Returned)
          | first :: others =>
              let targetElements :=
                if negb (boolVal (get elementOptions "multiple")) then [first]
                else first :: others in
              let log :=
                if negb (boolVal (get elementOptions "multiple"))
                then debug D (CopyingFirst first)
                else debug D (CopyingAll targetElements) in
              match gather B (boolVal (get elementOptions "images")) targetElements [] with
              | ImageFound img => (log ++ [CopyImageToClipboard img], Returned)
              | TypeError => (log, Threw)
              | Texts [] => (log, Returned)
              | Texts resultingTexts =>
                  (log ++ [CopyTextToClipboard
                             (VStr (Array_join B resultingTexts
                                               (get elementOptions "joinText")))],
                   Returned)
              end
          end
      end
  end.

(** One run of the closure [h], in the state [st] at the time of the
    click: [WARNING] and [DEBUG] are read from the variables of the call
    that created [h], as they stand now. *)
Definition copyHandler (B : Browser) (st : State) (h : Handler)
    : list action * completion :=
  let fr := default {| WARNING := false; DEBUG := false |} (frames st !! h_frame h) in
  if ToBoolean (get (h_elementOptions h) "value") then
    (copyValue B (WARNING fr) (h_options h), Returned)
  else
    copyTargets B (WARNING fr) (DEBUG fr) (h_copyable h) (h_elementOptions h).

(** The copy handlers among the click listeners of [e], run in the order
    of registration; an exception in one does not stop the next. *)
Definition runListeners (B : Browser) (st : State) (e : ElemId)
    : list (list action * completion) :=
  omap (fun id => copyHandler B st <$> handlers st !! id) (listenersOf st e).

(** A click on [e].  The handlers are registered with
    [addEventListener('click', copyHandler)] and none of them stops the
    propagation of the event, so the click runs the listeners of [e] and
    then, as it bubbles, those of every element above [e]. *)
Definition click (B : Browser) (st : State) (e : ElemId)
    : list (list action * completion) :=
  flat_map (runListeners B st) (e :: ancestors B e).

(** Whether an action hands something to the clipboard. *)
Definition copies (a : action) : bool :=
  match a with
  | ClipboardWrite _ _ | CopyTextToClipboard _ | CopyImageToClipboard _ => true
  | ConsoleWarn _ | ConsoleLog _ => false
  end.

(** ** The [DOMContentLoaded] listener *)

Definition copyableSelector : string :=
  "[data-copy-target],[data-copy-value],[data-copy-target-children]".

(** Whether an element carries one of the three attributes of
    [copyableSelector], read off its [dataset]. *)
Definition carriesCopyAttribute (el : Element) : bool :=
  bool_decide (is_Some (dataset el !! "copyTarget"))
  || bool_decide (is_Some (dataset el !! "copyValue"))
  || bool_decide (is_Some (dataset el !! "copyTargetChildren")).

(** [copyableElements.forEach(element => ...)] *)
Fixpoint forEachCopyable (B : Browser) (copyableElements : list ElemId)
    (acc : State * list action) : option (State * list action) :=
  match copyableElements with
  | [] => Some acc
  | element :: rest =>
      let options := mergeOptions (elem B element) DEFAULT_OPTIONS "copy" in
      match copyClipboard B (VElement element) options (fst acc) with
      | None => None
      | Some (st, out) => forEachCopyable B rest (st, snd acc ++ out)
      end
  end.

Definition onDOMContentLoaded (B : Browser) (st : State) : option (State * list action) :=
  match document_querySelectorAll B copyableSelector with
  | None => None
  | Some copyableElements => forEachCopyable B copyableElements (st, [])
  end.

(** ** [handlePaste] *)

(** An entry of [clipboardData.items]: [getAsFile()] answers a file or
    [null]; [getAsString(callback)] arranges for [callback] to be called
    with the string the entry holds. *)
Record DataTransferItem := {
  kind : string;
  type : string;
  getAsFile : option File;
  getAsString : string
}.

Record DataTransfer := {
  items : option (list DataTransferItem);   (* [None]: no [items] property *)
  getData_Text : string                     (* [getData("Text")] *)
}.

(** A paste event, and the [clipboardData] of the window it arrives in. *)
Record PasteEvent := {
  clipboardData : option DataTransfer;
  window_clipboardData : option DataTransfer
}.

Inductive pasteError :=
| NoClipboardData   (* "No clipboard data available. ..." *)
| NoFileFound       (* "No file found in clipboard data. ..." *)
| NoTextData.       (* "No text data found in clipboard data. ..." *)

(** What [handlePaste] does besides returning: calls of the functions found
    in [options], and requests to [getAsString], whose callback runs after
    [handlePaste] has returned. *)
Inductive pasteCall :=
| Call (f : fn) (argument : value)
| CallError (f : fn) (e : pasteError)
| GetAsString (item : DataTransferItem) (callback : string -> list pasteCall).

Definition handlePaste_DEFAULT_OPTIONS : gmap string value :=
  list_to_map
    [ ("onPasteImage", VFunction FnNoop);
      ("onPasteText", VFunction FnNoop);
      ("onError", VFunction FnConsoleError) ].

(** [if (typeof options.onError === 'function') options.onError(e)] *)
Definition callError (options : gmap string value) (e : pasteError) : list pasteCall :=
  match get options "onError" with
  | VFunction f => [CallError f e]
  | _ => []
  end.

(** [if (typeof options[name] === 'function') options[name](argument)] *)
Definition callIfFunction (options : gmap string value) (name : string)
    (argument : value) : list pasteCall :=
  match get options name with
  | VFunction f => [Call f argument]
  | _ => []
  end.

(** [item.kind === "file" && item.type.startsWith("image/")] *)
Definition isImageFileItem (item : DataTransferItem) : bool :=
  String.eqb (kind item) "file" && Str.startsWith (type item) "image/".

(** [item.kind === "string" && item.type === "text/plain"] *)
Definition isPlainTextItem (item : DataTransferItem) : bool :=
  String.eqb (kind item) "string" && String.eqb (type item) "text/plain".

(** The [for] loop over [clipboardData.items].  It leaves the function at
    the first image file or plain-text string; when no entry is either, the
    loop ends and so does the function, without a [return] statement. *)
Fixpoint scanItems (options : gmap string value) (entries : list DataTransferItem)
    : value * list pasteCall :=
  match entries with
  | [] => (VUndefined, [])
  | item :: rest =>
      if isImageFileItem item then
        match getAsFile item with
        | None => (VBool false, callError options NoFileFound)
        | Some file => (VBool true, callIfFunction options "onPasteImage" (VFile file))
        end
      else if isPlainTextItem item then
        (VBool true,
         [GetAsString item
            (fun text => callIfFunction options "onPasteText" (VStr text))])
      else scanItems options rest
  end.

(** [handlePaste(event, options)]: the value returned and the calls made. *)
Definition handlePaste (event : PasteEvent) (options : gmap string value)
    : value * list pasteCall :=
  let options := Object_assign handlePaste_DEFAULT_OPTIONS options in
  match (match clipboardData event with
         | Some d => Some d
         | None => window_clipboardData event
         end) with
  | None => (VBool false, callError options NoClipboardData)
  | Some clipboardData =>
      match items clipboardData with
      | Some entries => scanItems options entries
      | None =>
          let pastedData := getData_Text clipboardData in
          if negb (String.eqb pastedData "") then
            (VBool true, callIfFunction options "onPasteText" (VStr pastedData))
          else
            (VBool false, callError options NoTextData)
      end
  end.

(** The calls of [onPasteImage] and [onPasteText] in a list of calls, those
    that a [getAsString] callback makes included. *)
Definition dispatched (c : pasteCall) : list value :=
  match c with
  | Call _ argument => [argument]
  | CallError _ _ => []
  | GetAsString item callback =>
      flat_map (fun c' => match c' with Call _ a => [a] | _ => [] end)
               (callback (getAsString item))
  end.

Definition reportedErrors (c : pasteCall) : list pasteError :=
  match c with
  | CallError _ e => [e]
  | _ => []
  end.

(** ** [copyImageToClipboard] *)

(** The image a canvas draws or the browser loads: the element given to
    [copyImageToClipboard], or one made by [new Image()] and given a
    [crossOrigin] and a [src]. *)
Inductive image :=
| Provided (e : ElemId)
| NewImage (crossOrigin : string) (src : value).

Record Blob := { blob_type : string; blob_id : nat }.

(** What drawing an image on a canvas and calling [toBlob] comes to: an
    exception, or the call of the callback with a blob or with [null]. *)
Inductive capture :=
| CaptureThrew
| CaptureBlob (blob : option Blob).

Inductive imageError :=
| FailedToCreateBlob      (* 'Failed to create blob from canvas' *)
| CanvasException         (* whatever the canvas threw *)
| FailedToLoad            (* 'Failed to load image: ...' *)
| ItemException           (* whatever [new ClipboardItem] threw *)
| NotAnImage.             (* 'Provided element is not an image' *)

Inductive imageMessage :=
| WarnFailedWithoutCrossOrigin (err : imageError)
    (* "Failed to get image without cross-origin; we'll try to download it again" *)
| ErrorFailedToFetchImage (err : imageError)  (* 'Failed to fetch image:' *)
| ErrorFailedToCopyImage.                     (* 'Failed to copy image to clipboard:' *)

(** The requests of the asynchronous code, each with the type of its
    answer. *)
Inductive event : Type -> Type :=
| DrawToBlob (img : image) : event capture
    (* [ctx.drawImage(img, 0, 0)] on a new canvas, then [canvas.toBlob] *)
| AwaitLoad (img : image) : event bool
    (* [true]: [onload] fired; [false]: [onerror] fired *)
| NewClipboardItem (blob : Blob) : event bool
    (* [new ClipboardItem({ [blob.type]: blob })]; [false]: it threw *)
| WriteBlob (blob : Blob) : event bool
    (* [await navigator.clipboard.write([item])]; [false]: rejected *)
| Print (m : imageMessage) : event unit.

Inductive Prog (A : Type) : Type :=
| Ret (a : A)
| Vis {X : Type} (e : event X) (k : X -> Prog A).

Arguments Ret {A} a.
Arguments Vis {A X} e k.

Fixpoint bind {A C : Type} (p : Prog A) (k : A -> Prog C) : Prog C :=
  match p with
  | Ret a => k a
  | Vis e k' => Vis e (fun x => bind (k' x) k)
  end.

#[global] Instance Prog_bind : MBind Prog := fun A C k p => bind p k.

Definition trigger {X : Type} (e : event X) : Prog X := Vis e Ret.

(** A promise settles with a value or with an error. *)
Inductive settled (A : Type) :=
| Resolved (a : A)
| Rejected (err : imageError).

Arguments Resolved {A} a.
Arguments Rejected {A} err.

(** [getBlobFromImage] *)
Definition getBlobFromImage (img : image) : Prog (settled Blob) :=
  c ← trigger (DrawToBlob img);
  match c with
  | CaptureThrew => Ret (Rejected CanvasException)
  | CaptureBlob (Some blob) => Ret (Resolved blob)
  | CaptureBlob None => Ret (Rejected FailedToCreateBlob)
  end.

(** [image.onload = () => getBlobFromImage(image)...; image.onerror = ...] *)
Definition whenLoaded (img : image) : Prog (settled Blob) :=
  loaded ← trigger (AwaitLoad img);
  if loaded : bool then getBlobFromImage img else Ret (Rejected FailedToLoad).

(** [getImage] *)
Definition getImage (B : Browser) (imageElement : value) (changeCrossOrigin : bool)
    : Prog (settled Blob) :=
  match imageElement with
  | VStr url => whenLoaded (NewImage "anonymous" (VStr url))
  | VElement e =>
      if negb (tag_is B e "img") then Ret (Rejected NotAnImage)
      else if changeCrossOrigin then whenLoaded (NewImage "anonymous" (src (elem B e)))
      else getBlobFromImage (Provided e)
  | _ => Ret (Rejected NotAnImage)
  end.

(** [copyImageToClipboard].  A blob is an object, so [!blob] after the
    first [try] holds exactly when the first [getImage] was rejected, and the
    [throw new Error('Blob creation failed')] is never reached. *)
Definition copyImageToClipboard (B : Browser) (imageElement : value) : Prog unit :=
  first ← getImage B imageElement false;
  blob ← match first with
          | Resolved b => Ret (Some b)
          | Rejected err =>
              _ ← trigger (Print (WarnFailedWithoutCrossOrigin err)); Ret None
          end;
  second ← match blob with
            | Some b => Ret (Resolved b)
            | None => getImage B imageElement true
            end;
  match second with
  | Rejected err => trigger (Print (ErrorFailedToFetchImage err))
  | Resolved b =>
      made ← trigger (NewClipboardItem b);
      if made : bool then
        written ← trigger (WriteBlob b);
        if written : bool then Ret tt else trigger (Print ErrorFailedToCopyImage)
      else trigger (Print (ErrorFailedToFetchImage ItemException))
  end.

(** An event with the answer it got. *)
Inductive entry :=
| Drew (img : image) (c : capture)
| Loaded (img : image) (ok : bool)
| MadeItem (blob : Blob) (ok : bool)
| Wrote (blob : Blob) (ok : bool)
| Printed (m : imageMessage).

Definition record {X : Type} (e : event X) : X -> entry :=
  match e in event X return X -> entry with
  | DrawToBlob img => Drew img
  | AwaitLoad img => Loaded img
  | NewClipboardItem blob => MadeItem blob
  | WriteBlob blob => Wrote blob
  | Print m => fun _ => Printed m
  end.

(** The browser's side of the conversation: it answers every event, and may
    answer the same event differently the next time. *)
Record Environment := {
  env_state : Type;
  answer : forall X : Type, event X -> env_state -> X * env_state
}.

(** Running a program against an environment: the result, the log, and
    the environment afterwards. *)
Fixpoint run {A : Type} (E : Environment) (p : Prog A) (s : env_state E)
    : A * list entry * env_state E :=
  match p with
  | Ret a => (a, [], s)
  | Vis e k =>
      let '(x, s') := answer E _ e s in
      let '(a, log, s'') := run E (k x) s' in
      (a, record e x :: log, s'')
  end.

Definition logOf {A S : Type} (r : A * list entry * S) : list entry := snd (fst r).

(** ** A page to compute on *)

Module Sample.

Definition plain (tag : string) (text : string) : Element :=
  {| tagName := tag; isHTMLElement := true; dataset := ∅;
     innerText := VStr text; textContent := VStr text;
     el_value := VUndefined; el_text := VUndefined; alt := VUndefined;
     title := VStr ""; src := VUndefined;
     selectedIndex := 0; optionTexts := [] |}.

Definition withData (el : Element) (data : gmap string string) : Element :=
  {| tagName := tagName el; isHTMLElement := isHTMLElement el; dataset := data;
     innerText := innerText el; textContent := textContent el;
     el_value := el_value el; el_text := el_text el; alt := alt el;
     title := title el; src := src el;
     selectedIndex := selectedIndex el; optionTexts := optionTexts el |}.

Definition picture : Element :=
  {| tagName := "IMG"; isHTMLElement := true; dataset := ∅;
     innerText := VStr ""; textContent := VStr "";
     el_value := VUndefined; el_text := VUndefined; alt := VStr "A picture";
     title := VStr ""; src := VStr "https://example.org/a.png";
     selectedIndex := 0; optionTexts := [] |}.

(** The elements of the sample page, none of which is inside another:
    0: [<button>Copy</button>]
    1: [<button data-copy-value="Text to copy">Copy text</button>]
    2: [<button data-copy-target="#missing">Copy</button>]
    3: [<button data-copy-target="">Copy</button>]
    4: [<img id="pic" src="https://example.org/a.png" alt="A picture">]
    5: [<p id="msg">hello</p>]
    6: [<button data-copy-target="#msg">Copy</button>]
    7: [<button data-copy-target="#pic">Copy image</button>]
    8: [<button data-copy-target="p,img" data-copy-multiple="yes"
                data-copy-images="false">Copy</button>]
    9: [<a data-copy-target="#missing"
           data-copy-suppress-warnings="false">Copy</a>] *)
Definition elements : list Element :=
  [ plain "BUTTON" "Copy";
    withData (plain "BUTTON" "Copy text") {[ "copyValue" := "Text to copy" ]};
    withData (plain "BUTTON" "Copy") {[ "copyTarget" := "#missing" ]};
    withData (plain "BUTTON" "Copy") {[ "copyTarget" := "" ]};
    picture;
    plain "P" "hello";
    withData (plain "BUTTON" "Copy") {[ "copyTarget" := "#msg" ]};
    withData (plain "BUTTON" "Copy image") {[ "copyTarget" := "#pic" ]};
    withData (plain "BUTTON" "Copy")
      (<[ "copyMultiple" := "yes" ]>
         (<[ "copyImages" := "false" ]> {[ "copyTarget" := "p,img" ]}));
    withData (plain "A" "Copy")
      (<[ "copySuppressWarnings" := "false" ]> {[ "copyTarget" := "#missing" ]}) ].

Definition element (e : ElemId) : Element :=
  default (plain "DIV" "") (elements !! e).

(** The selectors this page is asked about; any other is taken not to
    parse. *)
Definition query (selector : string) : option (list ElemId) :=
  if String.eqb selector copyableSelector then
    Some (filter (fun e => carriesCopyAttribute (element e) = true)
                 (seq 0 (length elements)))
  else if String.eqb selector "#missing" then Some []
  else if String.eqb selector "#pic" then Some [4]
  else if String.eqb selector "#msg" then Some [5]
  else if String.eqb selector "p,img" then Some [4; 5]
  else if String.eqb selector "button" then Some [0; 1; 2; 3; 6; 7; 8]
  else if String.eqb selector "[data-copy-target='#missing']" then Some [2; 9]
  else None.

Definition page : Browser :=
  {| elem := element;
     document := seq 0 (length elements);
     ancestors := fun _ => [];
     document_querySelectorAll := query;
     element_querySelectorAll := fun _ _ => Some [];
     ToString_other := fun _ => "[object Object]" |}.

Definition pngBlob : Blob := {| blob_type := "image/png"; blob_id := 0 |}.

(** A browser in which every image loads, every canvas gives a blob and
    the clipboard accepts it. *)
Definition obliging : Environment :=
  {| env_state := unit;
     answer := fun X (e : event X) (s : unit) =>
       match e in event X return X * unit with
       | DrawToBlob _ => (CaptureBlob (Some pngBlob), s)
       | AwaitLoad _ => (true, s)
       | NewClipboardItem _ => (true, s)
       | WriteBlob _ => (true, s)
       | Print _ => (tt, s)
       end |}.

(** A browser whose canvas is tainted by a cross-origin image the first
    time it is asked for a blob, and works afterwards. *)
Definition taintedOnce : Environment :=
  {| env_state := bool;
     answer := fun X (e : event X) (tainted : bool) =>
       match e in event X return X * bool with
       | DrawToBlob _ =>
           (if tainted then CaptureThrew else CaptureBlob (Some pngBlob), false)
       | AwaitLoad _ => (true, tainted)
       | NewClipboardItem _ => (true, tainted)
       | WriteBlob _ => (true, tainted)
       | Print _ => (tt, tainted)
       end |}.

Definition pdf : File := {| file_name := "report.pdf"; file_type := "application/pdf" |}.

Definition pdfItem : DataTransferItem :=
  {| kind := "file"; type := "application/pdf";
     getAsFile := Some pdf; getAsString := "" |}.

Definition pdfData : DataTransfer :=
  {| items := Some [pdfItem]; getData_Text := "" |}.

(** A paste of a file that is not an image: [items] has one entry, of
    kind [file] and type [application/pdf]. *)
Definition pdfPaste : PasteEvent :=
  {| clipboardData := Some pdfData; window_clipboardData := None |}.

(** A paste of plain text, as browsers with [items] deliver it. *)
Definition textPaste : PasteEvent :=
  {| clipboardData :=
       Some {| items := Some [ {| kind := "string"; type := "text/plain";
                                  getAsFile := None; getAsString := "hello" |} ];
               getData_Text := "hello" |};
     window_clipboardData := None |}.

(** The page after [copyClipboard('button')]. *)
Definition bound : State :=
  match copyClipboard page (VStr "button") ∅ initial with
  | Some (st, _) => st
  | None => initial
  end.

(** The page after [DOMContentLoaded]. *)
Definition loaded : State :=
  match onDOMContentLoaded page initial with
  | Some (st, _) => st
  | None => initial
  end.

End Sample.

(** ** Vocabulary of the properties *)

(** The sixteen ways of writing [true] in upper and lower case. *)
Definition casingOfTrue (s : string) : Prop :=
  exists c1 c2 c3 c4 : ascii,
    s = String c1 (String c2 (String c3 (String c4 EmptyString)))
    /\ (c1 = "t"%char \/ c1 = "T"%char) /\ (c2 = "r"%char \/ c2 = "R"%char)
    /\ (c3 = "u"%char \/ c3 = "U"%char) /\ (c4 = "e"%char \/ c4 = "E"%char).

(** The name [mergeOptions] looks up in [dataset] for the option [key]. *)
Definition datasetName (prefix key : string) : string :=
  snakeToCamel ((if String.eqb prefix "" then prefix else prefix +:+ "-") +:+ key).

Definition merged (target : Element) (prefix key : string) (v : value) : value :=
  match datasetProperty target (datasetName prefix key) with
  | Some d => d
  | None => v
  end.

(** The blob a capture produced, if it produced one. *)
Definition produced (c : capture) : option Blob :=
  match c with
  | CaptureBlob (Some blob) => Some blob
  | _ => None
  end.

(** The blob a promise resolved with, if it resolved. *)
Definition blobOf (r : settled Blob) : option Blob :=
  match r with
  | Resolved blob => Some blob
  | Rejected _ => None
  end.

(** The entries of a log that concern images. *)
Definition imageEvents (log : list entry) : list entry :=
  List.filter (fun en => match en with
                         | Drew _ _ | Loaded _ _ => true
                         | _ => false
                         end) log.

(** An attempt on the image as it is: one canvas capture. *)
Inductive directAttempt (img : image) : list entry -> option Blob -> Prop :=
| direct_capture c : directAttempt img [Drew img c] (produced c).

(** An attempt on an image that has to load first: it fails to load, or it
    loads and is captured. *)
Inductive loadingAttempt (img : image) : list entry -> option Blob -> Prop :=
| load_error : loadingAttempt img [Loaded img false] None
| load_capture c : loadingAttempt img [Loaded img true; Drew img c] (produced c).

(** The options [copyClipboard] works with for the element [e], given the
    options [opts] of the call after the defaults were filled in. *)
Definition elementOptionsOf (B : Browser) (opts : gmap string value) (e : ElemId)
    : gmap string value :=
  mergeOptions (elem B e) opts "copy".

(** The closure [copyClipboard] makes for [e] in a call whose variables are
    the frame [f]. *)
Definition handlerFor (B : Browser) (opts : gmap string value) (f : nat) (e : ElemId)
    : Handler :=
  {| h_copyable := e; h_elementOptions := elementOptionsOf B opts e;
     h_options := opts; h_frame := f |}.

(** [e._copyClipboard] records the handler [h], with the options [h] was
    made for and the version of the library; [h] is the function with
    identity [id], and it is among the click listeners of [e]. *)
Definition registeredAs (st : State) (e : ElemId) (id : nat) (h : Handler) : Prop :=
  copyClipboardProp st !! e
  = Some {| rec_options := h_elementOptions h; rec_copyHandler := id;
            rec_version := VERSION |}
  /\ handlers st !! id = Some h
  /\ id ∈ listenersOf st e.

(** Nothing about [e] differs between [st] and [st']. *)
Definition untouched (st st' : State) (e : ElemId) : Prop :=
  listenersOf st' e = listenersOf st e
  /\ copyClipboardProp st' !! e = copyClipboardProp st !! e.

(** The state of one element: without [_copyClipboard] it has no copy
    handler among its click listeners; with it, the handler recorded there is
    its one copy handler, a closure made for this element, and the options
    recorded beside it are those of the closure: the [data-copy-*]
    attributes of the element merged over the options of the call. *)
Definition consistentAt (B : Browser) (st : State) (e : ElemId) : Prop :=
  match copyClipboardProp st !! e with
  | Some r =>
      listenersOf st e = [rec_copyHandler r]
      /\ exists h, handlers st !! rec_copyHandler r = Some h
                   /\ h_copyable h = e
                   /\ h_elementOptions h = rec_options r
                   /\ rec_options r = mergeOptions (elem B e) (h_options h) "copy"
  | None => listenersOf st e = []
  end.

Definition consistent (B : Browser) (st : State) : Prop :=
  forall e, consistentAt B st e.

(** The states a page goes through: it starts without any copy handler; the
    library changes it when [copyClipboard] is called and when
    [DOMContentLoaded] fires.  (Clicks run handlers, which change nothing
    here.) *)
Inductive reachable (B : Browser) : State -> Prop :=
| reach_initial : reachable B initial
| reach_copyClipboard st element options st' out :
    reachable B st ->
    copyClipboard B element options st = Some (st', out) ->
    reachable B st'
| reach_DOMContentLoaded st st' out :
    reachable B st ->
    onDOMContentLoaded B st = Some (st', out) ->
    reachable B st'.

(** The warning the loop of [copyClipboard] has for [e], if it has one. *)
Definition skipWarning (B : Browser) (opts : gmap string value) (e : ElemId)
    : list action :=
  if nothingToCopy (elementOptionsOf B opts e)
  then warn (negb (boolVal (get (elementOptionsOf B opts e) "suppressWarnings")))
            (NothingToCopy e)
  else [].

(** Whether the attribute that [dataset] exposes as [name] is present with
    a value other than the empty string. *)
Definition nonEmptyAttribute (el : Element) (name : string) : bool :=
  match dataset el !! name with
  | Some d => negb (String.eqb d "")
  | None => false
  end.

(** Whether one of [data-copy-target], [data-copy-target-children] and
    [data-copy-value] is present with a non-empty value. *)
Definition saysWhatToCopy (el : Element) : bool :=
  nonEmptyAttribute el "copyTarget"
  || nonEmptyAttribute el "copyTargetChildren"
  || nonEmptyAttribute el "copyValue".

(** The options the [DOMContentLoaded] listener passes for an element. *)
Definition declaredOptions (B : Browser) (e : ElemId) : gmap string value :=
  mergeOptions (elem B e) DEFAULT_OPTIONS "copy".

(** The three callbacks of [handlePaste] are functions, as its
    documentation has them. *)
Definition callbacksAreFunctions (options : gmap string value) : Prop :=
  (exists f, get options "onPasteImage" = VFunction f)
  /\ (exists f, get options "onPasteText" = VFunction f)
  /\ (exists f, get options "onError" = VFunction f).

(** The three ways [handlePaste] ends: content went to a callback and the
    result is [true]; an error went to [onError] and the result is [false];
    or nothing was called and the result is [undefined]. *)
Inductive pasteOutcome : value * list pasteCall -> Prop :=
| pasted calls content :
    flat_map dispatched calls = [content] ->
    flat_map reportedErrors calls = [] ->
    pasteOutcome (VBool true, calls)
| pasteFailed calls err :
    flat_map dispatched calls = [] ->
    flat_map reportedErrors calls = [err] ->
    pasteOutcome (VBool false, calls)
| pasteIgnored : pasteOutcome (VUndefined, []).

(** ** Further vocabulary and sample pages *)

(** Whether a string has a ["-"] in it. *)
Fixpoint hasDash (s : string) : bool :=
  match s with
  | EmptyString => false
  | String c r => Ascii.eqb c "-"%char || hasDash r
  end.

(** A paste as a word processor delivers it: the markup, the plain text
    and a rendering of the selection as an image, in this order. *)
Definition Sample_richPaste : PasteEvent :=
  {| clipboardData :=
       Some {| items :=
                 Some [ {| kind := "string"; type := "text/html";
                           getAsFile := None; getAsString := "<b>hello</b>" |};
                        {| kind := "string"; type := "text/plain";
                           getAsFile := None; getAsString := "hello" |};
                        {| kind := "file"; type := "image/png";
                           getAsFile := Some {| file_name := "image.png";
                                                file_type := "image/png" |};
                           getAsString := EmptyString |} ];
               getData_Text := "hello" |};
     window_clipboardData := None |}.

(** The three ways [handlePaste] ends, whatever the options hold: it makes
    at most one call; with [true] no error was reported and at most one
    content delivered; with [false] no content was delivered; with
    [undefined] nothing was called. *)
Definition atMostOneCall (r : value * list pasteCall) : Prop :=
  length (snd r) <= 1
  /\ (fst r = VBool true
      /\ flat_map reportedErrors (snd r) = []
      /\ length (flat_map dispatched (snd r)) <= 1
      \/ fst r = VBool false
         /\ flat_map dispatched (snd r) = []
      \/ fst r = VUndefined
         /\ snd r = []).

(** What a log of [copyImageToClipboard] says: the blobs the canvas gave,
    the blobs handed to [navigator.clipboard.write], those of them the
    clipboard accepted, and the messages printed with [console.error]. *)
Definition blobsCaptured (log : list entry) : list Blob :=
  flat_map (fun en => match en with
                      | Drew _ (CaptureBlob (Some blob)) => [blob]
                      | _ => []
                      end) log.

Definition writeRequests (log : list entry) : list Blob :=
  flat_map (fun en => match en with
                      | Wrote blob _ => [blob]
                      | _ => []
                      end) log.

Definition blobsWritten (log : list entry) : list Blob :=
  flat_map (fun en => match en with
                      | Wrote blob true => [blob]
                      | _ => []
                      end) log.

Definition errorsPrinted (log : list entry) : list imageMessage :=
  flat_map (fun en => match en with
                      | Printed (WarnFailedWithoutCrossOrigin _) => []
                      | Printed m => [m]
                      | _ => []
                      end) log.

(** What a click on [e] runs after the listeners of [e] itself: the
    listeners of the elements above it. *)
Definition bubbled (B : Browser) (st : State) (e : ElemId)
    : list (list action * completion) :=
  flat_map (runListeners B st) (ancestors B e).

(** Whether a string is made of ASCII characters only. *)
Definition isASCII (s : string) : bool :=
  forallb (fun c => (nat_of_ascii c <? 128)%nat) (list_ascii_of_string s).

(** One step of a page: a call of [copyClipboard], or the
    [DOMContentLoaded] listener running. *)
Inductive step (B : Browser) (st : State) : State -> Prop :=
| step_copyClipboard element options st' out :
    copyClipboard B element options st = Some (st', out) -> step B st st'
| step_DOMContentLoaded st' out :
    onDOMContentLoaded B st = Some (st', out) -> step B st st'.


(** The sample page after [copyClipboard('button')] followed by
    [copyClipboard(b, {value: 'Copied!'})] for its button [b] with
    [data-copy-target="#msg"]. *)
Definition Sample_rebound : State :=
  match copyClipboard Sample.page (VElement 6) {[ "value" := VStr "Copied!" ]}
                      Sample.bound with
  | Some (st, _) => st
  | None => initial
  end.

(** The sample page after [copyClipboard(b, {value: 'Other text'})] for its
    button [b] with [data-copy-value="Text to copy"]. *)
Definition Sample_valued : State :=
  match copyClipboard Sample.page (VElement 1) {[ "value" := VStr "Other text" ]}
                      initial with
  | Some (st, _) => st
  | None => initial
  end.

(** The sample page after
    [copyClipboard(b, {value: ['a', 'b'], joinText: ', '})]. *)
Definition Sample_lines : State :=
  match copyClipboard Sample.page (VElement 6)
          (<[ "joinText" := VStr ", " ]> {[ "value" := VArray [VStr "a"; VStr "b"] ]})
          initial with
  | Some (st, _) => st
  | None => initial
  end.

Definition Sample_png : File := {| file_name := "a.png"; file_type := "image/png" |}.

(** The sample page after [copyClipboard(b, {value: file})] for a PNG
    file. *)
Definition Sample_filed : State :=
  match copyClipboard Sample.page (VElement 6) {[ "value" := VFile Sample_png ]}
                      initial with
  | Some (st, _) => st
  | None => initial
  end.

(** The sample page after
    [copyClipboard("[data-copy-target='#missing']")], which selects a button
    and then a link with [data-copy-suppress-warnings="false"]. *)
Definition Sample_shared : State :=
  match copyClipboard Sample.page (VStr "[data-copy-target='#missing']") ∅ initial with
  | Some (st, _) => st
  | None => initial
  end.

(** What [WARNING] and [DEBUG] are set to in the round of the loop of
    [copyClipboard] for the element [e]. *)
Definition settingsOf (B : Browser) (opts : gmap string value) (e : ElemId) : Frame :=
  {| WARNING := negb (boolVal (get (elementOptionsOf B opts e) "suppressWarnings"));
     DEBUG := boolVal (get (elementOptionsOf B opts e) "debug") |}.

(** One run of the handler [copyClipboard] makes for [e], with [WARNING]
    and [DEBUG] as they are in [fr]. *)
Definition handlerRun (B : Browser) (opts : gmap string value) (fr : Frame) (e : ElemId)
    : list action * completion :=
  if ToBoolean (get (elementOptionsOf B opts e) "value") then
    (copyValue B (WARNING fr) opts, Returned)
  else
    copyTargets B (WARNING fr) (DEBUG fr) e (elementOptionsOf B opts e).


(** The sample page after [copyClipboard(b, {suppressWarnings: false})]
    for its button [b] without any attribute. *)
Definition Sample_skipped : State :=
  match copyClipboard Sample.page (VElement 0) {[ "suppressWarnings" := VBool false ]}
                      initial with
  | Some (st, _) => st
  | None => initial
  end.

(** The sample page after [copyClipboard('button')], twice. *)
Definition Sample_twice : State :=
  match copyClipboard Sample.page (VStr "button") ∅ Sample.bound with
  | Some (st, _) => st
  | None => initial
  end.

(** Every closure refers to the variables of a call that was made. *)
Definition framed (st : State) : Prop :=
  Forall (fun h => h_frame h < length (frames st)) (handlers st).

(** A page with a form:
    0: [<select id="choice"></select>], without options, so that nothing is
       selected;
    1: [<button data-copy-target="#choice">Copy</button>] *)
Definition Sample_form : Browser :=
  {| elem := fun e =>
       match e with
       | 0 => {| tagName := "SELECT"; isHTMLElement := true; dataset := ∅;
                 innerText := VStr ""; textContent := VStr "";
                 el_value := VStr ""; el_text := VUndefined; alt := VUndefined;
                 title := VStr ""; src := VUndefined;
                 selectedIndex := (-1)%Z; optionTexts := [] |}
       | _ => Sample.withData (Sample.plain "BUTTON" "Copy") {[ "copyTarget" := "#choice" ]}
       end;
     document := [0; 1];
     ancestors := fun _ => [];
     document_querySelectorAll := fun selector =>
       if String.eqb selector "#choice" then Some [0]
       else if String.eqb selector copyableSelector then Some [1]
       else None;
     element_querySelectorAll := fun _ _ => Some [];
     ToString_other := fun _ => "[object Object]" |}.

(** That page after [DOMContentLoaded]. *)
Definition Sample_form_loaded : State :=
  match onDOMContentLoaded Sample_form initial with
  | Some (st, _) => st
  | None => initial
  end.

(** A page with elements inside one another:
    0: [<div data-copy-value="outer">], which contains
    1: [<button data-copy-value="inner">Copy</button>] and
    2: [<svg data-copy-value="drawing"></svg>], an element that is no
       [HTMLElement]. *)
Definition Sample_nested : Browser :=
  {| elem := fun e =>
       match e with
       | 0 => Sample.withData (Sample.plain "DIV" "Copy") {[ "copyValue" := "outer" ]}
       | 1 => Sample.withData (Sample.plain "BUTTON" "Copy") {[ "copyValue" := "inner" ]}
       | _ => {| tagName := "svg"; isHTMLElement := false;
                 dataset := {[ "copyValue" := "drawing" ]};
                 innerText := VUndefined; textContent := VStr "";
                 el_value := VUndefined; el_text := VUndefined; alt := VUndefined;
                 title := VUndefined; src := VUndefined;
                 selectedIndex := 0; optionTexts := [] |}
       end;
     document := [0; 1; 2];
     ancestors := fun e => match e with 0 => [] | _ => [0] end;
     document_querySelectorAll := fun selector =>
       if String.eqb selector copyableSelector then Some [0; 1; 2] else None;
     element_querySelectorAll := fun _ _ => Some [];
     ToString_other := fun _ => "[object Object]" |}.

(** That page after [DOMContentLoaded]. *)
Definition Sample_nested_loaded : State :=
  match onDOMContentLoaded Sample_nested initial with
  | Some (st, _) => st
  | None => initial
  end.

(* ================================================================== *)
(** * Properties *)

(** ** Strings *)

Lemma lower_ascii_is (c : ascii) (l u : ascii) :
  Str.lower_ascii l = l -> Str.lower_ascii u = l ->
  (forall d, Str.lower_ascii d = l -> d = l \/ d = u) ->
  Str.lower_ascii c = l <-> c = l \/ c = u.
Proof.
  intros Hl Hu Hall. split; [apply Hall | intros [-> | ->]; assumption].
Qed.

Ltac ascii_cases c :=
  destruct c as [[] [] [] [] [] [] [] []]; vm_compute; intros H;
  first [ discriminate H | left; reflexivity | right; reflexivity ].

Lemma lower_t c : Str.lower_ascii c = "t"%char <-> c = "t"%char \/ c = "T"%char.
Proof. apply lower_ascii_is; [reflexivity | reflexivity | intros d; ascii_cases d]. Qed.

Lemma lower_r c : Str.lower_ascii c = "r"%char <-> c = "r"%char \/ c = "R"%char.
Proof. apply lower_ascii_is; [reflexivity | reflexivity | intros d; ascii_cases d]. Qed.

Lemma lower_u c : Str.lower_ascii c = "u"%char <-> c = "u"%char \/ c = "U"%char.
Proof. apply lower_ascii_is; [reflexivity | reflexivity | intros d; ascii_cases d]. Qed.

Lemma lower_e c : Str.lower_ascii c = "e"%char <-> c = "e"%char \/ c = "E"%char.
Proof. apply lower_ascii_is; [reflexivity | reflexivity | intros d; ascii_cases d]. Qed.

Lemma toLowerCase_true (s : string) :
  Str.toLowerCase s = "true" <-> casingOfTrue s.
Proof.
  split.
  - destruct s as [|c1 [|c2 [|c3 [|c4 [|c5 s]]]]]; simpl; try discriminate.
    intros H. injection H as H1 H2 H3 H4.
    exists c1, c2, c3, c4. split; [reflexivity|].
    rewrite <- lower_t, <- lower_r, <- lower_u, <- lower_e. auto.
  - intros (c1 & c2 & c3 & c4 & -> & H1 & H2 & H3 & H4).
    apply lower_t in H1. apply lower_r in H2. apply lower_u in H3. apply lower_e in H4.
    simpl. rewrite H1, H2, H3, H4. reflexivity.
Qed.

Lemma String_eqb_true (s t : string) : String.eqb s t = true <-> s = t.
Proof. apply String.eqb_eq. Qed.

(** ** [mergeOptions] *)

Lemma mergeOptions_lookup target (options : gmap string value) prefix key :
  mergeOptions target options prefix !! key = merged target prefix key <$> options !! key.
Proof.
  unfold mergeOptions.
  apply (map_fold_weak_ind
           (fun (r m : gmap string value) => r !! key = merged target prefix key <$> m !! key)).
  - rewrite !lookup_empty. reflexivity.
  - intros i x m r Hi IH.
    assert (Hstep :
      (match datasetProperty target
               (snakeToCamel ((if String.eqb prefix "" then prefix else prefix +:+ "-") +:+ i))
       with
       | Some d => <[i := d]> r
       | None => <[i := x]> r
       end) = <[i := merged target prefix i x]> r).
    { unfold merged, datasetName. destruct (datasetProperty target _); reflexivity. }
    rewrite Hstep. destruct (decide (i = key)) as [->|Hne].
    + rewrite !lookup_insert_eq. reflexivity.
    + rewrite !lookup_insert_ne by assumption. exact IH.
Qed.

Lemma get_mergeOptions target (options : gmap string value) prefix key :
  is_Some (options !! key) ->
  get (mergeOptions target options prefix) key
  = merged target prefix key (get options key).
Proof.
  intros [v Hv]. unfold get. rewrite mergeOptions_lookup, Hv. reflexivity.
Qed.

Lemma startsWith_append (p s : string) : Str.startsWith (p +:+ s) p = true.
Proof.
  unfold Str.startsWith. induction p as [|a p IH]; simpl.
  - destruct s; reflexivity.
  - destruct (ascii_dec a a) as [_ | Hne]; [exact IH | contradiction].
Qed.

(** Under the prefix [copy] every name looked up in [dataset] starts with
    [copy], which no inherited name does. *)
Lemma datasetName_copy (key : string) :
  Str.startsWith (datasetName "copy" key) "copy" = true.
Proof.
  unfold datasetName, snakeToCamel.
  change (Str.split_dash ((if String.eqb "copy" "" then "copy" else "copy" +:+ "-") +:+ key))
    with ("copy" :: Str.split_dash key).
  destruct (Str.split_dash key) as [|h t]; [reflexivity|].
  match goal with
  | |- Str.startsWith (Str.toLowerCase (Str.charAt0 (Str.join "" (map ?f _))) +:+ _) _ = _ =>
      change (Str.toLowerCase (Str.charAt0 (Str.join "" (map f ("copy" :: h :: t))))
              +:+ Str.slice1 (Str.join "" (map f ("copy" :: h :: t))))
        with ("copy" +:+ ("" +:+ Str.join "" (map f (h :: t))))
  end.
  apply startsWith_append.
Qed.

Lemma datasetName_copy_not_inherited (key : string) :
  datasetName "copy" key ∉ Object_prototype_names.
Proof.
  intros Hin. pose proof (datasetName_copy key) as Hcopy.
  assert (Hall : Forall (fun name => Str.startsWith name "copy" = false)
                        Object_prototype_names)
    by (repeat constructor).
  rewrite Forall_forall in Hall. rewrite (Hall _ Hin) in Hcopy. discriminate.
Qed.

(** A name that is not inherited is found exactly when it is among the
    element's own entries. *)
Lemma datasetProperty_own target (name : string) :
  name ∉ Object_prototype_names ->
  datasetProperty target name = VStr <$> dataset target !! name.
Proof.
  intros Hnot. unfold datasetProperty.
  destruct (dataset target !! name); [reflexivity|].
  rewrite bool_decide_eq_false_2 by exact Hnot. reflexivity.
Qed.

Lemma merged_copy target (key : string) (v : value) :
  merged target "copy" key v
  = match dataset target !! datasetName "copy" key with
    | Some d => VStr d
    | None => v
    end.
Proof.
  unfold merged. rewrite datasetProperty_own by apply datasetName_copy_not_inherited.
  destruct (dataset target !! datasetName "copy" key); reflexivity.
Qed.



(** ** [boolVal] *)

Lemma boolVal_string (s : string) : boolVal (VStr s) = true <-> casingOfTrue s.
Proof. simpl. rewrite String_eqb_true. apply toLowerCase_true. Qed.

(** C8, where the code leaves the claim and its own documentation ("it
    returns true for any non-zero number and false for zero"): [NaN] is a
    number and is not zero ([NaN == 0] is false), yet [boolVal(NaN)] is
    false.  [NaN] fails the test [+value === value], which is meant to
    recognise the numbers, is not a string, and ends in [!!value]. *)
Lemma boolVal_NaN :
  is_zero nan = false /\ typeof (VNum nan) = "number" /\ boolVal (VNum nan) = false.
Proof. repeat split; reflexivity. Qed.

(** What [boolVal] does on booleans, numbers and strings.  It maps a
    boolean to itself; a number to [true] exactly when it is neither zero nor
    [NaN]; a string to [true] exactly when it is one of the casings of
    [true], so that ["1"] and ["yes"] map to [false].  An option read from a
    [data-copy-*] attribute is a string: whatever its value, if it is not a
    casing of [true], [boolVal] of the merged option is [false]. *)
Lemma boolVal_spec :
  (forall b, boolVal (VBool b) = b)
  /\ (forall n, boolVal (VNum n) = negb (is_zero n) && negb (is_nan n))
  /\ (forall s, boolVal (VStr s) = true <-> casingOfTrue s)
  /\ boolVal (VStr "1") = false
  /\ boolVal (VStr "yes") = false
  /\ (forall (target : Element) (options : gmap string value) (key d : string),
        is_Some (options !! key) ->
        dataset target !! datasetName "copy" key = Some d ->
        ~ casingOfTrue d ->
        boolVal (get (mergeOptions target options "copy") key) = false).
Proof.
  split; [|split; [|split; [|split; [|split]]]].
  - reflexivity.
  - intros n. unfold boolVal, is_zero, is_nan, PrimFloat.zero. simpl.
    destruct (n =? n)%float; destruct (n =? 0)%float; reflexivity.
  - apply boolVal_string.
  - reflexivity.
  - reflexivity.
  - intros target options key d Hkey Hd Hnot.
    rewrite get_mergeOptions by assumption. rewrite merged_copy, Hd.
    apply not_true_is_false. rewrite boolVal_string. exact Hnot.
Qed.

(** On the sample page, [data-copy-multiple="yes"] turns [multiple] off. *)
Lemma boolVal_spec_witness :
  boolVal (get (mergeOptions (Sample.element 8) DEFAULT_OPTIONS "copy") "multiple") = false.
Proof.
  refine (proj2 (proj2 (proj2 (proj2 (proj2 boolVal_spec))))
            (Sample.element 8) DEFAULT_OPTIONS "multiple" "yes" _ _ _).
  - vm_compute. eexists. reflexivity.
  - vm_compute. reflexivity.
  - intros (c1 & c2 & c3 & c4 & H & _). discriminate H.
Defined.

(** ** [handlePaste] *)

Lemma scanItems_unmatched (options : gmap string value) (entries : list DataTransferItem) :
  Forall (fun item => isImageFileItem item = false /\ isPlainTextItem item = false) entries ->
  scanItems options entries = (VUndefined, []).
Proof.
  induction 1 as [|item rest [Himg Htxt] _ IH]; simpl; [reflexivity|].
  rewrite Himg, Htxt. exact IH.
Qed.

Lemma scanItems_outcome (options : gmap string value) (entries : list DataTransferItem) :
  callbacksAreFunctions options -> pasteOutcome (scanItems options entries).
Proof.
  intros ([fi Hi] & [ft Ht] & [fe He]).
  induction entries as [|item rest IH]; simpl; [constructor|].
  destruct (isImageFileItem item).
  - destruct (getAsFile item) as [file|].
    + unfold callIfFunction. rewrite Hi. econstructor; reflexivity.
    + unfold callError. rewrite He. econstructor; reflexivity.
  - destruct (isPlainTextItem item); [|exact IH].
    apply (pasted _ (VStr (getAsString item))); [|reflexivity].
    simpl. unfold callIfFunction. rewrite Ht. reflexivity.
Qed.

(** With functions for callbacks, [handlePaste] returns [true] exactly when
    it hands content to [onPasteImage] or [onPasteText], and [false] exactly
    when it reports an error to [onError]; the one remaining way is the one of
    [handlePaste_unmatched_items] below. *)
Lemma handlePaste_outcome (event : PasteEvent) (options : gmap string value) :
  callbacksAreFunctions (Object_assign handlePaste_DEFAULT_OPTIONS options) ->
  pasteOutcome (handlePaste event options).
Proof.
  intros Hfun. pose proof Hfun as ([fi Hi] & [ft Ht] & [fe He]).
  unfold handlePaste.
  destruct (match clipboardData event with
            | Some d => Some d
            | None => window_clipboardData event
            end) as [data|].
  - destruct (items data) as [entries|]; [apply scanItems_outcome, Hfun|].
    destruct (String.eqb (getData_Text data) ""); simpl.
    + unfold callError. rewrite He. econstructor; reflexivity.
    + unfold callIfFunction. rewrite Ht. econstructor; reflexivity.
  - unfold callError. rewrite He. econstructor; reflexivity.
Qed.

Example handlePaste_text :
  fst (handlePaste Sample.textPaste ∅) = VBool true
  /\ flat_map dispatched (snd (handlePaste Sample.textPaste ∅)) = [VStr "hello"].
Proof. split; reflexivity. Qed.

(** C1, where the code departs from the claim.  When [clipboardData.items]
    exists and none of its entries is an image file or a plain-text string,
    [handlePaste] runs off the end of the loop: it returns [undefined], which
    is not a Boolean, and calls nothing, [onError] included. *)
Theorem handlePaste_unmatched_items (event : PasteEvent) (options : gmap string value)
    (data : DataTransfer) (entries : list DataTransferItem) :
  (clipboardData event = Some data
   \/ clipboardData event = None /\ window_clipboardData event = Some data) ->
  items data = Some entries ->
  Forall (fun item => isImageFileItem item = false /\ isPlainTextItem item = false) entries ->
  handlePaste event options = (VUndefined, []).
Proof.
  intros Hdata Hitems Hnone. unfold handlePaste.
  destruct Hdata as [-> | [-> ->]]; rewrite Hitems; apply scanItems_unmatched, Hnone.
Qed.

(** Pasting a PDF file: no Boolean, no call. *)
Lemma handlePaste_unmatched_items_witness :
  handlePaste Sample.pdfPaste ∅ = (VUndefined, []).
Proof.
  apply (handlePaste_unmatched_items Sample.pdfPaste ∅ Sample.pdfData [Sample.pdfItem]).
  - left. reflexivity.
  - reflexivity.
  - repeat constructor.
Defined.

(** ** [copyImageToClipboard] *)

Lemma run_bind {A C : Type} (E : Environment) (p : Prog A) (k : A -> Prog C)
    (s : env_state E) :
  run E (p ≫= k) s
  = let '(a, log1, s1) := run E p s in
    let '(c, log2, s2) := run E (k a) s1 in
    (c, log1 ++ log2, s2).
Proof.
  unfold mbind, Prog_bind. revert s.
  induction p as [a | X e k' IH]; intros s; simpl.
  - destruct (run E (k a) s) as [[c log2] s2]. reflexivity.
  - destruct (answer E X e s) as [x s']. rewrite IH.
    destruct (run E (k' x) s') as [[a log1] s1].
    destruct (run E (k a) s1) as [[c log2] s2]. reflexivity.
Qed.

Lemma imageEvents_app (l1 l2 : list entry) :
  imageEvents (l1 ++ l2) = imageEvents l1 ++ imageEvents l2.
Proof. apply List.filter_app. Qed.

Lemma run_Ret {A : Type} (E : Environment) (a : A) (s : env_state E) :
  run E (Ret a) s = (a, [], s).
Proof. reflexivity. Qed.

Lemma run_trigger {X : Type} (E : Environment) (e : event X) (s : env_state E) :
  run E (trigger e) s = let '(x, s') := answer E X e s in (x, [record e x], s').
Proof. unfold trigger. simpl. destruct (answer E X e s). reflexivity. Qed.

Lemma run_getBlobFromImage (E : Environment) (s : env_state E) (img : image) :
  exists c s1,
    run E (getBlobFromImage img) s
    = (match produced c with
       | Some blob => Resolved blob
       | None => Rejected (match c with
                           | CaptureThrew => CanvasException
                           | _ => FailedToCreateBlob
                           end)
       end, [Drew img c], s1).
Proof.
  unfold getBlobFromImage. rewrite run_bind, run_trigger.
  destruct (answer E capture (DrawToBlob img) s) as [c s1].
  exists c, s1. destruct c as [|[blob|]]; reflexivity.
Qed.

Lemma run_whenLoaded (E : Environment) (s : env_state E) (img : image) :
  exists r attempt s1,
    run E (whenLoaded img) s = (r, attempt, s1)
    /\ loadingAttempt img attempt (blobOf r)
    /\ imageEvents attempt = attempt.
Proof.
  unfold whenLoaded. rewrite run_bind, run_trigger.
  destruct (answer E bool (AwaitLoad img) s) as [[|] s1]; cbv beta iota zeta.
  - destruct (run_getBlobFromImage E s1 img) as (c & s2 & ->).
    eexists _, _, _. split; [reflexivity|]. split; [|reflexivity].
    replace (blobOf _) with (produced c) by (destruct c as [|[blob|]]; reflexivity).
    apply (load_capture img c).
  - eexists _, _, _. split; [reflexivity|]. split; [constructor | reflexivity].
Qed.

(** Once the second attempt is over, nothing more is drawn or loaded. *)
Lemma run_after_attempts (E : Environment) (s : env_state E) (second : settled Blob) :
  imageEvents
    (logOf (run E
       (match second with
        | Rejected err => trigger (Print (ErrorFailedToFetchImage err))
        | Resolved b =>
            made ← trigger (NewClipboardItem b);
            if made : bool then
              written ← trigger (WriteBlob b);
              if written : bool then Ret tt else trigger (Print ErrorFailedToCopyImage)
            else trigger (Print (ErrorFailedToFetchImage ItemException))
        end) s)) = [].
Proof.
  destruct second as [b | err]; unfold trigger, mbind, Prog_bind; simpl.
  - destruct (answer E bool (NewClipboardItem b) s) as [[|] s1]; simpl.
    + destruct (answer E bool (WriteBlob b) s1) as [[|] s2]; simpl; [reflexivity|].
      destruct (answer E unit (Print ErrorFailedToCopyImage) s2); reflexivity.
    + destruct (answer E unit (Print (ErrorFailedToFetchImage ItemException)) s1);
        reflexivity.
  - destruct (answer E unit (Print (ErrorFailedToFetchImage err)) s); reflexivity.
Qed.

(** The shape of every run: a first attempt, and a second one exactly when
    the first was rejected. *)
Lemma run_copyImageToClipboard (B : Browser) (E : Environment) (s : env_state E)
    (imageElement : value) :
  exists r1 log1 s1,
    run E (getImage B imageElement false) s = (r1, log1, s1)
    /\ match r1 with
       | Resolved _ =>
           imageEvents (logOf (run E (copyImageToClipboard B imageElement) s))
           = imageEvents log1
       | Rejected _ =>
           exists s1' r2 log2 s2,
             run E (getImage B imageElement true) s1' = (r2, log2, s2)
             /\ imageEvents (logOf (run E (copyImageToClipboard B imageElement) s))
                = imageEvents log1 ++ imageEvents log2
       end.
Proof.
  unfold copyImageToClipboard. rewrite run_bind.
  destruct (run E (getImage B imageElement false) s) as [[r1 log1] s1].
  exists r1, log1, s1. split; [reflexivity|].
  rewrite run_bind. destruct r1 as [b | err].
  - rewrite run_Ret. cbv beta iota zeta. rewrite run_bind, run_Ret. cbv beta iota zeta.
    match goal with |- context [run E ?p s1] =>
      pose proof (run_after_attempts E s1 (Resolved b)) as Hrest;
      destruct (run E p s1) as [[u log3] s3] end.
    unfold logOf in *. simpl in *. rewrite imageEvents_app, Hrest, app_nil_r. reflexivity.
  - rewrite run_bind, run_trigger.
    destruct (answer E unit (Print (WarnFailedWithoutCrossOrigin err)) s1) as [[] s1'].
    rewrite run_Ret. cbv beta iota zeta. rewrite run_bind.
    destruct (run E (getImage B imageElement true) s1') as [[r2 log2] s2] eqn:Hsecond.
    exists s1', r2, log2, s2. split; [exact Hsecond|].
    match goal with |- context [run E ?p s2] =>
      pose proof (run_after_attempts E s2 r2) as Hrest;
      destruct (run E p s2) as [[u log3] s3] end.
    unfold logOf in *. simpl in *.
    rewrite imageEvents_app. simpl. rewrite imageEvents_app, Hrest, app_nil_r.
    reflexivity.
Qed.

(** C2, the claim as stated fails on a URL: [copyImageToClipboard] accepts
    a string, and then its first attempt is no canvas capture of a provided
    image.  It makes a new image with [crossOrigin = 'anonymous'] and the
    string as [src], waits for it to load and captures that one. *)
Lemma copyImageToClipboard_url :
  logOf (run Sample.obliging
           (copyImageToClipboard Sample.page (VStr "https://example.org/a.png")) tt)
  = [ Loaded (NewImage "anonymous" (VStr "https://example.org/a.png")) true;
      Drew (NewImage "anonymous" (VStr "https://example.org/a.png"))
           (CaptureBlob (Some Sample.pngBlob));
      MadeItem Sample.pngBlob true;
      Wrote Sample.pngBlob true ].
Proof. reflexivity. Qed.

(** An [img] element whose first capture fails: the second attempt, and
    the last, is on a new image with the [src] of the element. *)
Example copyImageToClipboard_retry :
  logOf (run Sample.taintedOnce (copyImageToClipboard Sample.page (VElement 4)) true)
  = [ Drew (Provided 4) CaptureThrew;
      Printed (WarnFailedWithoutCrossOrigin CanvasException);
      Loaded (NewImage "anonymous" (VStr "https://example.org/a.png")) true;
      Drew (NewImage "anonymous" (VStr "https://example.org/a.png"))
           (CaptureBlob (Some Sample.pngBlob));
      MadeItem Sample.pngBlob true;
      Wrote Sample.pngBlob true ].
Proof. reflexivity. Qed.

(** C2, amended.  Given an [img] element, [copyImageToClipboard] first
    attempts a canvas capture of that element; only if this gives no blob
    does it make one further attempt, on a new image with [crossOrigin =
    'anonymous'] and the [src] of the element, and there is no third.  Given
    a string, it makes the same two attempts at most, both on a new image
    with [crossOrigin = 'anonymous'] and the string as [src].  Given
    anything else, it captures and loads nothing. *)
Theorem copyImageToClipboard_attempts (B : Browser) (E : Environment)
    (s : env_state E) (imageElement : value) :
  let log := imageEvents (logOf (run E (copyImageToClipboard B imageElement) s)) in
  match imageElement with
  | VElement e =>
      if tag_is B e "img" then
        exists first r1,
          directAttempt (Provided e) first r1
          /\ match r1 with
             | Some _ => log = first
             | None =>
                 exists second r2,
                   loadingAttempt (NewImage "anonymous" (src (elem B e))) second r2
                   /\ log = first ++ second
             end
      else log = []
  | VStr url =>
      exists first r1,
        loadingAttempt (NewImage "anonymous" (VStr url)) first r1
        /\ match r1 with
           | Some _ => log = first
           | None =>
               exists second r2,
                 loadingAttempt (NewImage "anonymous" (VStr url)) second r2
                 /\ log = first ++ second
           end
  | _ => log = []
  end.
Proof.
  intros log. subst log.
  destruct (run_copyImageToClipboard B E s imageElement) as (r1 & log1 & s1 & Hfirst & Hlog).
  assert (Hnot : forall changeCrossOrigin s0,
             getImage B imageElement changeCrossOrigin = Ret (Rejected NotAnImage) ->
             run E (getImage B imageElement changeCrossOrigin) s0
             = (Rejected NotAnImage, [], s0)).
  { intros c s0 ->. reflexivity. }
  destruct imageElement as [| | | |url| | |e| |];
    try (rewrite Hnot in Hfirst by reflexivity; injection Hfirst as <- <- <-;
         destruct Hlog as (s1' & r2 & log2 & s2 & Hsecond & ->);
         rewrite Hnot in Hsecond by reflexivity; injection Hsecond as <- <- <-;
         reflexivity).
  - (* a URL *)
    unfold getImage in Hfirst, Hlog.
    destruct (run_whenLoaded E s (NewImage "anonymous" (VStr url)))
      as (r & attempt & s' & Hrun & Hattempt & Himg).
    rewrite Hrun in Hfirst. injection Hfirst as <- <- <-.
    exists attempt, (blobOf r). split; [exact Hattempt|].
    destruct r as [b | err]; cbn [blobOf].
    + rewrite Hlog. exact Himg.
    + destruct Hlog as (s1' & r2 & log2 & s2 & Hsecond & ->).
      destruct (run_whenLoaded E s1' (NewImage "anonymous" (VStr url)))
        as (r' & attempt' & s'' & Hrun' & Hattempt' & Himg').
      rewrite Hrun' in Hsecond. injection Hsecond as <- <- <-.
      exists attempt', (blobOf r'). split; [exact Hattempt'|].
      rewrite Himg, Himg'. reflexivity.
  - (* an element *)
    unfold getImage in Hfirst, Hlog.
    destruct (tag_is B e "img") eqn:Htag; cbn [negb] in Hfirst, Hlog.
    + destruct (run_getBlobFromImage E s (Provided e)) as (c & s' & Hrun).
      rewrite Hrun in Hfirst. injection Hfirst as <- <- <-.
      exists [Drew (Provided e) c], (produced c). split; [constructor|].
      destruct (produced c) as [b|]; cbv beta iota in Hlog |- *.
      * rewrite Hlog. reflexivity.
      * destruct Hlog as (s1' & r2 & log2 & s2 & Hsecond & ->).
        destruct (run_whenLoaded E s1' (NewImage "anonymous" (src (elem B e))))
          as (r' & attempt' & s'' & Hrun' & Hattempt' & Himg').
        rewrite Hrun' in Hsecond. injection Hsecond as <- <- <-.
        exists attempt', (blobOf r'). split; [exact Hattempt'|].
        rewrite Himg'. reflexivity.
    + rewrite run_Ret in Hfirst. injection Hfirst as <- <- <-.
      destruct Hlog as (s1' & r2 & log2 & s2 & Hsecond & ->).
      rewrite run_Ret in Hsecond. injection Hsecond as <- <- <-. reflexivity.
Qed.

(** ** The state: listeners and [_copyClipboard] *)

Lemma listenersOf_removeEventListener st e h e' :
  listenersOf (removeEventListener e h st) e'
  = if decide (e = e') then filter (fun h' => h' ≠ h) (listenersOf st e)
    else listenersOf st e'.
Proof.
  unfold listenersOf at 1. simpl. rewrite lookup_insert.
  destruct (decide (e = e')); reflexivity.
Qed.

Lemma listenersOf_addEventListener st e h e' :
  listenersOf (addEventListener e h st) e'
  = if decide (e = e')
    then (if decide (h ∈ listenersOf st e) then listenersOf st e
          else listenersOf st e ++ [h])
    else listenersOf st e'.
Proof.
  unfold listenersOf at 1. simpl. rewrite lookup_insert.
  destruct (decide (e = e')); reflexivity.
Qed.

Lemma forgetPrevious_handlers e st : handlers (forgetPrevious e st) = handlers st.
Proof. unfold forgetPrevious. destruct (copyClipboardProp st !! e); reflexivity. Qed.

Lemma forgetPrevious_frames e st : frames (forgetPrevious e st) = frames st.
Proof. unfold forgetPrevious. destruct (copyClipboardProp st !! e); reflexivity. Qed.

Lemma forgetPrevious_prop e st e' :
  copyClipboardProp (forgetPrevious e st) !! e'
  = if decide (e = e') then None else copyClipboardProp st !! e'.
Proof.
  unfold forgetPrevious. destruct (copyClipboardProp st !! e) as [r|] eqn:Hr; simpl.
  - rewrite lookup_delete. destruct (decide (e = e')); reflexivity.
  - destruct (decide (e = e')) as [<-|]; [exact Hr | reflexivity].
Qed.

Lemma forgetPrevious_listeners_ne e st e' :
  e ≠ e' -> listenersOf (forgetPrevious e st) e' = listenersOf st e'.
Proof.
  intros Hne. unfold forgetPrevious. destruct (copyClipboardProp st !! e); [|reflexivity].
  change (listenersOf (removeEventListener e (rec_copyHandler c) st) e' = listenersOf st e').
  rewrite listenersOf_removeEventListener. destruct (decide (e = e')); [contradiction | reflexivity].
Qed.

(** Before a new handler is installed, the recorded one is gone: of a
    consistent element nothing is left, neither listener nor record. *)
Lemma forgetPrevious_clears B e st :
  consistentAt B st e ->
  listenersOf (forgetPrevious e st) e = []
  /\ copyClipboardProp (forgetPrevious e st) !! e = None.
Proof.
  intros Hc. split.
  - unfold consistentAt in Hc. unfold forgetPrevious.
    destruct (copyClipboardProp st !! e) as [r|]; [|exact Hc].
    destruct Hc as [Hl _].
    change (listenersOf (removeEventListener e (rec_copyHandler r) st) e = []).
    rewrite listenersOf_removeEventListener, Hl. destruct (decide (e = e)); [|contradiction].
    rewrite filter_cons. destruct (decide (rec_copyHandler r ≠ rec_copyHandler r)); [contradiction|].
    reflexivity.
  - rewrite forgetPrevious_prop. destruct (decide (e = e)); [reflexivity | contradiction].
Qed.

(** ** One round of the loop of [copyClipboard] *)

Section Round.

Variable B : Browser.
Variable opts : gmap string value.
Variable f : nat.

Let frameOf (e : ElemId) : Frame :=
  {| WARNING := negb (boolVal (get (elementOptionsOf B opts e) "suppressWarnings"));
     DEBUG := boolVal (get (elementOptionsOf B opts e) "debug") |}.

Lemma makeCopyable_skipped st out e :
  nothingToCopy (elementOptionsOf B opts e) = true ->
  makeCopyable B opts f (st, out) e
  = (set_frame f (frameOf e) st, out ++ skipWarning B opts e).
Proof.
  intros Hskip. unfold makeCopyable, skipWarning.
  fold (elementOptionsOf B opts e). rewrite Hskip. reflexivity.
Qed.

Lemma makeCopyable_installed st out e :
  nothingToCopy (elementOptionsOf B opts e) = false ->
  makeCopyable B opts f (st, out) e
  = (let st1 := forgetPrevious e (set_frame f (frameOf e) st) in
     let id := length (handlers st1) in
     addEventListener e id
       (set_copyClipboardProp e
          {| rec_options := elementOptionsOf B opts e; rec_copyHandler := id;
             rec_version := VERSION |}
          (new_handler (handlerFor B opts f e) st1)),
     out ++ skipWarning B opts e).
Proof.
  intros Hskip. unfold makeCopyable, skipWarning.
  fold (elementOptionsOf B opts e). rewrite Hskip, app_nil_r. reflexivity.
Qed.

(** What one round does, read off the state after it. *)
Lemma makeCopyable_effect st out e :
  exists st',
    makeCopyable B opts f (st, out) e = (st', out ++ skipWarning B opts e)
    /\ (exists extra, handlers st' = handlers st ++ extra)
    /\ length (frames st') = length (frames st)
    /\ (forall e', e' ≠ e -> untouched st st' e')
    /\ (if nothingToCopy (elementOptionsOf B opts e) then untouched st st' e
        else registeredAs st' e (length (handlers st)) (handlerFor B opts f e))
    /\ (consistentAt B st e -> consistentAt B st' e).
Proof.
  destruct (nothingToCopy (elementOptionsOf B opts e)) eqn:Hskip.
  - rewrite makeCopyable_skipped by assumption.
    eexists. split; [reflexivity|].
    split; [exists []; simpl; rewrite app_nil_r; reflexivity|].
    split; [simpl; apply length_insert|].
    split; [intros e' _; split; reflexivity|].
    split; [split; reflexivity|]. intros Hc; exact Hc.
  - rewrite makeCopyable_installed by assumption.
    set (st0 := set_frame f (frameOf e) st).
    set (st1 := forgetPrevious e st0).
    assert (Hh : handlers st1 = handlers st)
      by (unfold st1; rewrite forgetPrevious_handlers; reflexivity).
    eexists. split; [reflexivity|].
    cbv zeta. rewrite Hh.
    split; [eexists; simpl; rewrite Hh; reflexivity|].
    split; [simpl; unfold st1; rewrite forgetPrevious_frames; simpl; apply length_insert|].
    split; [|split].
    + intros e' Hne. split.
      * rewrite listenersOf_addEventListener.
        destruct (decide (e = e')) as [->|]; [contradiction|].
        change (listenersOf st1 e' = listenersOf st e').
        unfold st1. rewrite forgetPrevious_listeners_ne by auto. reflexivity.
      * simpl. rewrite lookup_insert_ne by auto.
        unfold st1. rewrite forgetPrevious_prop.
        destruct (decide (e = e')) as [->|]; [contradiction | reflexivity].
    + split; [|split].
      * simpl. rewrite lookup_insert_eq. reflexivity.
      * simpl. rewrite Hh. apply list_lookup_middle. reflexivity.
      * rewrite listenersOf_addEventListener.
        destruct (decide (e = e)); [|contradiction].
        case_decide; [assumption | apply elem_of_app; right; apply list_elem_of_singleton; reflexivity].
    + intros Hc. unfold consistentAt. simpl. rewrite lookup_insert_eq. simpl.
      destruct (forgetPrevious_clears B e st0 Hc) as [Hl _]. fold st1 in Hl. split.
      * rewrite listenersOf_addEventListener.
        destruct (decide (e = e)); [|contradiction].
        change (listenersOf (set_copyClipboardProp e _ (new_handler _ st1)) e)
          with (listenersOf st1 e).
        rewrite Hl. case_decide as Hin; [inversion Hin | reflexivity].
      * exists (handlerFor B opts f e). split; [|split; [|split]; reflexivity].
        rewrite Hh. apply list_lookup_middle. reflexivity.
Qed.

End Round.

(** ** The whole loop *)

Lemma untouched_trans st1 st2 st3 e :
  untouched st1 st2 e -> untouched st2 st3 e -> untouched st1 st3 e.
Proof. intros [H1 H2] [H3 H4]. split; congruence. Qed.

Lemma handlers_grow_trans (st1 st2 st3 : State) :
  (exists extra, handlers st2 = handlers st1 ++ extra) ->
  (exists extra, handlers st3 = handlers st2 ++ extra) ->
  exists extra, handlers st3 = handlers st1 ++ extra.
Proof.
  intros [x1 H1] [x2 H2]. exists (x1 ++ x2). rewrite H2, H1, app_assoc. reflexivity.
Qed.

Lemma handlers_grow_length (st st' : State) :
  (exists extra, handlers st' = handlers st ++ extra) ->
  length (handlers st) <= length (handlers st').
Proof. intros [x ->]. rewrite length_app. lia. Qed.

Lemma consistentAt_untouched B st st' e :
  untouched st st' e ->
  (exists extra, handlers st' = handlers st ++ extra) ->
  consistentAt B st e -> consistentAt B st' e.
Proof.
  intros [Hl Hp] [extra Hh]. unfold consistentAt. rewrite Hp, Hl.
  destruct (copyClipboardProp st !! e) as [r|]; [|auto].
  intros [Hone (h & Hh' & Hrest)]. split; [exact Hone|].
  exists h. split; [|exact Hrest]. rewrite Hh. apply lookup_app_l_Some. exact Hh'.
Qed.

Lemma registeredAs_untouched st st' e id h :
  untouched st st' e ->
  (exists extra, handlers st' = handlers st ++ extra) ->
  registeredAs st e id h -> registeredAs st' e id h.
Proof.
  intros [Hl Hp] [extra Hh] (Hrec & Hid & Hin). unfold registeredAs.
  rewrite Hp, Hl, Hh. split; [exact Hrec|]. split; [|exact Hin].
  apply lookup_app_l_Some. exact Hid.
Qed.

Section Loop.

Variable B : Browser.
Variable opts : gmap string value.
Variable f : nat.

Lemma foldl_makeCopyable (els : list ElemId) :
  forall st out,
  exists st',
    foldl (makeCopyable B opts f) (st, out) els
    = (st', out ++ flat_map (skipWarning B opts) els)
    /\ (exists extra, handlers st' = handlers st ++ extra)
    /\ length (frames st') = length (frames st)
    /\ (forall e, e ∉ els -> untouched st st' e)
    /\ (forall e, e ∈ els ->
          if nothingToCopy (elementOptionsOf B opts e) then untouched st st' e
          else exists id, length (handlers st) <= id
                          /\ registeredAs st' e id (handlerFor B opts f e))
    /\ (consistent B st -> consistent B st').
Proof.
  induction els as [|x els IH]; intros st out.
  - exists st. simpl. rewrite app_nil_r.
    split; [reflexivity|]. split; [exists []; rewrite app_nil_r; reflexivity|].
    split; [reflexivity|]. split; [intros e _; split; reflexivity|].
    split; [intros e He; inversion He | auto].
  - destruct (makeCopyable_effect B opts f st out x)
      as (st1 & Hstep & Hgrow1 & Hfr1 & Hother1 & Hx & Hcons1).
    destruct (IH st1 (out ++ skipWarning B opts x))
      as (st' & Hfold & Hgrow & Hfr & Hother & Hin & Hcons).
    exists st'.
    change (foldl (makeCopyable B opts f) (st, out) (x :: els))
      with (foldl (makeCopyable B opts f) (makeCopyable B opts f (st, out) x) els).
    change (flat_map (skipWarning B opts) (x :: els))
      with (skipWarning B opts x ++ flat_map (skipWarning B opts) els).
    rewrite Hstep, Hfold, <- app_assoc.
    split; [reflexivity|].
    split; [eapply handlers_grow_trans; eassumption|].
    split; [congruence|].
    split; [|split].
    + intros e He. apply not_elem_of_cons in He as [Hne He].
      eapply untouched_trans; [apply Hother1, Hne | apply Hother, He].
    + intros e He. destruct (decide (e ∈ els)) as [Hels | Hels].
      * specialize (Hin e Hels).
        destruct (nothingToCopy (elementOptionsOf B opts e)) eqn:Hskip.
        -- eapply untouched_trans; [|exact Hin].
           destruct (decide (e = x)) as [-> | Hne]; [|apply Hother1, Hne].
           rewrite Hskip in Hx. exact Hx.
        -- destruct Hin as (id & Hid & Hreg). exists id. split; [|exact Hreg].
           pose proof (handlers_grow_length _ _ Hgrow1). lia.
      * apply elem_of_cons in He as [-> | He]; [|contradiction].
        destruct (nothingToCopy (elementOptionsOf B opts x)).
        -- eapply untouched_trans; [exact Hx | apply Hother, Hels].
        -- exists (length (handlers st)). split; [lia|].
           eapply registeredAs_untouched; [apply Hother, Hels | exact Hgrow | exact Hx].
    + intros Hc. apply Hcons. intros e.
      destruct (decide (e = x)) as [-> | Hne]; [apply Hcons1, Hc|].
      eapply consistentAt_untouched; [apply Hother1, Hne | exact Hgrow1 | apply Hc].
Qed.

End Loop.

(** ** [copyClipboard] *)

Lemma copyClipboard_unfold B element options st els :
  elementsOf B element = Some els ->
  copyClipboard B element options st
  = Some (match els with
          | [] => (st, warn (negb (boolVal (get (Object_assign DEFAULT_OPTIONS options)
                                                "suppressWarnings")))
                            NoElementsFound)
          | _ => foldl (makeCopyable B (Object_assign DEFAULT_OPTIONS options)
                                     (length (frames st)))
                       (new_frame
                          {| WARNING := negb (boolVal (get (Object_assign DEFAULT_OPTIONS options)
                                                           "suppressWarnings"));
                             DEBUG := boolVal (get (Object_assign DEFAULT_OPTIONS options)
                                                   "debug") |} st, [])
                       els
          end).
Proof. intros Hels. unfold copyClipboard. rewrite Hels. destruct els; reflexivity. Qed.

(** A click on an element runs the handler registered for it. *)
Lemma click_registered B st e id h :
  registeredAs st e id h -> copyHandler B st h ∈ click B st e.
Proof.
  intros (_ & Hid & Hin). unfold click. cbn [flat_map].
  apply elem_of_app. left. unfold runListeners. apply list_elem_of_omap.
  exists id. split; [exact Hin|]. rewrite Hid. reflexivity.
Qed.

Lemma copyClipboard_effect B element options st els :
  elementsOf B element = Some els ->
  exists st' out,
    copyClipboard B element options st = Some (st', out)
    /\ (exists extra, handlers st' = handlers st ++ extra)
    /\ (forall e, e ∉ els -> untouched st st' e)
    /\ (forall e, e ∈ els ->
          if nothingToCopy (elementOptionsOf B (Object_assign DEFAULT_OPTIONS options) e)
          then untouched st st' e
          else exists id,
                 length (handlers st) <= id
                 /\ registeredAs st' e id
                      (handlerFor B (Object_assign DEFAULT_OPTIONS options)
                                  (length (frames st)) e))
    /\ (els = [] ->
          st' = st
          /\ out = warn (negb (boolVal (get (Object_assign DEFAULT_OPTIONS options)
                                            "suppressWarnings"))) NoElementsFound)
    /\ (els ≠ [] ->
          out = flat_map (skipWarning B (Object_assign DEFAULT_OPTIONS options)) els)
    /\ (consistent B st -> consistent B st').
Proof.
  intros Hels. rewrite (copyClipboard_unfold B element options st els Hels).
  destruct els as [|x els].
  - eexists _, _. split; [reflexivity|].
    split; [exists []; rewrite app_nil_r; reflexivity|].
    split; [intros e _; split; reflexivity|].
    split; [intros e He; inversion He|].
    split; [auto|]. split; [intros Hne; contradiction | auto].
  - set (opts := Object_assign DEFAULT_OPTIONS options).
    set (fr := {| WARNING := _; DEBUG := _ |}).
    destruct (foldl_makeCopyable B opts (length (frames st)) (x :: els) (new_frame fr st) [])
      as (st' & Hfold & Hgrow & Hfr & Hother & Hin & Hcons).
    exists st', (flat_map (skipWarning B opts) (x :: els)).
    split; [rewrite Hfold; reflexivity|].
    split; [exact Hgrow|]. split; [exact Hother|]. split; [exact Hin|].
    split; [discriminate|]. split; [reflexivity | exact Hcons].
Qed.

(** ** Options declared in the markup *)

Lemma mergeOptions_idempotent target (options : gmap string value) prefix :
  mergeOptions target (mergeOptions target options prefix) prefix
  = mergeOptions target options prefix.
Proof.
  apply map_eq. intros key. rewrite !mergeOptions_lookup.
  destruct (options !! key) as [v|]; [|reflexivity]. simpl. f_equal.
  unfold merged. destruct (datasetProperty target (datasetName prefix key)); reflexivity.
Qed.

Lemma Object_assign_mergeOptions target (options : gmap string value) prefix :
  Object_assign options (mergeOptions target options prefix)
  = mergeOptions target options prefix.
Proof.
  unfold Object_assign. apply map_eq. intros key.
  destruct (mergeOptions target options prefix !! key) as [v|] eqn:Hkey.
  - apply lookup_union_Some_l. exact Hkey.
  - rewrite lookup_union_r by exact Hkey.
    rewrite mergeOptions_lookup in Hkey.
    destruct (options !! key); [discriminate | reflexivity].
Qed.

Lemma nothingToCopy_declared (el : Element) :
  nothingToCopy (mergeOptions el DEFAULT_OPTIONS "copy") = negb (saysWhatToCopy el).
Proof.
  unfold nothingToCopy, saysWhatToCopy, nonEmptyAttribute.
  rewrite !get_mergeOptions by (vm_compute; eexists; reflexivity).
  rewrite !merged_copy.
  change (datasetName "copy" "target") with "copyTarget".
  change (datasetName "copy" "targetChildren") with "copyTargetChildren".
  change (datasetName "copy" "value") with "copyValue".
  change (get DEFAULT_OPTIONS "target") with VNull.
  change (get DEFAULT_OPTIONS "targetChildren") with VNull.
  change (get DEFAULT_OPTIONS "value") with VNull.
  destruct (dataset el !! "copyTarget") as [d1|];
    destruct (dataset el !! "copyTargetChildren") as [d2|];
    destruct (dataset el !! "copyValue") as [d3|]; simpl;
    repeat match goal with |- context [String.eqb ?d ""] => destruct (String.eqb d "") end;
    reflexivity.
Qed.

(** What the [DOMContentLoaded] listener passes to [copyClipboard] for an
    element comes back unchanged as the options of the call and as the
    options of the element. *)
Lemma declaredOptions_fixed B e :
  Object_assign DEFAULT_OPTIONS (declaredOptions B e) = declaredOptions B e
  /\ elementOptionsOf B (declaredOptions B e) e = declaredOptions B e.
Proof.
  unfold declaredOptions, elementOptionsOf. split.
  - apply Object_assign_mergeOptions.
  - apply mergeOptions_idempotent.
Qed.

(** ** The [DOMContentLoaded] listener *)

Lemma forEachCopyable_effect B (els : list ElemId) :
  forall st out,
  exists st' out',
    forEachCopyable B els (st, out) = Some (st', out')
    /\ (exists extra, handlers st' = handlers st ++ extra)
    /\ (forall e, e ∉ els -> untouched st st' e)
    /\ (forall e, e ∈ els ->
          if isHTMLElement (elem B e) && saysWhatToCopy (elem B e) then
            exists id h,
              registeredAs st' e id h
              /\ h_copyable h = e
              /\ h_elementOptions h = declaredOptions B e
              /\ h_options h = declaredOptions B e
          else untouched st st' e)
    /\ (consistent B st -> consistent B st').
Proof.
  induction els as [|x els IH]; intros st out.
  - exists st, out. split; [reflexivity|].
    split; [exists []; rewrite app_nil_r; reflexivity|].
    split; [intros e _; split; reflexivity|].
    split; [intros e He; inversion He | auto].
  - destruct (declaredOptions_fixed B x) as [Hopts Helem].
    change (forEachCopyable B (x :: els) (st, out))
      with (match copyClipboard B (VElement x) (declaredOptions B x) st with
            | None => None
            | Some (st0, out0) => forEachCopyable B els (st0, out ++ out0)
            end).
    destruct (isHTMLElement (elem B x)) eqn:Hhtml.
    + assert (Hels : elementsOf B (VElement x) = Some [x])
        by (simpl; rewrite Hhtml; reflexivity).
      destruct (copyClipboard_effect B (VElement x) (declaredOptions B x) st [x] Hels)
        as (st1 & out1 & Hcall & Hgrow1 & Hother1 & Hx & _ & _ & Hcons1).
      specialize (Hx x (list_elem_of_here x [])).
      rewrite Hopts, Helem in Hx. unfold declaredOptions in Hx at 1.
      rewrite nothingToCopy_declared in Hx.
      destruct (IH st1 (out ++ out1)) as (st' & out' & Hrest & Hgrow & Hother & Hin & Hcons).
      exists st', out'.
      rewrite Hcall. split; [exact Hrest|].
      split; [eapply handlers_grow_trans; eassumption|].
      split; [|split].
      * intros e He. apply not_elem_of_cons in He as [Hne He].
        eapply untouched_trans; [apply Hother1 | apply Hother, He].
        intros Hin1. apply list_elem_of_singleton in Hin1. contradiction.
      * intros e He. destruct (decide (e ∈ els)) as [Hels' | Hels'].
        -- specialize (Hin e Hels').
           destruct (isHTMLElement (elem B e) && saysWhatToCopy (elem B e)) eqn:Hsays.
           ++ exact Hin.
           ++ eapply untouched_trans; [|exact Hin].
              destruct (decide (e = x)) as [-> | Hne].
              ** rewrite Hhtml in Hsays. simpl in Hsays. rewrite Hsays in Hx. exact Hx.
              ** apply Hother1. intros Hin1.
                 apply list_elem_of_singleton in Hin1. contradiction.
        -- apply elem_of_cons in He as [-> | He]; [|contradiction].
           rewrite Hhtml. simpl.
           destruct (saysWhatToCopy (elem B x)); simpl in Hx.
           ++ destruct Hx as (id & _ & Hreg). eexists id, _. split.
              ** eapply registeredAs_untouched;
                   [apply Hother, Hels' | exact Hgrow | exact Hreg].
              ** split; [reflexivity | split; [exact Helem | reflexivity]].
           ++ eapply untouched_trans; [exact Hx | apply Hother, Hels'].
      * intros Hc. apply Hcons, Hcons1, Hc.
    + assert (Hels : elementsOf B (VElement x) = Some [])
        by (simpl; rewrite Hhtml; reflexivity).
      destruct (copyClipboard_effect B (VElement x) (declaredOptions B x) st [] Hels)
        as (st1 & out1 & Hcall & Hgrow1 & Hother1 & _ & _ & _ & Hcons1).
      assert (Hall1 : forall e, untouched st st1 e)
        by (intros e; apply Hother1; intros Hin1; inversion Hin1).
      destruct (IH st1 (out ++ out1)) as (st' & out' & Hrest & Hgrow & Hother & Hin & Hcons).
      exists st', out'.
      rewrite Hcall. split; [exact Hrest|].
      split; [eapply handlers_grow_trans; eassumption|].
      split; [|split].
      * intros e He. apply not_elem_of_cons in He as [Hne He].
        eapply untouched_trans; [apply Hall1 | apply Hother, He].
      * intros e He. destruct (decide (e ∈ els)) as [Hels' | Hels'].
        -- specialize (Hin e Hels').
           destruct (isHTMLElement (elem B e) && saysWhatToCopy (elem B e));
             [exact Hin|].
           eapply untouched_trans; [apply Hall1 | exact Hin].
        -- apply elem_of_cons in He as [-> | He]; [|contradiction].
           rewrite Hhtml. simpl.
           eapply untouched_trans; [apply Hall1 | apply Hother, Hels'].
      * intros Hc. apply Hcons, Hcons1, Hc.
Qed.

(** ** The states a page goes through are consistent *)

Lemma initial_consistent B : consistent B initial.
Proof. intros e. reflexivity. Qed.

Lemma copyClipboard_consistent B element options st st' out :
  copyClipboard B element options st = Some (st', out) ->
  consistent B st -> consistent B st'.
Proof.
  intros Hcall Hc. destruct (elementsOf B element) as [els|] eqn:Hels.
  - destruct (copyClipboard_effect B element options st els Hels)
      as (st2 & out2 & Hcall2 & _ & _ & _ & _ & _ & Hcons).
    rewrite Hcall in Hcall2. injection Hcall2 as -> ->. apply Hcons, Hc.
  - unfold copyClipboard in Hcall. rewrite Hels in Hcall. discriminate.
Qed.

Lemma onDOMContentLoaded_consistent B st st' out :
  onDOMContentLoaded B st = Some (st', out) ->
  consistent B st -> consistent B st'.
Proof.
  unfold onDOMContentLoaded. intros Hcall Hc.
  destruct (document_querySelectorAll B copyableSelector) as [els|]; [|discriminate].
  destruct (forEachCopyable_effect B els st [])
    as (st2 & out2 & Hcall2 & _ & _ & _ & Hcons).
  rewrite Hcall in Hcall2. injection Hcall2 as -> ->. apply Hcons, Hc.
Qed.

Lemma reachable_consistent B st : reachable B st -> consistent B st.
Proof.
  induction 1 as [| st element options st' out _ IH Hcall | st st' out _ IH Hcall].
  - apply initial_consistent.
  - eapply copyClipboard_consistent; eassumption.
  - eapply onDOMContentLoaded_consistent; eassumption.
Qed.

Lemma Sample_bound_call :
  copyClipboard Sample.page (VStr "button") ∅ initial = Some (Sample.bound, []).
Proof. vm_compute. reflexivity. Qed.

Lemma Sample_bound_reachable : reachable Sample.page Sample.bound.
Proof.
  apply (reach_copyClipboard Sample.page initial (VStr "button") ∅ Sample.bound []).
  - apply reach_initial.
  - apply Sample_bound_call.
Qed.

(** C4, the claim as stated fails.  [copyClipboard('button')] with the
    default options skips the first button of the sample page, which has
    none of the three options, and prints nothing: warnings are suppressed
    unless [suppressWarnings] is turned off.  The third button has a target,
    [#missing], so it gets a click listener; a click on it copies nothing. *)
Lemma copyClipboard_skips_in_silence :
  match copyClipboard Sample.page (VStr "button") ∅ initial with
  | Some (st', out) =>
      nothingToCopy (elementOptionsOf Sample.page (Object_assign DEFAULT_OPTIONS ∅) 0) = true
      /\ listenersOf st' 0 = []
      /\ out = []
      /\ nothingToCopy (elementOptionsOf Sample.page (Object_assign DEFAULT_OPTIONS ∅) 2) = false
      /\ length (listenersOf st' 2) = 1
      /\ click Sample.page st' 2 = [([], Returned)]
  | None => False
  end.
Proof. vm_compute. repeat split; reflexivity. Qed.

(** C4, amended.  Let [element] be a selector or an element.  A selector
    that does not parse makes the call throw before anything is changed.
    Otherwise, let [els] be the elements it stands for.  If there are none,
    the call changes nothing and prints at most the warning that no elements
    were found.  If there are some, every element of [els] whose options
    (its [data-copy-*] attributes merged over the options of the call, these
    over the defaults) have a truthy [target], [targetChildren] or [value]
    gets a new click listener, recorded in [_copyClipboard] with those
    options: a click on the element runs [copyHandler] with them.  The
    other elements of [els] are skipped, each with a warning only if its
    [suppressWarnings] is off; nothing else is printed, and no element
    outside [els] is touched. *)
Theorem copyClipboard_binds (B : Browser) (element : value)
    (options : gmap string value) (st : State) :
  let opts := Object_assign DEFAULT_OPTIONS options in
  match elementsOf B element with
  | None => copyClipboard B element options st = None
  | Some els =>
      exists st' out,
        copyClipboard B element options st = Some (st', out)
        /\ (els = [] ->
              st' = st
              /\ out = warn (negb (boolVal (get opts "suppressWarnings"))) NoElementsFound)
        /\ (els ≠ [] ->
              out = flat_map
                      (fun e =>
                         if nothingToCopy (elementOptionsOf B opts e)
                         then warn (negb (boolVal (get (elementOptionsOf B opts e)
                                                       "suppressWarnings")))
                                   (NothingToCopy e)
                         else []) els)
        /\ (forall e, e ∈ els ->
              if nothingToCopy (elementOptionsOf B opts e) then untouched st st' e
              else exists id,
                     length (handlers st) <= id
                     /\ registeredAs st' e id (handlerFor B opts (length (frames st)) e)
                     /\ copyHandler B st' (handlerFor B opts (length (frames st)) e)
                        ∈ click B st' e)
        /\ (forall e, e ∉ els -> untouched st st' e)
  end.
Proof.
  intros opts. destruct (elementsOf B element) as [els|] eqn:Hels.
  - destruct (copyClipboard_effect B element options st els Hels)
      as (st' & out & Hcall & _ & Hother & Hin & Hnone & Hsome & _).
    exists st', out. split; [exact Hcall|]. split; [exact Hnone|].
    split; [exact Hsome|]. split; [|exact Hother].
    intros e He. specialize (Hin e He). fold opts in Hin.
    destruct (nothingToCopy (elementOptionsOf B opts e)); [exact Hin|].
    destruct Hin as (id & Hid & Hreg). exists id.
    split; [exact Hid|]. split; [exact Hreg|]. eapply click_registered, Hreg.
  - unfold copyClipboard. rewrite Hels. reflexivity.
Qed.

(** On the sample page [copyClipboard('button')] leaves the first button
    alone and binds the seventh. *)
Lemma copyClipboard_binds_witness :
  exists st' out,
    copyClipboard Sample.page (VStr "button") ∅ initial = Some (st', out)
    /\ untouched initial st' 0
    /\ exists id, registeredAs st' 6 id
                    (handlerFor Sample.page (Object_assign DEFAULT_OPTIONS ∅) 0 6).
Proof.
  assert (Hels : elementsOf Sample.page (VStr "button") = Some [0; 1; 2; 3; 6; 7; 8])
    by reflexivity.
  generalize (copyClipboard_binds Sample.page (VStr "button") ∅ initial).
  cbv zeta. rewrite Hels.
  intros (st' & out & Hcall & _ & _ & Hin & _).
  exists st', out. split; [exact Hcall|].
  assert (H0 : nothingToCopy
                 (elementOptionsOf Sample.page (Object_assign DEFAULT_OPTIONS ∅) 0) = true)
    by (vm_compute; reflexivity).
  assert (H6 : nothingToCopy
                 (elementOptionsOf Sample.page (Object_assign DEFAULT_OPTIONS ∅) 6) = false)
    by (vm_compute; reflexivity).
  split.
  - generalize (Hin 0 ltac:(repeat constructor)). rewrite H0. exact (fun H => H).
  - generalize (Hin 6 ltac:(repeat constructor)). rewrite H6.
    intros (id & _ & Hreg & _). exists id. exact Hreg.
Defined.

(** C9.  In every state a page goes through, an element has at most one
    copy handler among its click listeners.  An element without
    [_copyClipboard] has none; an element with it has exactly the handler
    recorded there, a closure made for this element, and the options
    recorded beside the handler are the merged options the closure works
    with.  Before a new handler is installed the recorded one is removed from
    the listeners and the record is deleted: nothing of it is left. *)
Theorem one_copy_handler (B : Browser) (st : State) :
  reachable B st ->
  forall e,
    length (listenersOf st e) <= 1
    /\ match copyClipboardProp st !! e with
       | Some r =>
           listenersOf st e = [rec_copyHandler r]
           /\ exists h, handlers st !! rec_copyHandler r = Some h
                        /\ h_copyable h = e
                        /\ h_elementOptions h = rec_options r
                        /\ rec_options r = mergeOptions (elem B e) (h_options h) "copy"
       | None => listenersOf st e = []
       end
    /\ listenersOf (forgetPrevious e st) e = []
    /\ copyClipboardProp (forgetPrevious e st) !! e = None.
Proof.
  intros Hreach e. pose proof (reachable_consistent B st Hreach e) as Hc.
  split; [|split; [exact Hc | exact (forgetPrevious_clears B e st Hc)]].
  unfold consistentAt in Hc. destruct (copyClipboardProp st !! e).
  - destruct Hc as [-> _]. simpl. lia.
  - rewrite Hc. simpl. lia.
Qed.

Lemma one_copy_handler_witness :
  length (listenersOf Sample.bound 1) <= 1
  /\ listenersOf (forgetPrevious 1 Sample.bound) 1 = [].
Proof.
  destruct (one_copy_handler Sample.page Sample.bound Sample_bound_reachable 1)
    as (Hone & _ & Hcleared & _).
  split; [exact Hone | exact Hcleared].
Defined.

(** ** Elements declared in the markup *)

Lemma saysWhatToCopy_carries (el : Element) :
  saysWhatToCopy el = true -> carriesCopyAttribute el = true.
Proof.
  unfold saysWhatToCopy, nonEmptyAttribute, carriesCopyAttribute.
  destruct (dataset el !! "copyTarget"); destruct (dataset el !! "copyTargetChildren");
    destruct (dataset el !! "copyValue"); simpl; intros H;
    try reflexivity; try discriminate H;
    rewrite ?bool_decide_eq_true_2 by eauto; rewrite ?orb_true_r; reflexivity.
Qed.

(** C6, the claim as stated fails.  The fourth button of the sample page
    carries [data-copy-target], with the empty string as its value.  It is
    among the elements the listener passes to [copyClipboard], which skips
    it: after [DOMContentLoaded] it has no click listener and no
    [_copyClipboard]; a click on it runs nothing. *)
Lemma onDOMContentLoaded_empty_attribute :
  dataset (elem Sample.page 3) !! "copyTarget" = Some ""
  /\ document_querySelectorAll Sample.page copyableSelector
     = Some [1; 2; 3; 6; 7; 8; 9]
  /\ match onDOMContentLoaded Sample.page initial with
     | Some (st', _) =>
         listenersOf st' 3 = []
         /\ copyClipboardProp st' !! 3 = None
         /\ click Sample.page st' 3 = []
     | None => False
     end.
Proof. vm_compute. repeat split; reflexivity. Qed.

(** C6, amended.  In a browser whose [querySelectorAll] answers the selector
    of the listener with the elements of the document that carry one of the
    three attributes, [DOMContentLoaded] has this effect.  Every
    [HTMLElement] of the document on which [data-copy-target],
    [data-copy-target-children] or [data-copy-value] is present with a
    non-empty value gets a click listener, recorded in [_copyClipboard]; the
    options of the handler, both those of the element and those of the call,
    are the [data-copy-*] attributes of the element merged over the default
    options; a click on the element runs that handler.  No other element is
    touched: an element that carries the attributes with empty values only
    is passed to [copyClipboard] and skipped there, and so is one that is no
    [HTMLElement] (an [svg] element, say), for which [copyClipboard] finds
    no element to work on. *)
Theorem onDOMContentLoaded_binds (B : Browser) (st : State) :
  document_querySelectorAll B copyableSelector
  = Some (filter (fun e => carriesCopyAttribute (elem B e) = true) (document B)) ->
  exists st' out,
    onDOMContentLoaded B st = Some (st', out)
    /\ (forall e,
          e ∈ document B ->
          isHTMLElement (elem B e) = true ->
          saysWhatToCopy (elem B e) = true ->
          exists id h,
            registeredAs st' e id h
            /\ h_copyable h = e
            /\ h_elementOptions h = mergeOptions (elem B e) DEFAULT_OPTIONS "copy"
            /\ h_options h = mergeOptions (elem B e) DEFAULT_OPTIONS "copy"
            /\ copyHandler B st' h ∈ click B st' e)
    /\ (forall e,
          e ∉ document B
          \/ isHTMLElement (elem B e) = false
          \/ saysWhatToCopy (elem B e) = false ->
          untouched st st' e).
Proof.
  intros Hquery. unfold onDOMContentLoaded. rewrite Hquery.
  set (els := filter (fun e => carriesCopyAttribute (elem B e) = true) (document B)).
  destruct (forEachCopyable_effect B els st [])
    as (st' & out & Hcall & _ & Hother & Hin & _).
  exists st', out. split; [exact Hcall|]. split.
  - intros e Hdoc Hhtml Hsays.
    assert (He : e ∈ els).
    { apply list_elem_of_filter. split; [apply saysWhatToCopy_carries, Hsays | exact Hdoc]. }
    specialize (Hin e He). rewrite Hhtml, Hsays in Hin.
    destruct Hin as (id & h & Hreg & Hc & Heo & Ho).
    exists id, h. split; [exact Hreg|]. split; [exact Hc|].
    split; [exact Heo|]. split; [exact Ho|]. eapply click_registered, Hreg.
  - intros e Hnot. destruct (decide (e ∈ els)) as [He | He]; [|apply Hother, He].
    specialize (Hin e He). apply list_elem_of_filter in He as [_ Hdoc].
    destruct Hnot as [Hnot | [Hhtml | Hsays]]; [contradiction | |].
    + rewrite Hhtml in Hin. exact Hin.
    + rewrite Hsays, andb_false_r in Hin. exact Hin.
Qed.

(** On the page with elements inside one another, the button gets its
    handler and the [svg] element, which carries [data-copy-value] too,
    stays without one. *)
Lemma onDOMContentLoaded_binds_witness :
  exists st' out,
    onDOMContentLoaded Sample_nested initial = Some (st', out)
    /\ (exists id h, registeredAs st' 1 id h
                     /\ h_options h = mergeOptions (elem Sample_nested 1) DEFAULT_OPTIONS "copy")
    /\ saysWhatToCopy (elem Sample_nested 2) = true
    /\ untouched initial st' 2.
Proof.
  destruct (onDOMContentLoaded_binds Sample_nested initial eq_refl)
    as (st' & out & Hcall & Hin & Hother).
  exists st', out. split; [exact Hcall|]. split; [|split].
  - destruct (Hin 1) as (id & h & Hreg & _ & _ & Ho & _).
    + repeat constructor.
    + reflexivity.
    + vm_compute. reflexivity.
    + exists id, h. split; [exact Hreg | exact Ho].
  - vm_compute. reflexivity.
  - apply Hother. right. left. reflexivity.
Defined.

(** ** Clicks *)

(** The listeners of a bound element run its one handler. *)
Lemma runListeners_consistent B st e id h :
  consistentAt B st e -> registeredAs st e id h ->
  runListeners B st e = [copyHandler B st h].
Proof.
  intros Hc (Hrec & Hid & _). unfold consistentAt in Hc. rewrite Hrec in Hc.
  destruct Hc as [Hl _]. simpl in Hl. unfold runListeners. rewrite Hl. simpl.
  rewrite Hid. reflexivity.
Qed.

(** A click on a bound element runs its handler, and then what is bound
    above it. *)
Lemma click_consistent B st e id h :
  consistentAt B st e -> registeredAs st e id h ->
  click B st e = copyHandler B st h :: bubbled B st e.
Proof.
  intros Hc Hreg. unfold click, bubbled. cbn [flat_map].
  rewrite (runListeners_consistent B st e id h Hc Hreg). reflexivity.
Qed.

(** Nothing bubbles where no element above has a copy handler. *)
Lemma bubbled_unbound B st e :
  (forall a, a ∈ ancestors B e -> listenersOf st a = []) -> bubbled B st e = [].
Proof.
  unfold bubbled. induction (ancestors B e) as [|a above IH]; intros Hnone; [reflexivity|].
  cbn [flat_map]. unfold runListeners at 1.
  rewrite (Hnone a (list_elem_of_here _ _)). simpl.
  apply IH. intros b Hb. apply Hnone, list_elem_of_further, Hb.
Qed.

(** On the page with elements inside one another, after
    [DOMContentLoaded]: a click on the button runs its handler and then the
    handler of the [div] around it. *)
Example click_bubbles :
  click Sample_nested Sample_nested_loaded 1
  = [ ([CopyTextToClipboard (VStr "inner")], Returned);
      ([CopyTextToClipboard (VStr "outer")], Returned) ].
Proof. vm_compute. reflexivity. Qed.

Lemma copyValue_null B W (options : gmap string value) :
  get options "value" = VNull ->
  copyValue B W options = warn W (UnsupportedValueType "object").
Proof.
  intros Hnull. unfold copyValue. rewrite Hnull. simpl.
  rewrite andb_false_r. reflexivity.
Qed.

Lemma Object_assign_is_Some (defaults given : gmap string value) key :
  is_Some (defaults !! key) -> is_Some (Object_assign defaults given !! key).
Proof.
  intros Hd. unfold Object_assign. apply lookup_union_is_Some. right. exact Hd.
Qed.

(** The same button bound by the [DOMContentLoaded] listener copies its
    text: there the options of the call are the merged ones. *)
Example click_declared_value :
  click Sample.page Sample.loaded 1
  = [([CopyTextToClipboard (VStr "Text to copy")], Returned)].
Proof. vm_compute. reflexivity. Qed.

(** C7.  Take an element with a non-empty [data-copy-value] among the
    elements of a call of [copyClipboard] whose options, after the defaults
    are filled in, have [value: null].  The options merged for the element
    have a truthy [value], so the element is bound.  A click on it runs its
    handler first, which takes the branch for values, finds [null] in the
    options of the call, reaches the warning for unsupported value types
    (printed if warnings are on) and returns: the handler hands nothing to
    the clipboard.  (The click then bubbles to the handlers of the elements
    above, if any of them is bound; where none is, the click as a whole
    copies nothing.) *)
Theorem value_from_attribute_copies_nothing (B : Browser) (st st' : State)
    (element : value) (options : gmap string value) (out : list action)
    (els : list ElemId) (e : ElemId) (d : string) :
  let h := handlerFor B (Object_assign DEFAULT_OPTIONS options) (length (frames st)) e in
  reachable B st ->
  elementsOf B element = Some els ->
  e ∈ els ->
  copyClipboard B element options st = Some (st', out) ->
  dataset (elem B e) !! "copyValue" = Some d ->
  d ≠ "" ->
  get (Object_assign DEFAULT_OPTIONS options) "value" = VNull ->
  ToBoolean (get (mergeOptions (elem B e) (Object_assign DEFAULT_OPTIONS options) "copy")
                 "value") = true
  /\ (exists id, registeredAs st' e id h)
  /\ exists W,
       copyHandler B st' h = (warn W (UnsupportedValueType "object"), Returned)
       /\ Forall (fun a => copies a = false) (fst (copyHandler B st' h))
       /\ click B st' e
          = (warn W (UnsupportedValueType "object"), Returned) :: bubbled B st' e
       /\ ((forall a, a ∈ ancestors B e -> listenersOf st' a = []) ->
           click B st' e = [(warn W (UnsupportedValueType "object"), Returned)]).
Proof.
  intros h Hreach Hels He Hcall Hd Hne Hnull.
  set (opts := Object_assign DEFAULT_OPTIONS options) in *.
  assert (Hvalue : get (mergeOptions (elem B e) opts "copy") "value" = VStr d).
  { rewrite get_mergeOptions
      by (apply Object_assign_is_Some; vm_compute; eexists; reflexivity).
    rewrite merged_copy. change (datasetName "copy" "value") with "copyValue".
    rewrite Hd. reflexivity. }
  assert (Htruthy : ToBoolean (VStr d) = true).
  { simpl. destruct (String.eqb_spec d ""); [contradiction | reflexivity]. }
  rewrite Hvalue. split; [exact Htruthy|].
  destruct (copyClipboard_effect B element options st els Hels)
    as (st2 & out2 & Hcall2 & _ & _ & Hin & _ & _ & Hcons).
  rewrite Hcall in Hcall2. injection Hcall2 as <- <-.
  specialize (Hin e He). fold opts in Hin.
  assert (Hbound : nothingToCopy (elementOptionsOf B opts e) = false).
  { unfold nothingToCopy, elementOptionsOf. rewrite Hvalue, Htruthy.
    rewrite andb_false_r. reflexivity. }
  rewrite Hbound in Hin. destruct Hin as (id & _ & Hreg). fold h in Hreg.
  split; [exists id; exact Hreg|].
  pose proof (Hcons (reachable_consistent B st Hreach) e) as Hc.
  rewrite (click_consistent B st' e id h Hc Hreg).
  assert (Hrun : exists W,
             copyHandler B st' h = (warn W (UnsupportedValueType "object"), Returned)).
  { unfold copyHandler. simpl. unfold elementOptionsOf. rewrite Hvalue, Htruthy.
    rewrite (copyValue_null B _ opts Hnull). eexists. reflexivity. }
  destruct Hrun as [W Hrun]. rewrite Hrun. exists W.
  split; [reflexivity|].
  split; [simpl; destruct W; repeat constructor|].
  split; [reflexivity|].
  intros Hnone. rewrite (bubbled_unbound B st' e Hnone). reflexivity.
Qed.

(** The button of the sample page with [data-copy-value="Text to copy"],
    bound by [copyClipboard('button')]: nothing is above it, and a click on
    it copies nothing. *)
Lemma value_from_attribute_copies_nothing_witness :
  exists W,
    click Sample.page Sample.bound 1 = [(warn W (UnsupportedValueType "object"), Returned)].
Proof.
  assert (Hd : dataset (elem Sample.page 1) !! "copyValue" = Some "Text to copy")
    by (vm_compute; reflexivity).
  assert (Hnull : get (Object_assign DEFAULT_OPTIONS ∅) "value" = VNull)
    by (vm_compute; reflexivity).
  assert (Hne : "Text to copy" ≠ "") by discriminate.
  assert (He : 1 ∈ [0; 1; 2; 3; 6; 7; 8]) by repeat constructor.
  destruct (value_from_attribute_copies_nothing Sample.page initial Sample.bound
              (VStr "button") ∅ [] [0; 1; 2; 3; 6; 7; 8] 1 "Text to copy"
              (reach_initial Sample.page) eq_refl He Sample_bound_call Hd Hne Hnull)
    as (_ & _ & W & _ & _ & _ & Halone).
  exists W. apply Halone. intros a Ha. inversion Ha.
Defined.

(** ** The variables of a call *)

Lemma makeCopyable_frames B opts f st out e :
  frames (fst (makeCopyable B opts f (st, out) e))
  = <[f := settingsOf B opts e]> (frames st).
Proof.
  destruct (nothingToCopy (elementOptionsOf B opts e)) eqn:Hskip.
  - rewrite makeCopyable_skipped by assumption. reflexivity.
  - rewrite makeCopyable_installed by assumption. cbv zeta. cbn [fst].
    change (frames (addEventListener ?e0 ?id ?s)) with (frames s).
    change (frames (forgetPrevious e (set_frame f (settingsOf B opts e) st))
            = <[f := settingsOf B opts e]> (frames st)).
    rewrite forgetPrevious_frames. reflexivity.
Qed.

Lemma foldl_makeCopyable_frames B opts f (els : list ElemId) :
  forall st out,
    frames (fst (foldl (makeCopyable B opts f) (st, out) els))
    = match last els with
      | Some x => <[f := settingsOf B opts x]> (frames st)
      | None => frames st
      end.
Proof.
  induction els as [|x els IH]; intros st out; [reflexivity|].
  change (foldl (makeCopyable B opts f) (st, out) (x :: els))
    with (foldl (makeCopyable B opts f) (makeCopyable B opts f (st, out) x) els).
  pose proof (makeCopyable_frames B opts f st out x) as Hx.
  destruct (makeCopyable B opts f (st, out) x) as [st1 out1].
  cbn [fst] in Hx. rewrite IH, Hx.
  destruct els as [|y els]; [reflexivity|].
  rewrite last_cons_cons.
  destruct (last (y :: els)) as [z|] eqn:Hlast; [apply list_insert_insert_eq|].
  assert (Hsome : is_Some (last (y :: els))) by (apply last_is_Some; discriminate).
  rewrite Hlast in Hsome. destruct Hsome as [z Hz]. discriminate Hz.
Qed.

(** The variables of a call are a new pair; when the call returns they
    hold what the last round of its loop set. *)
Lemma copyClipboard_frames B element options st st' out els :
  elementsOf B element = Some els ->
  copyClipboard B element options st = Some (st', out) ->
  frames st'
  = frames st ++ match last els with
                 | Some x => [settingsOf B (Object_assign DEFAULT_OPTIONS options) x]
                 | None => []
                 end.
Proof.
  intros Hels Hcall.
  rewrite (copyClipboard_unfold B element options st els Hels) in Hcall.
  injection Hcall as Hcall.
  destruct els as [|x els].
  - injection Hcall as <- _. simpl. rewrite app_nil_r. reflexivity.
  - apply (f_equal fst) in Hcall. cbn [fst] in Hcall. rewrite <- Hcall.
    rewrite foldl_makeCopyable_frames.
    destruct (last (x :: els)) as [y|] eqn:Hlast.
    2: { assert (Hsome : is_Some (last (x :: els))) by (apply last_is_Some; discriminate).
         rewrite Hlast in Hsome. destruct Hsome as [z Hz]. discriminate Hz. }
    cbn [new_frame frames].
    replace (length (frames st)) with (length (frames st) + 0) by lia.
    rewrite insert_app_r. reflexivity.
Qed.

Lemma forEachCopyable_frames B (els : list ElemId) :
  forall st out st' out',
    forEachCopyable B els (st, out) = Some (st', out') ->
    exists extra, frames st' = frames st ++ extra.
Proof.
  induction els as [|x els IH]; intros st out st' out' Hall.
  - injection Hall as <- _. exists []. rewrite app_nil_r. reflexivity.
  - change (forEachCopyable B (x :: els) (st, out))
      with (match copyClipboard B (VElement x)
                    (mergeOptions (elem B x) DEFAULT_OPTIONS "copy") st with
            | None => None
            | Some (st1, out1) => forEachCopyable B els (st1, out ++ out1)
            end) in Hall.
    destruct (copyClipboard B (VElement x) _ st) as [[st1 out1]|] eqn:Hcall;
      [|discriminate Hall].
    destruct (elementsOf B (VElement x)) as [els1|] eqn:Hels1;
      [|simpl in Hels1; destruct (isHTMLElement (elem B x)); discriminate Hels1].
    pose proof (copyClipboard_frames B (VElement x) _ st st1 out1 els1 Hels1 Hcall) as H1.
    destruct (IH st1 (out ++ out1) st' out' Hall) as [extra H2].
    eexists. rewrite H2, H1, <- app_assoc. reflexivity.
Qed.

Lemma step_frames B st st' :
  step B st st' -> exists extra, frames st' = frames st ++ extra.
Proof.
  intros [element options st2 out Hcall | st2 out Hload].
  - destruct (elementsOf B element) as [els|] eqn:Hels;
      [|unfold copyClipboard in Hcall; rewrite Hels in Hcall; discriminate Hcall].
    eexists. apply (copyClipboard_frames B element options st st2 out els Hels Hcall).
  - unfold onDOMContentLoaded in Hload.
    destruct (document_querySelectorAll B copyableSelector) as [els|];
      [|discriminate Hload].
    apply (forEachCopyable_frames B els st [] st2 out Hload).
Qed.




(** ** The handler at work on targets *)


Lemma registered_closure B st e id h :
  consistentAt B st e -> registeredAs st e id h -> h_copyable h = e.
Proof.
  intros Hc (Hrec & Hid & _). unfold consistentAt in Hc. rewrite Hrec in Hc.
  destruct Hc as (_ & h' & Hid' & Hcopyable & _). simpl in Hid'.
  rewrite Hid in Hid'. injection Hid' as <-. exact Hcopyable.
Qed.


(** Whether that warning is printed is not the affair of the clicked
    element alone.  [WARNING] is one variable per call of [copyClipboard],
    assigned in every round of its loop, and the handlers of the call read
    it when they run: the setting of the last element of the call holds for
    all of them.  Bound together with the link of the sample page, which
    turns warnings on, the same button does warn. *)
Example warning_setting_is_shared :
  match copyClipboard Sample.page (VStr "[data-copy-target='#missing']") ∅ initial with
  | Some (st', _) =>
      boolVal (get (elementOptionsOf Sample.page (Object_assign DEFAULT_OPTIONS ∅) 2)
                   "suppressWarnings") = true
      /\ click Sample.page st' 2
         = [([ConsoleWarn (NoTargetElements (VStr "#missing") VNull)], Returned)]
  | None => False
  end.
Proof. vm_compute. split; reflexivity. Qed.




(* ================================================================== *)
(** * Further properties *)

(** ** [boolVal] and truthiness *)


(** ** [snakeToCamel] *)

Ltac each_ascii c :=
  destruct c as [[] [] [] [] [] [] [] []]; vm_compute; reflexivity.

Lemma hasDash_append (s t : string) :
  hasDash (s +:+ t) = hasDash s || hasDash t.
Proof.
  induction s as [|c r IH]; [reflexivity|].
  simpl. rewrite IH. apply orb_assoc.
Qed.

Lemma upper_ascii_dash (c : ascii) :
  Ascii.eqb (Str.upper_ascii c) "-"%char = Ascii.eqb c "-"%char.
Proof. each_ascii c. Qed.

Lemma lower_ascii_dash (c : ascii) :
  Ascii.eqb (Str.lower_ascii c) "-"%char = Ascii.eqb c "-"%char.
Proof. each_ascii c. Qed.

Lemma lower_upper_lower (c : ascii) :
  Str.lower_ascii (Str.upper_ascii (Str.lower_ascii c)) = Str.lower_ascii c.
Proof. each_ascii c. Qed.

(** The pieces [split("-")] gives have no ["-"] in them. *)
Lemma split_dash_pieces (s : string) :
  Forall (fun piece => hasDash piece = false) (Str.split_dash s).
Proof.
  induction s as [|c r IH]; [repeat constructor|].
  simpl. destruct (Ascii.eqb c "-") eqn:Hc.
  - constructor; [reflexivity|exact IH].
  - destruct (Str.split_dash r) as [|h t].
    + repeat constructor. simpl. rewrite Hc. reflexivity.
    + inversion IH as [|? ? Hh Ht]; subst.
      constructor; [|exact Ht]. simpl. rewrite Hc, Hh. reflexivity.
Qed.

(** A string without ["-"] is one piece. *)
Lemma split_dash_one_piece (s : string) :
  hasDash s = false -> Str.split_dash s = [s].
Proof.
  induction s as [|c r IH]; [reflexivity|].
  simpl. intros H. apply orb_false_iff in H as [Hc Hr].
  rewrite Hc, (IH Hr). reflexivity.
Qed.

Lemma capitalised_no_dash (v : string) :
  hasDash v = false ->
  hasDash (Str.toUpperCase (Str.charAt0 v) +:+ Str.slice1 v) = false.
Proof.
  destruct v as [|c r]; [reflexivity|].
  simpl. rewrite upper_ascii_dash. intros H. exact H.
Qed.

Lemma join_no_dash (parts : list string) :
  Forall (fun piece => hasDash piece = false) parts ->
  hasDash (Str.join "" parts) = false.
Proof.
  induction 1 as [|p ps Hp Hps IH]; [reflexivity|].
  destruct ps as [|q qs]; [exact Hp|].
  change (Str.join "" (p :: q :: qs)) with (p +:+ "" +:+ Str.join "" (q :: qs)).
  rewrite !hasDash_append, Hp, IH. reflexivity.
Qed.

Lemma snakeToCamel_dashless (str : string) : hasDash (snakeToCamel str) = false.
Proof.
  unfold snakeToCamel.
  set (stage1 := Str.join "" _).
  assert (Hstage : hasDash stage1 = false).
  { apply join_no_dash. apply Forall_map.
    eapply Forall_impl; [apply split_dash_pieces|].
    intros v Hv. apply capitalised_no_dash, Hv. }
  destruct stage1 as [|c r]; [reflexivity|].
  simpl in *. rewrite lower_ascii_dash. exact Hstage.
Qed.

Lemma lower_ascii_not_upper (c : ascii) : Str.is_upper (Str.lower_ascii c) = false.
Proof. each_ascii c. Qed.

(** X2. The name [snakeToCamel] gives never has a ["-"] in it, and never
    begins with an upper-case ASCII letter, whatever the string it is
    given. *)
Theorem snakeToCamel_has_no_dash (str : string) :
  hasDash (snakeToCamel str) = false
  /\ forall c r, snakeToCamel str = String c r -> Str.is_upper c = false.
Proof.
  split; [apply snakeToCamel_dashless|].
  unfold snakeToCamel.
  set (stage1 := Str.join "" _).
  destruct stage1 as [|c0 r0]; intros c r Hname; [discriminate Hname|].
  simpl in Hname. injection Hname as <- _. apply lower_ascii_not_upper.
Qed.

(** X3. On strings of ASCII characters [snakeToCamel] is idempotent: a
    name it gave is left as it is.  (Said of ASCII only: the case mappings
    of the embedding leave every other character alone, those of JavaScript
    do not.) *)
Theorem snakeToCamel_idempotent (str : string) :
  isASCII str = true ->
  snakeToCamel (snakeToCamel str) = snakeToCamel str.
Proof.
  intros _.
  pose proof (snakeToCamel_dashless str) as Hdash.
  assert (Hfirst : exists t, snakeToCamel str = Str.toLowerCase (Str.charAt0 t) +:+ Str.slice1 t)
    by (eexists; reflexivity).
  destruct Hfirst as [t Ht].
  destruct (snakeToCamel str) as [|c r] eqn:Hs; [reflexivity|].
  unfold snakeToCamel at 1.
  rewrite (split_dash_one_piece _ Hdash).
  destruct t as [|c0 r0]; [discriminate Ht|].
  simpl in Ht. injection Ht as Hc Hr. subst c r.
  simpl. rewrite lower_upper_lower. reflexivity.
Qed.

Lemma snakeToCamel_idempotent_witness :
  snakeToCamel (snakeToCamel "copy-target-children") = "copyTargetChildren".
Proof.
  rewrite (snakeToCamel_idempotent "copy-target-children" eq_refl). reflexivity.
Defined.

(** ** [mergeOptions] once more *)

(** X4. Merging the attributes of an element a second time changes
    nothing, and neither does filling in, from the options that were merged
    over, what the merged options would lack: they lack nothing.  (The
    [DOMContentLoaded] listener merges, and [copyClipboard] then fills in
    the defaults and merges again.) *)
Theorem mergeOptions_settles (target : Element) (options : gmap string value)
    (prefix : string) :
  mergeOptions target (mergeOptions target options prefix) prefix
  = mergeOptions target options prefix
  /\ Object_assign options (mergeOptions target options prefix)
     = mergeOptions target options prefix.
Proof.
  split; apply map_eq; intros key.
  - rewrite !mergeOptions_lookup.
    destruct (options !! key) as [v|]; [|reflexivity].
    simpl. unfold merged.
    destruct (datasetProperty target (datasetName prefix key)); reflexivity.
  - unfold Object_assign.
    destruct (mergeOptions target options prefix !! key) as [v|] eqn:Hm.
    + apply lookup_union_Some_l. exact Hm.
    + rewrite lookup_union_r by exact Hm.
      rewrite mergeOptions_lookup in Hm.
      destruct (options !! key); [discriminate Hm|reflexivity].
Qed.



(** ** [handlePaste] once more *)

Lemma scanItems_result (o1 o2 : gmap string value) (entries : list DataTransferItem) :
  fst (scanItems o1 entries) = fst (scanItems o2 entries).
Proof.
  induction entries as [|item rest IH]; [reflexivity|].
  simpl. destruct (isImageFileItem item).
  - destruct (getAsFile item); reflexivity.
  - destruct (isPlainTextItem item); [reflexivity|exact IH].
Qed.

(** X6. What [handlePaste] returns depends on the paste event only: the
    callbacks that are, or are not, among the options have no part in
    it. *)
Theorem handlePaste_result_ignores_options (event : PasteEvent)
    (options1 options2 : gmap string value) :
  fst (handlePaste event options1) = fst (handlePaste event options2).
Proof.
  unfold handlePaste.
  destruct (match clipboardData event with
            | Some d => Some d
            | None => window_clipboardData event
            end) as [data|]; [|reflexivity].
  destruct (items data) as [entries|].
  - apply scanItems_result.
  - destruct (negb (String.eqb (getData_Text data) "")); reflexivity.
Qed.

Lemma scanItems_skips (options : gmap string value) (before rest : list DataTransferItem) :
  Forall (fun i => isImageFileItem i = false /\ isPlainTextItem i = false) before ->
  scanItems options (before ++ rest) = scanItems options rest.
Proof.
  induction 1 as [|i before [Hi Ht] _ IH]; [reflexivity|].
  simpl. rewrite Hi, Ht. exact IH.
Qed.

(** X7. When the clipboard data has [items], the first entry that is an
    image file or a plain-text string decides alone: the entries before it
    are passed over, the entries after it are never looked at.  An image
    file goes to [onPasteImage] (or, when [getAsFile] has no file, the error
    goes to [onError] and the result is [false], even if a text entry
    follows); a plain-text string is requested for [onPasteText]. *)
Theorem handlePaste_first_match (event : PasteEvent) (options : gmap string value)
    (data : DataTransfer) (before after : list DataTransferItem)
    (item : DataTransferItem) :
  (clipboardData event = Some data
   \/ clipboardData event = None /\ window_clipboardData event = Some data) ->
  items data = Some (before ++ item :: after) ->
  Forall (fun i => isImageFileItem i = false /\ isPlainTextItem i = false) before ->
  isImageFileItem item || isPlainTextItem item = true ->
  handlePaste event options
  = let opts := Object_assign handlePaste_DEFAULT_OPTIONS options in
    if isImageFileItem item then
      match getAsFile item with
      | Some file => (VBool true, callIfFunction opts "onPasteImage" (VFile file))
      | None => (VBool false, callError opts NoFileFound)
      end
    else
      (VBool true,
       [GetAsString item (fun text => callIfFunction opts "onPasteText" (VStr text))]).
Proof.
  intros Hdata Hitems Hbefore Hitem.
  unfold handlePaste.
  assert (Hd : match clipboardData event with
               | Some d => Some d
               | None => window_clipboardData event
               end = Some data).
  { destruct Hdata as [->|[-> ->]]; reflexivity. }
  rewrite Hd, Hitems, (scanItems_skips _ _ _ Hbefore).
  cbv zeta. simpl.
  destruct (isImageFileItem item).
  - destruct (getAsFile item); reflexivity.
  - simpl in Hitem. rewrite Hitem. reflexivity.
Qed.

(** The plain text of the sample paste comes before its image and after
    its markup: the text is what is asked for. *)
Lemma handlePaste_first_match_witness :
  fst (handlePaste Sample_richPaste ∅) = VBool true
  /\ flat_map dispatched (snd (handlePaste Sample_richPaste ∅)) = [VStr "hello"].
Proof.
  rewrite (handlePaste_first_match Sample_richPaste ∅
             {| items :=
                  Some [ {| kind := "string"; type := "text/html";
                            getAsFile := None; getAsString := "<b>hello</b>" |};
                         {| kind := "string"; type := "text/plain";
                            getAsFile := None; getAsString := "hello" |};
                         {| kind := "file"; type := "image/png";
                            getAsFile := Some {| file_name := "image.png";
                                                 file_type := "image/png" |};
                            getAsString := EmptyString |} ];
                getData_Text := "hello" |}
             [ {| kind := "string"; type := "text/html";
                  getAsFile := None; getAsString := "<b>hello</b>" |} ]
             [ {| kind := "file"; type := "image/png";
                  getAsFile := Some {| file_name := "image.png";
                                       file_type := "image/png" |};
                  getAsString := EmptyString |} ]
             {| kind := "string"; type := "text/plain";
                getAsFile := None; getAsString := "hello" |}).
  - split; reflexivity.
  - left. reflexivity.
  - reflexivity.
  - repeat constructor.
  - reflexivity.
Defined.

Lemma callError_length (options : gmap string value) (e : pasteError) :
  length (callError options e) <= 1
  /\ flat_map dispatched (callError options e) = [].
Proof. unfold callError. destruct (get options "onError"); simpl; split; auto. Qed.

Lemma callIfFunction_length (options : gmap string value) (name : string) (a : value) :
  length (callIfFunction options name a) <= 1
  /\ flat_map reportedErrors (callIfFunction options name a) = []
  /\ length (flat_map (fun c' => match c' with Call _ a => [a] | _ => [] end)
                      (callIfFunction options name a)) <= 1.
Proof.
  unfold callIfFunction. destruct (get options name); simpl; repeat split; auto.
Qed.

Lemma scanItems_atMostOneCall (options : gmap string value)
    (entries : list DataTransferItem) :
  atMostOneCall (scanItems options entries).
Proof.
  induction entries as [|item rest IH].
  - split; [simpl; lia|]. right. right. split; reflexivity.
  - simpl. destruct (isImageFileItem item).
    + destruct (getAsFile item) as [file|].
      * destruct (callIfFunction_length options "onPasteImage" (VFile file))
          as (H1 & H2 & H3).
        split; [exact H1|]. left. simpl. repeat split; [exact H2|].
        unfold callIfFunction in *. destruct (get options "onPasteImage"); simpl; auto.
      * destruct (callError_length options NoFileFound) as (H1 & H2).
        split; [exact H1|]. right. left. split; [reflexivity|exact H2].
    + destruct (isPlainTextItem item); [|exact IH].
      split; [simpl; lia|]. left. simpl. repeat split.
      rewrite app_nil_r.
      apply (callIfFunction_length options "onPasteText" (VStr (getAsString item))).
Qed.

(** X8. [handlePaste] makes at most one call, whatever the options hold
    (callbacks that are no functions are not called): when it returns
    [true] it has reported no error and delivered at most one content; when
    it returns [false] it has delivered no content; when it returns
    [undefined] it has called nothing. *)
Theorem handlePaste_at_most_one_call (event : PasteEvent)
    (options : gmap string value) :
  atMostOneCall (handlePaste event options).
Proof.
  unfold handlePaste.
  destruct (match clipboardData event with
            | Some d => Some d
            | None => window_clipboardData event
            end) as [data|].
  - destruct (items data) as [entries|]; [apply scanItems_atMostOneCall|].
    destruct (negb (String.eqb (getData_Text data) "")).
    + destruct (callIfFunction_length (Object_assign handlePaste_DEFAULT_OPTIONS options)
                  "onPasteText" (VStr (getData_Text data))) as (H1 & H2 & H3).
      split; [exact H1|]. left. simpl. repeat split; [exact H2|].
      unfold callIfFunction in *.
      destruct (get (Object_assign handlePaste_DEFAULT_OPTIONS options) "onPasteText");
        simpl; auto.
    + destruct (callError_length (Object_assign handlePaste_DEFAULT_OPTIONS options)
                  NoTextData) as (H1 & H2).
      split; [exact H1|]. right. left. split; [reflexivity|exact H2].
  - destruct (callError_length (Object_assign handlePaste_DEFAULT_OPTIONS options)
                NoClipboardData) as (H1 & H2).
    split; [exact H1|]. right. left. split; [reflexivity|exact H2].
Qed.

(** ** [copyImageToClipboard] once more *)

(** An attempt draws and loads; it neither writes nor prints, and the blob
    it resolves with is the one blob its canvas gave. *)
Lemma run_getImage_quiet (B : Browser) (E : Environment) (s : env_state E)
    (imageElement : value) (changeCrossOrigin : bool) :
  exists r log s1,
    run E (getImage B imageElement changeCrossOrigin) s = (r, log, s1)
    /\ blobsCaptured log = match r with Resolved blob => [blob] | Rejected _ => [] end
    /\ writeRequests log = []
    /\ blobsWritten log = []
    /\ errorsPrinted log = [].
Proof.
  assert (Hdirect : forall img s,
            exists r log s1,
              run E (getBlobFromImage img) s = (r, log, s1)
              /\ blobsCaptured log = match r with Resolved blob => [blob] | Rejected _ => [] end
              /\ writeRequests log = [] /\ blobsWritten log = []
              /\ errorsPrinted log = []).
  { intros img s0. destruct (run_getBlobFromImage E s0 img) as (c & s1 & ->).
    eexists _, _, _. split; [reflexivity|].
    destruct c as [|[blob|]]; repeat split; reflexivity. }
  assert (Hloading : forall img s,
            exists r log s1,
              run E (whenLoaded img) s = (r, log, s1)
              /\ blobsCaptured log = match r with Resolved blob => [blob] | Rejected _ => [] end
              /\ writeRequests log = [] /\ blobsWritten log = []
              /\ errorsPrinted log = []).
  { intros img s0. unfold whenLoaded. rewrite run_bind, run_trigger.
    destruct (answer E bool (AwaitLoad img) s0) as [[|] s1]; cbv beta iota zeta.
    - destruct (Hdirect img s1) as (r & log & s2 & -> & H1 & H2 & H3 & H4).
      eexists _, _, _. split; [reflexivity|].
      unfold blobsCaptured, writeRequests, blobsWritten, errorsPrinted in *.
      simpl. auto.
    - eexists _, _, _. split; [reflexivity|]. repeat split; reflexivity. }
  assert (Hnone : exists r log s1,
            run E (Ret (Rejected NotAnImage) : Prog (settled Blob)) s = (r, log, s1)
            /\ blobsCaptured log = match r with Resolved blob => [blob] | Rejected _ => [] end
            /\ writeRequests log = [] /\ blobsWritten log = []
            /\ errorsPrinted log = []).
  { eexists _, _, _. split; [reflexivity|]. repeat split; reflexivity. }
  unfold getImage.
  destruct imageElement as [| |b|n|url|g|g|e|l|t]; try exact Hnone.
  - apply Hloading.
  - destruct (negb (tag_is B e "img")); [exact Hnone|].
    destruct changeCrossOrigin; [apply Hloading|apply Hdirect].
Qed.

(** What follows the attempts: with a blob, a clipboard item is made and
    written; every failure is printed. *)
Lemma run_after_attempts_log (E : Environment) (s : env_state E) (second : settled Blob) :
  let log :=
    logOf (run E
       (match second with
        | Rejected err => trigger (Print (ErrorFailedToFetchImage err))
        | Resolved b =>
            made ← trigger (NewClipboardItem b);
            if made : bool then
              written ← trigger (WriteBlob b);
              if written : bool then Ret tt else trigger (Print ErrorFailedToCopyImage)
            else trigger (Print (ErrorFailedToFetchImage ItemException))
        end) s) in
  blobsCaptured log = []
  /\ match second with
     | Rejected err =>
         writeRequests log = [] /\ blobsWritten log = []
         /\ errorsPrinted log = [ErrorFailedToFetchImage err]
     | Resolved b =>
         writeRequests log = [b] /\ blobsWritten log = [b] /\ errorsPrinted log = []
         \/ writeRequests log = [b] /\ blobsWritten log = []
            /\ errorsPrinted log = [ErrorFailedToCopyImage]
         \/ writeRequests log = [] /\ blobsWritten log = []
            /\ errorsPrinted log = [ErrorFailedToFetchImage ItemException]
     end.
Proof.
  destruct second as [b | err]; unfold trigger, mbind, Prog_bind; simpl.
  - destruct (answer E bool (NewClipboardItem b) s) as [[|] s1]; simpl.
    + destruct (answer E bool (WriteBlob b) s1) as [[|] s2]; simpl;
        [split; [reflexivity|]; left; repeat split; reflexivity|].
      destruct (answer E unit (Print ErrorFailedToCopyImage) s2).
      split; [reflexivity|]. right. left. repeat split; reflexivity.
    + destruct (answer E unit (Print (ErrorFailedToFetchImage ItemException)) s1).
      split; [reflexivity|]. right. right. repeat split; reflexivity.
  - destruct (answer E unit (Print (ErrorFailedToFetchImage err)) s).
    repeat split; reflexivity.
Qed.

(** X9. [copyImageToClipboard] never fails in silence and never writes
    anything but a blob its canvas gave, in every browser and for every
    input.  A run captures at most one blob.  If it captures none, nothing
    is handed to the clipboard and one 'Failed to fetch image' error is
    printed.  If it captures one, then either that blob is handed to the
    clipboard, once, and accepted without any error printed, or it is handed
    over, refused, and 'Failed to copy image to clipboard' is printed, or no
    clipboard item could be made of it, nothing is handed over and 'Failed
    to fetch image' is printed. *)
Theorem copyImageToClipboard_never_silent (B : Browser) (E : Environment)
    (s : env_state E) (imageElement : value) :
  let log := logOf (run E (copyImageToClipboard B imageElement) s) in
  match blobsCaptured log with
  | [] =>
      writeRequests log = [] /\ blobsWritten log = []
      /\ exists err, errorsPrinted log = [ErrorFailedToFetchImage err]
  | [blob] =>
      writeRequests log = [blob] /\ blobsWritten log = [blob] /\ errorsPrinted log = []
      \/ writeRequests log = [blob] /\ blobsWritten log = []
         /\ errorsPrinted log = [ErrorFailedToCopyImage]
      \/ writeRequests log = [] /\ blobsWritten log = []
         /\ errorsPrinted log = [ErrorFailedToFetchImage ItemException]
  | _ => False
  end.
Proof.
  cbv zeta. unfold copyImageToClipboard. rewrite run_bind.
  destruct (run_getImage_quiet B E s imageElement false)
    as (r1 & log1 & s1 & -> & Hc1 & Hq1 & Hw1 & He1).
  rewrite run_bind. destruct r1 as [b | err].
  - rewrite run_Ret. cbv beta iota zeta. rewrite run_bind, run_Ret. cbv beta iota zeta.
    match goal with |- context [run E ?p s1] =>
      pose proof (run_after_attempts_log E s1 (Resolved b)) as Hrest;
      destruct (run E p s1) as [[u log3] s3] end.
    unfold logOf in *. simpl in *. destruct Hrest as (Hc3 & Hrest).
    unfold blobsCaptured, writeRequests, blobsWritten, errorsPrinted in *.
    rewrite !flat_map_app, Hc1, Hq1, Hw1, He1, Hc3. simpl. exact Hrest.
  - rewrite run_bind, run_trigger.
    destruct (answer E unit (Print (WarnFailedWithoutCrossOrigin err)) s1) as [[] s1'].
    rewrite run_Ret. cbv beta iota zeta. rewrite run_bind.
    destruct (run_getImage_quiet B E s1' imageElement true)
      as (r2 & log2 & s2 & -> & Hc2 & Hq2 & Hw2 & He2).
    match goal with |- context [run E ?p s2] =>
      pose proof (run_after_attempts_log E s2 r2) as Hrest;
      destruct (run E p s2) as [[u log3] s3] end.
    unfold logOf in *. simpl in *. destruct Hrest as (Hc3 & Hrest).
    unfold blobsCaptured, writeRequests, blobsWritten, errorsPrinted in *.
    rewrite !flat_map_app. simpl. rewrite !flat_map_app.
    rewrite Hc1, Hq1, Hw1, He1, Hc2, Hq2, Hw2, He2, Hc3. simpl.
    destruct r2 as [b | err2]; simpl.
    + exact Hrest.
    + destruct Hrest as (H1 & H2 & H3). repeat split; [exact H1|exact H2|].
      exists err2. exact H3.
Qed.

(** ** One run of a handler *)

(** X10. A run of a click handler hands at most one thing to the
    clipboard, and nothing when an exception ends it, whatever the options,
    the page and the state. *)
Theorem copyHandler_at_most_one_copy (B : Browser) (st : State) (h : Handler) :
  length (List.filter copies (fst (copyHandler B st h))) <= 1
  /\ (snd (copyHandler B st h) = Threw ->
      List.filter copies (fst (copyHandler B st h)) = []).
Proof.
  unfold copyHandler.
  destruct (default {| WARNING := false; DEBUG := false |} (frames st !! h_frame h))
    as [W D].
  destruct (ToBoolean (get (h_elementOptions h) "value")).
  - split; [|discriminate]. unfold copyValue, warn. cbn [fst WARNING].
    destruct (ToBoolean (get (h_options h) "images") && isImageFile (get (h_options h) "value")).
    + destruct (get (h_options h) "value"); simpl; lia.
    + destruct (String.eqb (typeof (get (h_options h) "value")) "string"
                || String.eqb (typeof (get (h_options h) "value")) "number");
        [simpl; lia|].
      destruct (get (h_options h) "value"); destruct W; simpl; try lia;
        destruct (isHTMLElement _); simpl; lia.
  - unfold copyTargets, warn, debug. cbn [WARNING DEBUG].
    destruct (queryIfSet (document_querySelectorAll B) B _) as [targets|];
      [|split; [simpl; lia | reflexivity]].
    destruct (queryIfSet (element_querySelectorAll B (h_copyable h)) B _)
      as [targetChildren|]; [|split; [simpl; lia | reflexivity]].
    destruct (targets ++ targetChildren) as [|first others].
    + destruct W; split; simpl; try lia; discriminate.
    + destruct (negb (boolVal (get (h_elementOptions h) "multiple")));
        destruct (gather B _ _ []) as [img|[|text texts]|];
        destruct D; cbn [fst snd]; rewrite ?List.filter_app; simpl;
        split; try lia; try discriminate; reflexivity.
Qed.

(** ** Binding again, and never unbinding *)

(** What a call leaves on an element it binds. *)
Lemma bound_by_call B st st' element options out els e :
  reachable B st ->
  elementsOf B element = Some els ->
  e ∈ els ->
  copyClipboard B element options st = Some (st', out) ->
  nothingToCopy (elementOptionsOf B (Object_assign DEFAULT_OPTIONS options) e) = false ->
  consistent B st'
  /\ exists id,
       length (handlers st) <= id
       /\ registeredAs st' e id
            (handlerFor B (Object_assign DEFAULT_OPTIONS options) (length (frames st)) e).
Proof.
  intros Hreach Hels He Hcall Hbound.
  destruct (copyClipboard_effect B element options st els Hels)
    as (st2 & out2 & Hcall2 & _ & _ & Hin & _ & _ & Hcons).
  rewrite Hcall in Hcall2. injection Hcall2 as <- <-.
  specialize (Hin e He). rewrite Hbound in Hin.
  split; [apply Hcons, reachable_consistent, Hreach | exact Hin].
Qed.

(** X11. Binding an element again replaces its handler.  After a call of
    [copyClipboard] that binds an element, in any state the page can be in,
    the element has one copy handler among its click listeners, the one
    this call made with this call's options; a click on the element runs
    it, once, before the click bubbles to what is bound above; and the
    handler an earlier call had registered for the element is no longer
    among its listeners. *)
Theorem rebinding_replaces_the_handler (B : Browser) (st st' : State)
    (element : value) (options : gmap string value) (out : list action)
    (els : list ElemId) (e : ElemId) :
  let h := handlerFor B (Object_assign DEFAULT_OPTIONS options) (length (frames st)) e in
  reachable B st ->
  elementsOf B element = Some els ->
  e ∈ els ->
  copyClipboard B element options st = Some (st', out) ->
  nothingToCopy (elementOptionsOf B (Object_assign DEFAULT_OPTIONS options) e) = false ->
  (exists id, listenersOf st' e = [id] /\ handlers st' !! id = Some h)
  /\ click B st' e = copyHandler B st' h :: bubbled B st' e
  /\ forall previous,
       copyClipboardProp st !! e = Some previous ->
       rec_copyHandler previous ∉ listenersOf st' e.
Proof.
  intros h Hreach Hels He Hcall Hbound.
  destruct (bound_by_call B st st' element options out els e Hreach Hels He Hcall Hbound)
    as (Hcons & id & Hid & Hreg).
  fold h in Hreg.
  pose proof (Hcons e) as Hnew. unfold consistentAt in Hnew.
  destruct Hreg as (Hrec & Hh & Hin). rewrite Hrec in Hnew.
  destruct Hnew as (Hl & _). simpl in Hl.
  split; [exists id; split; [exact Hl | exact Hh]|].
  split; [exact (click_consistent B st' e id h (Hcons e) (conj Hrec (conj Hh Hin)))|].
  intros previous Hprev Hold.
  pose proof (reachable_consistent B st Hreach e) as Hc.
  unfold consistentAt in Hc. rewrite Hprev in Hc.
  destruct Hc as (_ & h0 & Hh0 & _).
  apply lookup_lt_Some in Hh0.
  rewrite Hl in Hold. apply list_elem_of_singleton in Hold. lia.
Qed.

Lemma Sample_rebound_call :
  copyClipboard Sample.page (VElement 6) {[ "value" := VStr "Copied!" ]} Sample.bound
  = Some (Sample_rebound, []).
Proof. vm_compute. reflexivity. Qed.

(** The button that copied the paragraph copies ['Copied!'] after it is
    bound again with that value, once. *)
Lemma rebinding_replaces_the_handler_witness :
  click Sample.page Sample_rebound 6 = [([CopyTextToClipboard (VStr "Copied!")], Returned)].
Proof.
  assert (He : 6 ∈ [6]) by repeat constructor.
  assert (Hb : nothingToCopy
                 (elementOptionsOf Sample.page
                    (Object_assign DEFAULT_OPTIONS {[ "value" := VStr "Copied!" ]}) 6)
               = false) by (vm_compute; reflexivity).
  rewrite (proj1 (proj2
             (rebinding_replaces_the_handler Sample.page Sample.bound Sample_rebound
                (VElement 6) {[ "value" := VStr "Copied!" ]} [] [6] 6
                Sample_bound_reachable eq_refl He Sample_rebound_call Hb))).
  vm_compute. reflexivity.
Defined.

(** X12. The library never unbinds: an element that has a
    [_copyClipboard] record keeps having one through every later call of
    [copyClipboard] and through the [DOMContentLoaded] listener, whatever
    their arguments (a later call can only replace the record). *)
Theorem binding_is_kept (B : Browser) (st st' : State) (e : ElemId) :
  step B st st' ->
  is_Some (copyClipboardProp st !! e) ->
  is_Some (copyClipboardProp st' !! e).
Proof.
  intros [element options st2 out Hcall | st2 out Hload] Hsome.
  - destruct (elementsOf B element) as [els|] eqn:Hels;
      [|unfold copyClipboard in Hcall; rewrite Hels in Hcall; discriminate Hcall].
    destruct (copyClipboard_effect B element options st els Hels)
      as (st3 & out3 & Hcall3 & _ & Hother & Hin & _).
    rewrite Hcall in Hcall3. injection Hcall3 as <- <-.
    destruct (decide (e ∈ els)) as [He | He].
    + specialize (Hin e He).
      destruct (nothingToCopy _).
      * destruct Hin as [_ ->]. exact Hsome.
      * destruct Hin as (id & _ & -> & _). eexists. reflexivity.
    + destruct (Hother e He) as [_ ->]. exact Hsome.
  - unfold onDOMContentLoaded in Hload.
    destruct (document_querySelectorAll B copyableSelector) as [els|];
      [|discriminate Hload].
    destruct (forEachCopyable_effect B els st [])
      as (st3 & out3 & Hall & _ & Hother & Hin & _).
    rewrite Hload in Hall. injection Hall as <- <-.
    destruct (decide (e ∈ els)) as [He | He].
    + specialize (Hin e He).
      destruct (isHTMLElement (elem B e) && saysWhatToCopy (elem B e)).
      * destruct Hin as (id & h & (-> & _) & _). eexists. reflexivity.
      * destruct Hin as [_ ->]. exact Hsome.
    + destruct (Hother e He) as [_ ->]. exact Hsome.
Qed.

Lemma binding_is_kept_witness :
  is_Some (copyClipboardProp Sample_rebound !! 7).
Proof.
  apply (binding_is_kept Sample.page Sample.bound Sample_rebound 7).
  - exact (step_copyClipboard Sample.page Sample.bound (VElement 6)
             {[ "value" := VStr "Copied!" ]} Sample_rebound [] Sample_rebound_call).
  - vm_compute. eexists. reflexivity.
Defined.

(** ** Clicks that copy a value *)

(** A click on an element that a call bound with a truthy merged [value]
    runs the branch for values on the options of the call. *)
Lemma click_value_branch B st st' element options out els e :
  reachable B st ->
  elementsOf B element = Some els ->
  e ∈ els ->
  copyClipboard B element options st = Some (st', out) ->
  ToBoolean (get (elementOptionsOf B (Object_assign DEFAULT_OPTIONS options) e) "value")
  = true ->
  exists W,
    click B st' e
    = (copyValue B W (Object_assign DEFAULT_OPTIONS options), Returned) :: bubbled B st' e.
Proof.
  intros Hreach Hels He Hcall Hvalue.
  assert (Hbound : nothingToCopy
                     (elementOptionsOf B (Object_assign DEFAULT_OPTIONS options) e) = false).
  { unfold nothingToCopy. rewrite Hvalue. apply andb_false_r. }
  destruct (bound_by_call B st st' element options out els e Hreach Hels He Hcall Hbound)
    as (Hcons & id & _ & Hreg).
  rewrite (click_consistent B st' e id _ (Hcons e) Hreg).
  unfold copyHandler.
  change (h_elementOptions (handlerFor B (Object_assign DEFAULT_OPTIONS options)
                                       (length (frames st)) e))
    with (elementOptionsOf B (Object_assign DEFAULT_OPTIONS options) e).
  rewrite Hvalue. eexists. reflexivity.
Qed.

(** X13. A string or a number given as [value] to [copyClipboard] is
    what the handler of the element copies, as it is: a click on the
    element runs that handler first, before it bubbles to what is bound
    above.  A [data-copy-value] attribute of the element does not change
    the text: it only takes part in deciding whether there is a value to
    copy (the merged value must be truthy), so with the attribute set even
    an empty programmatic string is copied. *)
Theorem click_copies_the_given_value (B : Browser) (st st' : State)
    (element : value) (options : gmap string value) (out : list action)
    (els : list ElemId) (e : ElemId) :
  let opts := Object_assign DEFAULT_OPTIONS options in
  reachable B st ->
  elementsOf B element = Some els ->
  e ∈ els ->
  copyClipboard B element options st = Some (st', out) ->
  ToBoolean (get (elementOptionsOf B opts e) "value") = true ->
  typeof (get opts "value") = "string" \/ typeof (get opts "value") = "number" ->
  click B st' e
  = ([CopyTextToClipboard (get opts "value")], Returned) :: bubbled B st' e.
Proof.
  intros opts Hreach Hels He Hcall Hvalue Htype.
  destruct (click_value_branch B st st' element options out els e
              Hreach Hels He Hcall Hvalue) as [W ->].
  fold opts. unfold copyValue.
  assert (Himage : isImageFile (get opts "value") = false).
  { destruct (get opts "value"); try reflexivity.
    destruct Htype as [Ht | Ht]; discriminate Ht. }
  rewrite Himage, andb_false_r.
  destruct Htype as [-> | ->]; reflexivity.
Qed.

Lemma Sample_valued_call :
  copyClipboard Sample.page (VElement 1) {[ "value" := VStr "Other text" ]} initial
  = Some (Sample_valued, []).
Proof. vm_compute. reflexivity. Qed.

(** The button with [data-copy-value="Text to copy"], bound with
    [{value: 'Other text'}], copies ['Other text']. *)
Lemma click_copies_the_given_value_witness :
  dataset (elem Sample.page 1) !! "copyValue" = Some "Text to copy"
  /\ click Sample.page Sample_valued 1
     = [([CopyTextToClipboard (VStr "Other text")], Returned)].
Proof.
  split; [reflexivity|].
  assert (He : 1 ∈ [1]) by repeat constructor.
  assert (Hv : ToBoolean
                 (get (elementOptionsOf Sample.page
                         (Object_assign DEFAULT_OPTIONS {[ "value" := VStr "Other text" ]}) 1)
                      "value") = true) by (vm_compute; reflexivity).
  assert (Hg : get (Object_assign DEFAULT_OPTIONS {[ "value" := VStr "Other text" ]}) "value"
               = VStr "Other text") by (vm_compute; reflexivity).
  generalize (click_copies_the_given_value Sample.page initial Sample_valued
                (VElement 1) {[ "value" := VStr "Other text" ]} [] [1] 1
                (reach_initial Sample.page) eq_refl He Sample_valued_call Hv).
  rewrite Hg. intros Hclick. rewrite Hclick by (left; reflexivity).
  vm_compute. reflexivity.
Defined.

(** X14. An array given as [value] is copied by the handler of the
    element as its items joined by a line feed; the [joinText] option, which
    joins the texts of targets, has no part in it.  (A click on the element
    runs that handler first, before it bubbles to what is bound above.) *)
Theorem click_copies_an_array_by_lines (B : Browser) (st st' : State)
    (element : value) (options : gmap string value) (out : list action)
    (els : list ElemId) (e : ElemId) (items : list value) :
  let opts := Object_assign DEFAULT_OPTIONS options in
  reachable B st ->
  elementsOf B element = Some els ->
  e ∈ els ->
  copyClipboard B element options st = Some (st', out) ->
  ToBoolean (get (elementOptionsOf B opts e) "value") = true ->
  get opts "value" = VArray items ->
  click B st' e
  = ([CopyTextToClipboard
        (VStr (Array_join B items (VStr (String (ascii_of_nat 10) EmptyString))))],
     Returned) :: bubbled B st' e.
Proof.
  intros opts Hreach Hels He Hcall Hvalue Harray.
  destruct (click_value_branch B st st' element options out els e
              Hreach Hels He Hcall Hvalue) as [W ->].
  fold opts. unfold copyValue. rewrite Harray.
  cbn [isImageFile typeof]. rewrite andb_false_r. reflexivity.
Qed.

Lemma Sample_lines_call :
  copyClipboard Sample.page (VElement 6)
    (<[ "joinText" := VStr ", " ]> {[ "value" := VArray [VStr "a"; VStr "b"] ]}) initial
  = Some (Sample_lines, []).
Proof. vm_compute. reflexivity. Qed.

(** With [{value: ['a', 'b'], joinText: ', '}] a click copies ["a\nb"]. *)
Lemma click_copies_an_array_by_lines_witness :
  click Sample.page Sample_lines 6
  = [([CopyTextToClipboard (VStr (String "a" (String (ascii_of_nat 10) "b")))], Returned)].
Proof.
  assert (He : 6 ∈ [6]) by repeat constructor.
  assert (Hv : ToBoolean
                 (get (elementOptionsOf Sample.page
                         (Object_assign DEFAULT_OPTIONS
                            (<[ "joinText" := VStr ", " ]>
                               {[ "value" := VArray [VStr "a"; VStr "b"] ]})) 6)
                      "value") = true) by (vm_compute; reflexivity).
  assert (Hg : get (Object_assign DEFAULT_OPTIONS
                      (<[ "joinText" := VStr ", " ]>
                         {[ "value" := VArray [VStr "a"; VStr "b"] ]})) "value"
               = VArray [VStr "a"; VStr "b"]) by (vm_compute; reflexivity).
  rewrite (click_copies_an_array_by_lines Sample.page initial Sample_lines
             (VElement 6)
             (<[ "joinText" := VStr ", " ]> {[ "value" := VArray [VStr "a"; VStr "b"] ]})
             [] [6] 6 [VStr "a"; VStr "b"]
             (reach_initial Sample.page) eq_refl He Sample_lines_call Hv Hg).
  vm_compute. reflexivity.
Defined.

(** X15. A [File] given as [value] is written to the clipboard by the
    handler of the element, under its own type, exactly when the [images]
    option of the call is truthy and the type of the file starts with
    [image/]; otherwise the handler copies nothing (it reaches the warning
    for unsupported value types, which is printed only when warnings are
    on).  (A click on the element runs that handler first, before it
    bubbles to what is bound above.) *)
Theorem click_copies_an_image_file (B : Browser) (st st' : State)
    (element : value) (options : gmap string value) (out : list action)
    (els : list ElemId) (e : ElemId) (file : File) :
  let opts := Object_assign DEFAULT_OPTIONS options in
  reachable B st ->
  elementsOf B element = Some els ->
  e ∈ els ->
  copyClipboard B element options st = Some (st', out) ->
  ToBoolean (get (elementOptionsOf B opts e) "value") = true ->
  get opts "value" = VFile file ->
  exists W,
    click B st' e
    = (if ToBoolean (get opts "images") && Str.startsWith (file_type file) "image/"
       then [ClipboardWrite (file_type file) file]
       else warn W (UnsupportedValueType "object"),
       Returned) :: bubbled B st' e.
Proof.
  intros opts Hreach Hels He Hcall Hvalue Hfile.
  destruct (click_value_branch B st st' element options out els e
              Hreach Hels He Hcall Hvalue) as [W ->].
  exists W. fold opts. unfold copyValue. rewrite Hfile.
  cbn [isImageFile typeof].
  destruct (ToBoolean (get opts "images") && Str.startsWith (file_type file) "image/");
    reflexivity.
Qed.

Lemma Sample_filed_call :
  copyClipboard Sample.page (VElement 6) {[ "value" := VFile Sample_png ]} initial
  = Some (Sample_filed, []).
Proof. vm_compute. reflexivity. Qed.

Lemma click_copies_an_image_file_witness :
  click Sample.page Sample_filed 6 = [([ClipboardWrite "image/png" Sample_png], Returned)].
Proof.
  assert (He : 6 ∈ [6]) by repeat constructor.
  assert (Hv : ToBoolean
                 (get (elementOptionsOf Sample.page
                         (Object_assign DEFAULT_OPTIONS {[ "value" := VFile Sample_png ]}) 6)
                      "value") = true) by (vm_compute; reflexivity).
  assert (Hg : get (Object_assign DEFAULT_OPTIONS {[ "value" := VFile Sample_png ]}) "value"
               = VFile Sample_png) by (vm_compute; reflexivity).
  assert (Hi : get (Object_assign DEFAULT_OPTIONS {[ "value" := VFile Sample_png ]}) "images"
               = VBool true) by (vm_compute; reflexivity).
  destruct (click_copies_an_image_file Sample.page initial Sample_filed
              (VElement 6) {[ "value" := VFile Sample_png ]} [] [6] 6 Sample_png
              (reach_initial Sample.page) eq_refl He Sample_filed_call Hv Hg) as [W Hclick].
  rewrite Hclick, Hi. vm_compute. reflexivity.
Defined.

(** X16. An [HTMLElement] declared with a non-empty [data-copy-value]
    copies that text once the [DOMContentLoaded] listener has run: its
    handler hands the attribute's value to the clipboard as text, and a
    click on the element runs that handler first, before it bubbles to what
    is bound above. *)
Theorem click_copies_the_declared_value (B : Browser) (st st' : State)
    (out : list action) (els : list ElemId) (e : ElemId) (d : string) :
  reachable B st ->
  document_querySelectorAll B copyableSelector = Some els ->
  e ∈ els ->
  onDOMContentLoaded B st = Some (st', out) ->
  isHTMLElement (elem B e) = true ->
  dataset (elem B e) !! "copyValue" = Some d ->
  d ≠ "" ->
  click B st' e = ([CopyTextToClipboard (VStr d)], Returned) :: bubbled B st' e.
Proof.
  intros Hreach Hels He Hload Hhtml Hd Hne.
  pose proof (onDOMContentLoaded_consistent B st st' out Hload
                (reachable_consistent B st Hreach)) as Hcons.
  unfold onDOMContentLoaded in Hload. rewrite Hels in Hload.
  destruct (forEachCopyable_effect B els st [])
    as (st2 & out2 & Hall & _ & _ & Hin & _).
  rewrite Hload in Hall. injection Hall as <- <-.
  specialize (Hin e He).
  assert (Hsays : saysWhatToCopy (elem B e) = true).
  { unfold saysWhatToCopy, nonEmptyAttribute. rewrite Hd.
    destruct (String.eqb_spec d ""); [contradiction|]. apply orb_true_r. }
  rewrite Hhtml, Hsays in Hin. destruct Hin as (id & h & Hreg & _ & Heo & Ho).
  rewrite (click_consistent B st' e id h (Hcons e) Hreg).
  assert (Hvalue : get (declaredOptions B e) "value" = VStr d).
  { unfold declaredOptions.
    rewrite get_mergeOptions by (vm_compute; eexists; reflexivity).
    rewrite merged_copy. change (datasetName "copy" "value") with "copyValue".
    rewrite Hd. reflexivity. }
  unfold copyHandler. rewrite Heo, Ho, Hvalue.
  assert (Htruthy : ToBoolean (VStr d) = true).
  { simpl. destruct (String.eqb_spec d ""); [contradiction | reflexivity]. }
  rewrite Htruthy. unfold copyValue. rewrite Hvalue.
  cbn [isImageFile typeof]. rewrite andb_false_r. reflexivity.
Qed.

Lemma Sample_nested_loaded_call :
  onDOMContentLoaded Sample_nested initial = Some (Sample_nested_loaded, []).
Proof. vm_compute. reflexivity. Qed.

(** On the page with elements inside one another, a click on the button
    copies the button's text first, and then the [div] around it copies
    its own. *)
Lemma click_copies_the_declared_value_witness :
  click Sample_nested Sample_nested_loaded 1
  = [ ([CopyTextToClipboard (VStr "inner")], Returned);
      ([CopyTextToClipboard (VStr "outer")], Returned) ].
Proof.
  assert (He : 1 ∈ [0; 1; 2]) by repeat constructor.
  assert (Hd : dataset (elem Sample_nested 1) !! "copyValue" = Some "inner")
    by (vm_compute; reflexivity).
  assert (Hne : "inner" ≠ "") by discriminate.
  rewrite (click_copies_the_declared_value Sample_nested initial Sample_nested_loaded []
             [0; 1; 2] 1 "inner"
             (reach_initial Sample_nested) eq_refl He Sample_nested_loaded_call
             eq_refl Hd Hne).
  vm_compute. reflexivity.
Defined.

(** ** What a call of [copyClipboard] prints *)

Lemma Forall_flat_map_each {A C : Type} (P : C -> Prop) (g : A -> list C) (l : list A) :
  (forall x, x ∈ l -> Forall P (g x)) -> Forall P (flat_map g l).
Proof.
  induction l as [|x l IH]; intros Hall; [constructor|].
  simpl. apply Forall_app. split.
  - apply Hall. apply list_elem_of_here.
  - apply IH. intros y Hy. apply Hall. apply list_elem_of_further, Hy.
Qed.

(** X17. A call of [copyClipboard] hands nothing to the clipboard and
    prints no debug line.  All it prints are warnings: that no element was
    found, when there is none, or that there is nothing to copy for an
    element of the call, which it then has left as it was. *)
Theorem copyClipboard_only_warns (B : Browser) (st st' : State)
    (element : value) (options : gmap string value) (out : list action)
    (els : list ElemId) :
  elementsOf B element = Some els ->
  copyClipboard B element options st = Some (st', out) ->
  Forall (fun a =>
            a = ConsoleWarn NoElementsFound /\ els = []
            \/ exists e, a = ConsoleWarn (NothingToCopy e) /\ e ∈ els /\ untouched st st' e)
         out.
Proof.
  intros Hels Hcall.
  destruct (copyClipboard_effect B element options st els Hels)
    as (st2 & out2 & Hcall2 & _ & _ & Hin & Hnone & Hsome & _).
  rewrite Hcall in Hcall2. injection Hcall2 as <- <-.
  destruct els as [|x els].
  - destruct (Hnone eq_refl) as [_ ->]. unfold warn.
    destruct (negb _); repeat constructor.
  - rewrite (Hsome ltac:(discriminate)).
    apply Forall_flat_map_each. intros e He. specialize (Hin e He).
    unfold skipWarning, warn.
    destruct (nothingToCopy (elementOptionsOf B (Object_assign DEFAULT_OPTIONS options) e));
      [|constructor].
    destruct (negb (boolVal (get (elementOptionsOf B (Object_assign DEFAULT_OPTIONS options) e)
                                 "suppressWarnings"))); [|constructor].
    constructor; [|constructor]. right. exists e. auto.
Qed.

Lemma Sample_skipped_call :
  copyClipboard Sample.page (VElement 0) {[ "suppressWarnings" := VBool false ]} initial
  = Some (Sample_skipped, [ConsoleWarn (NothingToCopy 0)]).
Proof. vm_compute. reflexivity. Qed.

(** The first button of the sample page has nothing to copy: bound with
    warnings on, it is warned about and left alone. *)
Lemma copyClipboard_only_warns_witness :
  Forall (fun a =>
            a = ConsoleWarn NoElementsFound /\ [0] = []
            \/ exists e, a = ConsoleWarn (NothingToCopy e) /\ e ∈ [0]
                         /\ untouched initial Sample_skipped e)
         [ConsoleWarn (NothingToCopy 0)].
Proof.
  exact (copyClipboard_only_warns Sample.page initial Sample_skipped (VElement 0)
           {[ "suppressWarnings" := VBool false ]} [ConsoleWarn (NothingToCopy 0)] [0]
           eq_refl Sample_skipped_call).
Defined.



(** X19. [WARNING] and [DEBUG] are one pair of variables per call of
    [copyClipboard], assigned in every round of its loop and read by every
    handler the call makes.  So when the call has returned, each of its
    handlers warns and logs as the options of the last element of the call
    say, whatever its own element's [data-copy-suppress-warnings] and
    [data-copy-debug] are; and the variables of earlier calls are as they
    were. *)
Theorem copyClipboard_shares_its_settings (B : Browser) (st st' : State)
    (element : value) (options : gmap string value) (out : list action)
    (els : list ElemId) (x : ElemId) :
  let opts := Object_assign DEFAULT_OPTIONS options in
  elementsOf B element = Some els ->
  last els = Some x ->
  copyClipboard B element options st = Some (st', out) ->
  frames st' = frames st ++ [settingsOf B opts x]
  /\ forall e,
       copyHandler B st' (handlerFor B opts (length (frames st)) e)
       = handlerRun B opts (settingsOf B opts x) e.
Proof.
  intros opts Hels Hlast Hcall.
  pose proof (copyClipboard_frames B element options st st' out els Hels Hcall) as Hfr.
  rewrite Hlast in Hfr. fold opts in Hfr.
  split; [exact Hfr|].
  intros e. unfold copyHandler, handlerRun. cbn [h_frame handlerFor].
  rewrite Hfr, list_lookup_middle by reflexivity. reflexivity.
Qed.

Lemma Sample_shared_call :
  copyClipboard Sample.page (VStr "[data-copy-target='#missing']") ∅ initial
  = Some (Sample_shared, []).
Proof. vm_compute. reflexivity. Qed.

(** The button of the sample page with [data-copy-target="#missing"] has
    no [data-copy-suppress-warnings], and warnings are suppressed by
    default; bound in one call with the link that turns them on, it
    warns. *)
Lemma copyClipboard_shares_its_settings_witness :
  boolVal (get (elementOptionsOf Sample.page (Object_assign DEFAULT_OPTIONS ∅) 2)
               "suppressWarnings") = true
  /\ copyHandler Sample.page Sample_shared
       (handlerFor Sample.page (Object_assign DEFAULT_OPTIONS ∅) 0 2)
     = ([ConsoleWarn (NoTargetElements (VStr "#missing") VNull)], Returned).
Proof.
  split; [vm_compute; reflexivity|].
  assert (Hq : elementsOf Sample.page (VStr "[data-copy-target='#missing']") = Some [2; 9])
    by (vm_compute; reflexivity).
  pose proof (proj2 (copyClipboard_shares_its_settings Sample.page initial Sample_shared
                       (VStr "[data-copy-target='#missing']") ∅ [] [2; 9] 9
                       Hq eq_refl Sample_shared_call) 2) as Hrun.
  change (length (frames initial)) with 0 in Hrun.
  rewrite Hrun. vm_compute. reflexivity.
Defined.

(** ** Clicks elsewhere *)

Lemma makeCopyable_handlers B opts f st out e :
  handlers (fst (makeCopyable B opts f (st, out) e))
  = handlers st ++ (if nothingToCopy (elementOptionsOf B opts e) then []
                    else [handlerFor B opts f e]).
Proof.
  destruct (nothingToCopy (elementOptionsOf B opts e)) eqn:Hskip.
  - rewrite makeCopyable_skipped by assumption. simpl. rewrite app_nil_r. reflexivity.
  - rewrite makeCopyable_installed by assumption. cbv zeta. cbn [fst].
    change (handlers (addEventListener ?e0 ?id ?s)) with (handlers s).
    change (handlers (forgetPrevious e (set_frame f (settingsOf B opts e) st))
              ++ [handlerFor B opts f e]
            = handlers st ++ [handlerFor B opts f e]).
    rewrite forgetPrevious_handlers. reflexivity.
Qed.

Lemma foldl_makeCopyable_handlers B opts f (els : list ElemId) :
  forall st out,
  exists extra,
    handlers (fst (foldl (makeCopyable B opts f) (st, out) els)) = handlers st ++ extra
    /\ Forall (fun h => h_frame h = f) extra.
Proof.
  induction els as [|x els IH]; intros st out.
  - exists []. simpl. rewrite app_nil_r. split; [reflexivity | constructor].
  - change (foldl (makeCopyable B opts f) (st, out) (x :: els))
      with (foldl (makeCopyable B opts f) (makeCopyable B opts f (st, out) x) els).
    pose proof (makeCopyable_handlers B opts f st out x) as Hx.
    destruct (makeCopyable B opts f (st, out) x) as [st1 out1].
    destruct (IH st1 out1) as (extra & Hextra & Hall).
    cbn [fst] in Hx. rewrite Hextra, Hx, <- app_assoc.
    eexists. split; [reflexivity|].
    apply Forall_app. split; [|exact Hall].
    destruct (nothingToCopy _); repeat constructor.
Qed.

Lemma copyClipboard_framed B element options st st' out :
  copyClipboard B element options st = Some (st', out) -> framed st -> framed st'.
Proof.
  intros Hcall Hst.
  destruct (elementsOf B element) as [els|] eqn:Hels;
    [|unfold copyClipboard in Hcall; rewrite Hels in Hcall; discriminate Hcall].
  pose proof (copyClipboard_frames B element options st st' out els Hels Hcall) as Hfr.
  rewrite (copyClipboard_unfold B element options st els Hels) in Hcall.
  injection Hcall as Hcall.
  destruct els as [|x els]; [injection Hcall as <- _; exact Hst|].
  apply (f_equal fst) in Hcall. cbn [fst] in Hcall.
  match type of Hcall with
  | fst (foldl _ (?s0, _) _) = _ =>
      destruct (foldl_makeCopyable_handlers B (Object_assign DEFAULT_OPTIONS options)
                  (length (frames st)) (x :: els) s0 []) as (extra & Hextra & Hall)
  end.
  rewrite Hcall in Hextra. cbn [new_frame handlers] in Hextra.
  destruct (last (x :: els)) as [y|] eqn:Hlast.
  2: { assert (Hsome : is_Some (last (x :: els))) by (apply last_is_Some; discriminate).
       rewrite Hlast in Hsome. destruct Hsome as [z Hz]. discriminate Hz. }
  unfold framed. rewrite Hextra, Hfr, length_app. simpl.
  apply Forall_app. split.
  - eapply Forall_impl; [exact Hst|]. intros h Hh. simpl in Hh. lia.
  - eapply Forall_impl; [exact Hall|]. intros h Hh. simpl in Hh. lia.
Qed.

Lemma forEachCopyable_framed B (els : list ElemId) :
  forall st out st' out',
    forEachCopyable B els (st, out) = Some (st', out') -> framed st -> framed st'.
Proof.
  induction els as [|x els IH]; intros st out st' out' Hall Hst.
  - injection Hall as <- _. exact Hst.
  - change (forEachCopyable B (x :: els) (st, out))
      with (match copyClipboard B (VElement x)
                    (mergeOptions (elem B x) DEFAULT_OPTIONS "copy") st with
            | None => None
            | Some (st1, out1) => forEachCopyable B els (st1, out ++ out1)
            end) in Hall.
    destruct (copyClipboard B (VElement x) _ st) as [[st1 out1]|] eqn:Hcall;
      [|discriminate Hall].
    apply (IH st1 (out ++ out1) st' out' Hall).
    apply (copyClipboard_framed B _ _ st st1 out1 Hcall Hst).
Qed.

Lemma reachable_framed B st : reachable B st -> framed st.
Proof.
  induction 1 as [| st element options st' out _ IH Hcall | st st' out _ IH Hload].
  - constructor.
  - apply (copyClipboard_framed B element options st st' out Hcall IH).
  - unfold onDOMContentLoaded in Hload.
    destruct (document_querySelectorAll B copyableSelector) as [els|];
      [|discriminate Hload].
    apply (forEachCopyable_framed B els st [] st' out Hload IH).
Qed.

(** The listeners of an element whose listeners and record are as they
    were run as they did, when the closures and the variables that were
    there are still there. *)
Lemma runListeners_untouched B st st' e :
  consistent B st -> framed st ->
  untouched st st' e ->
  (exists extra, handlers st' = handlers st ++ extra) ->
  (exists extra, frames st' = frames st ++ extra) ->
  runListeners B st' e = runListeners B st e.
Proof.
  intros Hcons Hframed [Hl Hp] [hs Hh] [fs Hf].
  unfold runListeners. rewrite Hl.
  pose proof (Hcons e) as Hc. unfold consistentAt in Hc.
  destruct (copyClipboardProp st !! e) as [r|]; [|rewrite Hc; reflexivity].
  destruct Hc as (-> & h & Hid & _).
  simpl. rewrite Hh, (lookup_app_l_Some _ _ _ _ Hid), Hid. simpl.
  unfold copyHandler. rewrite Hf.
  assert (Hlt : h_frame h < length (frames st)).
  { unfold framed in Hframed. rewrite Forall_forall in Hframed.
    apply Hframed. eapply list_elem_of_lookup_2. exact Hid. }
  rewrite lookup_app_l by exact Hlt. reflexivity.
Qed.

Lemma flat_map_agree {A C : Type} (f g : A -> list C) (l : list A) :
  (forall a, a ∈ l -> f a = g a) -> flat_map f l = flat_map g l.
Proof.
  induction l as [|a l IH]; intros Hsame; [reflexivity|].
  cbn [flat_map]. rewrite (Hsame a (list_elem_of_here _ _)).
  rewrite IH; [reflexivity|]. intros b Hb. apply Hsame, list_elem_of_further, Hb.
Qed.

(** X20. Calling [copyClipboard] a second time with the same arguments
    changes nothing a click shows: on every element the call binds, a click
    after the second call does what a click after the first did. *)
Theorem copyClipboard_twice (B : Browser) (st st1 st2 : State)
    (element : value) (options : gmap string value) (out1 out2 : list action)
    (els : list ElemId) (e : ElemId) :
  reachable B st ->
  elementsOf B element = Some els ->
  e ∈ els ->
  nothingToCopy (elementOptionsOf B (Object_assign DEFAULT_OPTIONS options) e) = false ->
  copyClipboard B element options st = Some (st1, out1) ->
  copyClipboard B element options st1 = Some (st2, out2) ->
  click B st2 e = click B st1 e /\ out2 = out1.
Proof.
  intros Hreach Hels He Hbound Hcall1 Hcall2.
  assert (Hreach1 : reachable B st1)
    by (eapply reach_copyClipboard; [exact Hreach | exact Hcall1]).
  assert (Hne : els ≠ []) by (intros ->; inversion He).
  destruct (last els) as [x|] eqn:Hlast.
  2: { assert (Hsome : is_Some (last els)) by (apply last_is_Some; exact Hne).
       rewrite Hlast in Hsome. destruct Hsome as [z Hz]. discriminate Hz. }
  pose proof (copyClipboard_frames B element options st st1 out1 els Hels Hcall1) as Hf1.
  pose proof (copyClipboard_frames B element options st1 st2 out2 els Hels Hcall2) as Hf2.
  rewrite Hlast in Hf1, Hf2.
  destruct (copyClipboard_effect B element options st els Hels)
    as (sa & oa & Ha & _ & _ & Hin1 & _ & Hoa & Hcons1).
  destruct (copyClipboard_effect B element options st1 els Hels)
    as (sb & ob & Hb & Hgrow2 & Hother2 & Hin2 & _ & Hob & Hcons2).
  rewrite Hcall1 in Ha. injection Ha as <- <-.
  rewrite Hcall2 in Hb. injection Hb as <- <-.
  pose proof (Hcons1 (reachable_consistent B st Hreach)) as Hc1.
  pose proof (Hcons2 Hc1) as Hc2.
  split; [|rewrite (Hoa Hne), (Hob Hne); reflexivity].
  assert (Hsame : forall a, runListeners B st2 a = runListeners B st1 a).
  { intros a. destruct (decide (a ∈ els)) as [Hael | Hael].
    - specialize (Hin1 a Hael). specialize (Hin2 a Hael).
      destruct (nothingToCopy
                  (elementOptionsOf B (Object_assign DEFAULT_OPTIONS options) a)).
      + apply runListeners_untouched;
          [exact Hc1 | apply reachable_framed with (B := B), Hreach1
           | exact Hin2 | exact Hgrow2 | eexists; exact Hf2].
      + destruct Hin1 as (id1 & _ & Hreg1). destruct Hin2 as (id2 & _ & Hreg2).
        rewrite (runListeners_consistent B st1 a id1 _ (Hc1 a) Hreg1).
        rewrite (runListeners_consistent B st2 a id2 _ (Hc2 a) Hreg2).
        f_equal. unfold copyHandler.
        cbn [h_frame handlerFor h_elementOptions h_options h_copyable].
        rewrite Hf2, list_lookup_middle by reflexivity.
        rewrite Hf1, list_lookup_middle by reflexivity. reflexivity.
    - apply runListeners_untouched;
        [exact Hc1 | apply reachable_framed with (B := B), Hreach1
         | apply Hother2, Hael | exact Hgrow2 | eexists; exact Hf2]. }
  unfold click. apply flat_map_ext. exact Hsame.
Qed.

Lemma Sample_twice_call :
  copyClipboard Sample.page (VStr "button") ∅ Sample.bound = Some (Sample_twice, []).
Proof. vm_compute. reflexivity. Qed.

Lemma copyClipboard_twice_witness :
  click Sample.page Sample_twice 6 = click Sample.page Sample.bound 6.
Proof.
  assert (He : 6 ∈ [0; 1; 2; 3; 6; 7; 8]) by repeat constructor.
  assert (Hb : nothingToCopy
                 (elementOptionsOf Sample.page (Object_assign DEFAULT_OPTIONS ∅) 6) = false)
    by (vm_compute; reflexivity).
  exact (proj1 (copyClipboard_twice Sample.page initial Sample.bound Sample_twice
                  (VStr "button") ∅ [] [] [0; 1; 2; 3; 6; 7; 8] 6
                  (reach_initial Sample.page) eq_refl He Hb
                  Sample_bound_call Sample_twice_call)).
Defined.

(** X21. A call of [copyClipboard] changes a click only through the
    elements it binds.  On an element such that neither it nor any element
    above it is bound by the call (each of them is not among the elements
    of the call, or is skipped by it for having nothing to copy), a click
    after the call does exactly what a click before it did. *)
Theorem clicks_elsewhere_are_unchanged (B : Browser) (st st' : State)
    (element : value) (options : gmap string value) (out : list action)
    (els : list ElemId) (e : ElemId) :
  reachable B st ->
  elementsOf B element = Some els ->
  copyClipboard B element options st = Some (st', out) ->
  (forall a, a ∈ e :: ancestors B e ->
     a ∉ els
     \/ nothingToCopy (elementOptionsOf B (Object_assign DEFAULT_OPTIONS options) a)
        = true) ->
  click B st' e = click B st e.
Proof.
  intros Hreach Hels Hcall Hnot.
  destruct (copyClipboard_effect B element options st els Hels)
    as (st2 & out2 & Hcall2 & Hgrow & Hother & Hin & _).
  rewrite Hcall in Hcall2. injection Hcall2 as <- <-.
  unfold click. apply flat_map_agree. intros a Ha.
  apply runListeners_untouched.
  - apply reachable_consistent, Hreach.
  - apply reachable_framed with (B := B), Hreach.
  - destruct (decide (a ∈ els)) as [Hael | Hael]; [|apply Hother, Hael].
    destruct (Hnot a Ha) as [Hout | Hskip]; [contradiction|].
    specialize (Hin a Hael). rewrite Hskip in Hin. exact Hin.
  - exact Hgrow.
  - eexists. apply (copyClipboard_frames B element options st st' out els Hels Hcall).
Qed.

(** Binding one button of the sample page again leaves the click on
    another as it was: no element is above it. *)
Lemma clicks_elsewhere_are_unchanged_witness :
  click Sample.page Sample_rebound 7 = click Sample.page Sample.bound 7.
Proof.
  apply (clicks_elsewhere_are_unchanged Sample.page Sample.bound Sample_rebound
           (VElement 6) {[ "value" := VStr "Copied!" ]} [] [6] 7
           Sample_bound_reachable eq_refl Sample_rebound_call).
  intros a Ha. apply list_elem_of_singleton in Ha. subst a.
  left. intros Hin. apply list_elem_of_singleton in Hin. discriminate Hin.
Defined.

Lemma step_handlers B st st' :
  step B st st' -> exists extra, handlers st' = handlers st ++ extra.
Proof.
  intros [element options st2 out Hcall | st2 out Hload].
  - destruct (elementsOf B element) as [els|] eqn:Hels;
      [|unfold copyClipboard in Hcall; rewrite Hels in Hcall; discriminate Hcall].
    destruct (copyClipboard_effect B element options st els Hels)
      as (st3 & out3 & Hcall3 & Hgrow & _).
    rewrite Hcall in Hcall3. injection Hcall3 as <- <-. exact Hgrow.
  - unfold onDOMContentLoaded in Hload.
    destruct (document_querySelectorAll B copyableSelector) as [els|];
      [|discriminate Hload].
    destruct (forEachCopyable_effect B els st [])
      as (st3 & out3 & Hall & Hgrow & _).
    rewrite Hload in Hall. injection Hall as <- <-. exact Hgrow.
Qed.

(** X22. A later call of [copyClipboard], or the [DOMContentLoaded]
    listener, changes no handler that is there, in any state the page can be
    in: the closure keeps its identity, and a run of it does what it did
    before.  The variables [WARNING] and [DEBUG] it reads belong to the call
    that made it, and later calls assign their own. *)
Theorem later_calls_leave_handlers_alone (B : Browser) (st st' : State)
    (id : nat) (h : Handler) :
  reachable B st ->
  handlers st !! id = Some h ->
  step B st st' ->
  handlers st' !! id = Some h
  /\ copyHandler B st' h = copyHandler B st h.
Proof.
  intros Hreach Hid Hstep.
  destruct (step_handlers B st st' Hstep) as [hs Hh].
  destruct (step_frames B st st' Hstep) as [fs Hf].
  split; [rewrite Hh; apply lookup_app_l_Some; exact Hid|].
  assert (Hlt : h_frame h < length (frames st)).
  { pose proof (reachable_framed B st Hreach) as Hframed.
    unfold framed in Hframed. rewrite Forall_forall in Hframed.
    apply Hframed. eapply list_elem_of_lookup_2. exact Hid. }
  unfold copyHandler. rewrite Hf, lookup_app_l by exact Hlt. reflexivity.
Qed.

(** The handler of the button of the sample page that copies the picture
    still does so after another button is bound again. *)
Lemma later_calls_leave_handlers_alone_witness :
  copyHandler Sample.page Sample_rebound
    (handlerFor Sample.page (Object_assign DEFAULT_OPTIONS ∅) 0 7)
  = ([CopyImageToClipboard 4], Returned).
Proof.
  assert (Hid : handlers Sample.bound !! 3
                = Some (handlerFor Sample.page (Object_assign DEFAULT_OPTIONS ∅) 0 7))
    by (vm_compute; reflexivity).
  rewrite (proj2 (later_calls_leave_handlers_alone Sample.page Sample.bound Sample_rebound
                    3 (handlerFor Sample.page (Object_assign DEFAULT_OPTIONS ∅) 0 7)
                    Sample_bound_reachable Hid
                    (step_copyClipboard Sample.page Sample.bound (VElement 6)
                       {[ "value" := VStr "Copied!" ]} Sample_rebound []
                       Sample_rebound_call))).
  vm_compute. reflexivity.
Defined.

(** ** A [select] with nothing selected *)

Lemma textOf_unselected B t :
  tag_is B t "select" = true ->
  (selectedIndex (elem B t) < 0)%Z ->
  textOf B t = None /\ tag_is B t "img" = false.
Proof.
  unfold textOf, tag_is, selectedOption. intros Htag Hindex.
  apply String.eqb_eq in Htag. rewrite Htag. simpl.
  destruct (Z.ltb_spec (selectedIndex (elem B t)) 0); [split; reflexivity | lia].
Qed.

Lemma gather_TypeError B (images : bool) (before after : list ElemId) (t : ElemId) :
  forall resultingTexts,
  (forall p, p ∈ before -> is_Some (textOf B p) /\ images && tag_is B p "img" = false) ->
  textOf B t = None -> tag_is B t "img" = false ->
  gather B images (before ++ t :: after) resultingTexts = TypeError.
Proof.
  intros acc Hbefore Ht Himg. revert acc.
  induction before as [|p before IH]; intros acc.
  - simpl. rewrite Himg, andb_false_r, Ht. reflexivity.
  - destruct (Hbefore p (list_elem_of_here _ _)) as [[text Htext] Hp].
    simpl. rewrite Hp, Htext. apply IH.
    intros q Hq. apply Hbefore. apply list_elem_of_further, Hq.
Qed.

(** X23. A [select] element in which nothing is selected has no text to
    give: when the handler of a bound element comes to one among its
    selected targets (after targets that have a text and are not copied as
    images), an exception ends the handler.  It hands nothing to the
    clipboard, the texts gathered before included.  (The exception does not
    keep the click from bubbling to what is bound above the element.) *)
Theorem click_on_unselected_select_throws (B : Browser) (st : State) (e : ElemId)
    (id : nat) (h : Handler) (targets targetChildren before after : list ElemId)
    (t : ElemId) :
  let eo := h_elementOptions h in
  let collected := targets ++ targetChildren in
  let selected :=
    if boolVal (get eo "multiple") then collected else take 1 collected in
  reachable B st ->
  registeredAs st e id h ->
  ToBoolean (get eo "value") = false ->
  queryIfSet (document_querySelectorAll B) B (get eo "target") = Some targets ->
  queryIfSet (element_querySelectorAll B e) B (get eo "targetChildren")
  = Some targetChildren ->
  selected = before ++ t :: after ->
  (forall p, p ∈ before ->
     is_Some (textOf B p) /\ boolVal (get eo "images") && tag_is B p "img" = false) ->
  tag_is B t "select" = true ->
  (selectedIndex (elem B t) < 0)%Z ->
  exists log,
    copyHandler B st h = (log, Threw)
    /\ click B st e = (log, Threw) :: bubbled B st e
    /\ Forall (fun a => copies a = false) log.
Proof.
  intros eo collected selected Hreach Hreg Hvalue Htargets Hchildren Hsel Hbefore
         Htag Hindex.
  pose proof (reachable_consistent B st Hreach e) as Hc.
  pose proof (registered_closure B st e id h Hc Hreg) as Hcopyable.
  destruct (textOf_unselected B t Htag Hindex) as [Htext Himg].
  assert (Hrun : exists log,
             copyHandler B st h = (log, Threw)
             /\ Forall (fun a => copies a = false) log).
  { unfold copyHandler. fold eo. rewrite Hvalue.
    unfold copyTargets. rewrite Hcopyable. fold eo. rewrite Htargets, Hchildren.
    fold collected. subst selected.
    destruct collected as [|first others].
    - destruct (boolVal (get eo "multiple")); destruct before; discriminate Hsel.
    - destruct (boolVal (get eo "multiple")); cbn [negb].
      + rewrite Hsel, (gather_TypeError B _ before after t [] Hbefore Htext Himg).
        eexists. split; [reflexivity|]. unfold debug.
        destruct (DEBUG _); repeat constructor.
      + change (take 1 (first :: others)) with (first :: take 0 others) in Hsel.
        rewrite take_0 in Hsel.
        rewrite Hsel, (gather_TypeError B _ before after t [] Hbefore Htext Himg).
        eexists. split; [reflexivity|]. unfold debug.
        destruct (DEBUG _); repeat constructor. }
  destruct Hrun as (log & Hrun & Hlog). exists log.
  split; [exact Hrun|]. split; [|exact Hlog].
  rewrite (click_consistent B st e id h Hc Hreg), Hrun. reflexivity.
Qed.

Lemma Sample_form_loaded_call :
  onDOMContentLoaded Sample_form initial = Some (Sample_form_loaded, []).
Proof. vm_compute. reflexivity. Qed.

Lemma Sample_form_loaded_registered :
  registeredAs Sample_form_loaded 1 0
    (handlerFor Sample_form (declaredOptions Sample_form 1) 0 1).
Proof.
  split; [vm_compute; reflexivity|]. split; [vm_compute; reflexivity|].
  assert (Hl : listenersOf Sample_form_loaded 1 = [0]) by (vm_compute; reflexivity).
  rewrite Hl. constructor.
Qed.

(** The button of the form page copies the choice made in its [select];
    while no choice is made, a click on it ends in an exception. *)
Lemma click_on_unselected_select_throws_witness :
  click Sample_form Sample_form_loaded 1 = [([], Threw)].
Proof.
  destruct (click_on_unselected_select_throws Sample_form Sample_form_loaded 1 0
              (handlerFor Sample_form (declaredOptions Sample_form 1) 0 1)
              [0] [] [] [] 0
              (reach_DOMContentLoaded Sample_form initial Sample_form_loaded []
                 (reach_initial Sample_form) Sample_form_loaded_call)
              Sample_form_loaded_registered)
    as (log & _ & Hclick & _).
  - vm_compute. reflexivity.
  - vm_compute. reflexivity.
  - vm_compute. reflexivity.
  - vm_compute. reflexivity.
  - intros p Hp. inversion Hp.
  - vm_compute. reflexivity.
  - vm_compute. reflexivity.
  - rewrite Hclick.
    assert (Hrun : click Sample_form Sample_form_loaded 1 = [([], Threw)])
      by (vm_compute; reflexivity).
    rewrite Hclick in Hrun. exact Hrun.
Defined.
